(** * sg-bus-reminder-bot: a shallow embedding of [bot.py] and
    [dynamodb_helper.py], and the properties of its caching, validation,
    arrival and scheduling code.

    Conventions.
    - A Python [str] is a list of Unicode code points ([list N]); [py "abc"]
      is the string of an ASCII literal.
    - The character tables of the Python runtime ([str.isspace],
      [str.isdigit], [str.lower]) and [datetime.fromisoformat] are library
      code: they are fields of the classes [CharTables] and [IsoParser], and
      every theorem holds for all instances.  The worked examples use ASCII
      tables and a parser for one fragment of the ISO format.
    - The upstream HTTP API, the wall clock and the Telegram API are oracles
      of an [Env] record, indexed by the number of requests (clock reads,
      calls of [send_message]) made so far.
    - The module globals ([bus_route_cache], [all_bus_stops_cache],
      [user_reminders]) are fields of [State], next to the three counters
      and the log of externally visible events.
    - An exception that the code does not catch is a result [Raised e] of
      the computation, next to [Returned a].
    - [while True] is modelled with fuel: a computation is a function
      [State -> option (A * State)], where [None] means that the loop did
      not leave within the given number of iterations.
    - A Python [float] is a binary64 number [mant * 2^expo]; a division is
      rounded to the nearest such number, ties to the even mantissa. *)

From Stdlib Require Import ZArith NArith Ascii String DecimalString Lia.
From Stdlib Require Floats.SpecFloat.
From stdpp Require Import gmap list.

Local Open Scope Z_scope.

(** ** Python text *)

Abbreviation str := (list N).

Definition py (s : string) : str := N_of_ascii <$> list_ascii_of_string s.

Class CharTables := {
  isspace : N → bool;          (* the characters [str.strip()] removes *)
  isdigit : N → bool;          (* the characters [str.isdigit()] accepts *)
  lower : str → str            (* [str.lower()] *)
}.

Section Text.
Context `{CharTables}.

Fixpoint lstrip (s : str) : str :=
  match s with
  | c :: s' => if isspace c then lstrip s' else s
  | [] => []
  end.

Definition rstrip (s : str) : str := rev (lstrip (rev s)).

(** [s.strip()] *)
Definition strip (s : str) : str := rstrip (lstrip s).

(** [s.isdigit()]: at least one character, and all of them digits. *)
Definition str_isdigit (s : str) : bool :=
  match s with
  | [] => false
  | _ => forallb isdigit s
  end.
End Text.

Fixpoint startswith (s prefix : str) : bool :=
  match prefix, s with
  | [], _ => true
  | p :: prefix', c :: s' => (p =? c)%N && startswith s' prefix'
  | _ :: _, [] => false
  end.

(** [sub in s] on strings: [sub] occurs as a contiguous run of [s]. *)
Fixpoint str_in (sub s : str) : bool :=
  startswith s sub ||
  match s with
  | [] => false
  | _ :: s' => str_in sub s'
  end.

(** [s.replace(old, new)] for a one-character [old]. *)
Definition replace_char (old : N) (new : str) (s : str) : str :=
  flat_map (λ c, if (c =? old)%N then new else [c]) s.

(** [str(n)] for an [int]. *)
Definition str_of_int (n : Z) : str := py (NilZero.string_of_int (Z.to_int n)).

(** ** Data model *)

(** A value of [all_bus_stops_cache]: [{"code", "name", "road"}]. *)
Record StopRecord := mkStop {
  stop_code : str;
  stop_name : str;
  stop_road : str
}.

(** One row of the BusRoutes listing.  A field is [None] when the key is
    missing from the row, and otherwise holds [str(...)] of its value. *)
Record RouteRow := mkRow {
  row_ServiceNo : option str;
  row_BusStopCode : option str
}.

(** An object under [NextBus] / [NextBus2] of an arrival record. *)
Record BusInfo := mkBus {
  bus_EstimatedArrival : option str
}.

(** The value under ["NextBus"] / ["NextBus2"]: an object, or a value that
    is not one ([null], a string, a number) and has no [.get]. *)
Inductive BusField :=
| BusObject (bus : BusInfo)
| NotAnObject.

(** One element of ["Services"] of the BusArrival answer.  A field is
    [None] when the key is missing. *)
Record Service := mkService {
  svc_ServiceNo : option str;
  svc_NextBus : option BusField;
  svc_NextBus2 : option BusField
}.

(** An element of a list of [user_reminders]. *)
Record Reminder := mkReminder {
  rem_bus_number : str;
  rem_bus_stop : str;
  rem_bus_stop_name : str;
  rem_days : str;
  rem_time : str
}.

(** ** The outside world *)

(** What [requests.get] does: it raises [Timeout], raises another
    [RequestException], or returns a response. *)
Inductive HttpResult (B : Type) : Type :=
| Timeout
| RequestError
| Response (status_code : Z) (body : B).
Arguments Timeout {B}.
Arguments RequestError {B}.
Arguments Response {B} status_code body.

(** What [resp.json()] does: it raises, or returns an object of which the
    code reads one key ([None]: the key is missing). *)
Inductive Payload (A : Type) : Type :=
| NotJson
| Json (value : option A).
Arguments NotJson {A}.
Arguments Json {A} value.

Record Env := mkEnv {
  http_routes : nat → HttpResult (Payload (list RouteRow));
  http_arrival : nat → HttpResult (Payload (list Service));
  utcnow : nat → Z;      (* microseconds since the epoch, UTC *)
  send_raises : nat → bool   (* whether a call of [send_message] raises *)
}.

Inductive Event :=
| EvGetRoutes (service_no : str) (skip : nat)
| EvGetArrival (stop : str)
| EvSend (chat_id : Z) (text : str) (markdown : bool).

Record State := mkState {
  bus_route_cache : gmap str (list RouteRow);
  all_bus_stops_cache : list (str * StopRecord);
  user_reminders : list (Z * list Reminder);
  requests : nat;
  clock_reads : nat;
  sends : nat;            (* calls of [send_message] so far *)
  log : list Event
}.

Definition with_cache (c : gmap str (list RouteRow)) (s : State) : State :=
  mkState c (all_bus_stops_cache s) (user_reminders s)
          (requests s) (clock_reads s) (sends s) (log s).

Definition with_request (e : Event) (s : State) : State :=
  mkState (bus_route_cache s) (all_bus_stops_cache s) (user_reminders s)
          (S (requests s)) (clock_reads s) (sends s) (log s ++ [e]).

Definition with_clock_read (s : State) : State :=
  mkState (bus_route_cache s) (all_bus_stops_cache s) (user_reminders s)
          (requests s) (S (clock_reads s)) (sends s) (log s).

Definition with_event (e : Event) (s : State) : State :=
  mkState (bus_route_cache s) (all_bus_stops_cache s) (user_reminders s)
          (requests s) (clock_reads s) (sends s) (log s ++ [e]).

Definition with_send (s : State) : State :=
  mkState (bus_route_cache s) (all_bus_stops_cache s) (user_reminders s)
          (requests s) (clock_reads s) (S (sends s)) (log s).

(** ** Computations *)

Definition M (A : Type) : Type := State → option (A * State).

Definition ret {A} (a : A) : M A := λ s, Some (a, s).

Definition bind {A B} (m : M A) (k : A → M B) : M B :=
  λ s, match m s with
       | Some (a, s') => k a s'
       | None => None
       end.

Notation "'let*' x ':=' m 'in' k" := (bind m (λ x, k))
  (at level 10, x pattern, m at level 100, k at level 200).

Definition out_of_fuel {A} : M A := λ _, None.

Definition get_routes_page (env : Env) (service_no : str) (skip : nat)
  : M (HttpResult (Payload (list RouteRow))) :=
  λ s, Some (http_routes env (requests s),
             with_request (EvGetRoutes service_no skip) s).

Definition get_arrival_page (env : Env) (stop : str)
  : M (HttpResult (Payload (list Service))) :=
  λ s, Some (http_arrival env (requests s), with_request (EvGetArrival stop) s).

Definition datetime_now (env : Env) : M Z :=
  λ s, Some (utcnow env (clock_reads s), with_clock_read s).

(** The exceptions that leave [check_reminders]. *)
Inductive Exception :=
| AttributeError      (* [.get] on a value that is not an object *)
| TelegramError.      (* raised by [context.bot.send_message] *)

(** How a call ends that the code does not wrap in [try]. *)
Inductive Raises (A : Type) : Type :=
| Returned (a : A)
| Raised (e : Exception).
Arguments Returned {A} a.
Arguments Raised {A} e.

(** [await context.bot.send_message(...)]: the message is delivered, or the
    call raises and nothing is delivered. *)
Definition send_message (env : Env) (chat_id : Z) (text : str) (markdown : bool)
  : M (Raises unit) :=
  λ s,
    if send_raises env (sends s) then Some (Raised TelegramError, with_send s)
    else Some (Returned tt,
               with_event (EvSend chat_id text markdown) (with_send s)).

Definition cache_routes (service_no : str) (routes : list RouteRow) : M unit :=
  λ s, Some (tt, with_cache (<[service_no := routes]> (bus_route_cache s)) s).

(** ** Route cache: [get_bus_routes] *)

Definition MAX_RETRIES : nat := 3.
Definition batch_size : nat := 500.

(** How the retry loop leaves. *)
Inductive Attempted :=
| GotResponse (status_code : Z) (body : Payload (list RouteRow))  (* [break] *)
| ReturnEmpty                     (* [return []] from an [except] clause *)
| NoResponse.                     (* the [for] ran out: [resp is None] *)

(** [for attempt in range(MAX_RETRIES): ...] over the attempts left. *)
Fixpoint request_with_retries (env : Env) (service_no : str) (skip : nat)
    (attempts : list nat) : M Attempted :=
  match attempts with
  | [] => ret NoResponse
  | attempt :: rest =>
    let* r := get_routes_page env service_no skip in
    match r with
    | Response status_code body => ret (GotResponse status_code body)
    | Timeout =>
      if bool_decide (attempt < MAX_RETRIES - 1)%nat
      then request_with_retries env service_no skip rest
      else ret ReturnEmpty
    | RequestError => ret ReturnEmpty
    end
  end.

(** How a call of [get_bus_routes] went: served from the cache, left the
    loop at the end of the data, left the loop at a non-200 answer or a
    decode error, or returned from inside the loop. *)
Inductive Path := CacheHit | EndOfData | UpstreamFailure | Aborted.

#[global] Instance Path_eq_dec : EqDecision Path.
Proof. solve_decision. Defined.

(** The [while True] loop.  The result is the path taken and the value of
    [all_routes] on a [break], or [[]] on [return []]. *)
Fixpoint paginate (env : Env) (fuel : nat) (service_no : str)
    (all_routes : list RouteRow) (skip : nat) : M (Path * list RouteRow) :=
  match fuel with
  | O => out_of_fuel
  | S fuel' =>
    let* a := request_with_retries env service_no skip (seq 0 MAX_RETRIES) in
    match a with
    | ReturnEmpty | NoResponse => ret (Aborted, [])
    | GotResponse status_code body =>
      if bool_decide (status_code ≠ 200) then ret (UpstreamFailure, all_routes)
      else
        match body with
        | NotJson => ret (UpstreamFailure, all_routes)
        | Json data =>
          match default [] data with
          | [] => ret (EndOfData, all_routes)
          | routes =>
            let filtered :=
              filter (λ r, default [] (row_ServiceNo r) = service_no) routes in
            let all_routes := all_routes ++ filtered in
            if bool_decide (length routes < batch_size)%nat
            then ret (EndOfData, all_routes)
            else paginate env fuel' service_no all_routes (skip + batch_size)
          end
        end
    end
  end.

(** [get_bus_routes], with the path taken. *)
Definition get_bus_routes_path (env : Env) (fuel : nat) (service_no : str)
  : M (Path * list RouteRow) :=
  λ s,
    match bus_route_cache s !! service_no with
    | Some routes => Some ((CacheHit, routes), s)
    | None =>
      (let* (path, all_routes) := paginate env fuel service_no [] 0 in
       match path with
       | Aborted => ret (path, all_routes)
       | _ =>
         let* _ := cache_routes service_no all_routes in
         ret (path, all_routes)
       end) s
    end.

Definition get_bus_routes (env : Env) (fuel : nat) (service_no : str)
  : M (list RouteRow) :=
  let* pr := get_bus_routes_path env fuel service_no in ret (snd pr).

(** A run of calls of [get_bus_routes], one after the other, with what each
    call did: the path it took, its result, and the number of requests it
    sent. *)
Record CallReport := mkReport {
  call_service : str;
  call_path : Path;
  call_result : list RouteRow;
  call_requests : nat
}.

Fixpoint run_calls (env : Env) (fuel : nat) (calls : list str)
  : M (list CallReport) :=
  match calls with
  | [] => ret []
  | service_no :: rest =>
    λ s,
      (let* (path, routes) := get_bus_routes_path env fuel service_no in
       λ s1,
         (let* reports := run_calls env fuel rest in
          ret (mkReport service_no path routes (requests s1 - requests s)
                 :: reports)) s1) s
  end.

(** ** Arrival query: [get_bus_arrival] *)

(** Every exception of the request or of the decoding is caught and gives
    [None]; so does a status other than 200, and an answer that lists no
    service with the asked number. *)
Definition get_bus_arrival (env : Env) (stop bus_number : str)
  : M (option Service) :=
  let* r := get_arrival_page env stop in
  match r with
  | Timeout | RequestError => ret None
  | Response status_code body =>
    if bool_decide (status_code ≠ 200) then ret None
    else
      match body with
      | NotJson => ret None
      | Json data =>
        ret (List.find (λ svc, bool_decide (svc_ServiceNo svc = Some bus_number))
                       (default [] data))
      end
  end.

(** ** Cache-based functions *)

(** [d.get(key)] and [d.values()] of a dict kept in insertion order. *)
Definition dict_get {V} (key : str) (d : list (str * V)) : option V :=
  snd <$> List.find (λ kv, bool_decide (kv.1 = key)) d.

Definition dict_values {V} (d : list (str * V)) : list V := snd <$> d.

Definition stops_get (code : str) : M (option StopRecord) :=
  λ s, Some (dict_get code (all_bus_stops_cache s), s).

Definition stops_values : M (list StopRecord) :=
  λ s, Some (dict_values (all_bus_stops_cache s), s).

Definition route_stop_codes (routes : list RouteRow) : gset str :=
  list_to_set ((λ r, default [] (row_BusStopCode r)) <$> routes).

Definition is_stop_in_bus_route (env : Env) (fuel : nat)
    (bus_number stop : str) : M bool :=
  let* routes := get_bus_routes env fuel bus_number in
  ret (bool_decide (stop ∈ route_stop_codes routes)).

Section Validation.
Context `{CharTables}.

Definition name_matches (query : str) (stop : StopRecord) : bool :=
  str_in query (lower (stop_name stop)) || str_in query (lower (stop_road stop)).

Definition search_bus_stops_by_name (query : str) : M (list StopRecord) :=
  let query := lower query in
  let* stops := stops_values in
  ret (List.filter (name_matches query) stops).

(** What [validate_bus_stop_input] returns: [None], the dict
    [{"code", "name"}] built on the code path, the directory's own dict on
    the name path, or the message of the multiple-matches case. *)
Inductive Validated :=
| VNone
| VCodeName (code name : str)
| VStop (stop : StopRecord)
| VMessage (text : str).

Definition multiple_matches_message (user_input : str) : str :=
  py "I found multiple stops matching " ++ [34%N] ++ user_input ++ [34%N]
  ++ py "." ++ [10%N]
  ++ py "Try entering the exact 5-digit bus stop code.".

Definition validate_bus_stop_input (env : Env) (fuel : nat)
    (bus_number user_input : str) : M Validated :=
  let user_input := strip user_input in
  if str_isdigit user_input && bool_decide (length user_input = 5%nat) then
    (* Case A: a 5-digit code *)
    let code := user_input in
    let* stop := stops_get code in
    match stop with
    | None => ret VNone
    | Some stop =>
      let* on_route := is_stop_in_bus_route env fuel bus_number code in
      if negb on_route then ret VNone
      else ret (VCodeName code (stop_name stop))
    end
  else
    (* Case B: a name *)
    let* matches := search_bus_stops_by_name user_input in
    match matches with
    | [] => ret VNone
    | [found] =>
      let* on_route :=
        is_stop_in_bus_route env fuel bus_number (stop_code found) in
      if negb on_route then ret VNone else ret (VStop found)
    | _ :: _ :: _ => ret (VMessage (multiple_matches_message user_input))
    end.
End Validation.

(** ** Python floats *)

(** A finite binary64 number, [mant * 2^expo]. *)
Record Float := mkFloat {
  mant : Z;
  expo : Z
}.

(** The integer nearest to [n / d], for [d > 0]; of two that are equally
    near, the even one. *)
Definition nearest_even (n d : Z) : Z :=
  let q := n / d in
  let r := n mod d in
  if 2 * r <? d then q
  else if d <? 2 * r then q + 1
  else if Z.even q then q else q + 1.

(** [a / b / 2^e] as a fraction of integers. *)
Definition scaled_num (e a : Z) : Z := a * 2 ^ Z.max 0 (- e).
Definition scaled_den (e b : Z) : Z := b * 2 ^ Z.max 0 e.

(** The exponent of the last of the 53 bits of [a / b], for [a, b > 0]: the
    [e] with [2^52 <= a / b / 2^e < 2^53]. *)
Definition ulp_exponent (a b : Z) : Z :=
  let e := Z.log2 a - Z.log2 b - 53 in
  if 2 ^ 53 * scaled_den e b <=? scaled_num e a then e + 1 else e.

(** The binary64 number nearest to [n / d], for [d > 0]: what [n / d] is
    for two [int]s, and what the division of floats is.  The quotients of
    this program stay far from the ends of the range of binary64, so
    overflow and subnormal numbers are left out. *)
Definition div_rounded (n d : Z) : Float :=
  if n =? 0 then mkFloat 0 0
  else
    let e := ulp_exponent (Z.abs n) d in
    mkFloat (Z.sgn n * nearest_even (scaled_num e (Z.abs n)) (scaled_den e d)) e.

(** [x / k] for a float [x] and an [int] [k > 0]. *)
Definition float_div (x : Float) (k : Z) : Float :=
  div_rounded (mant x * 2 ^ Z.max 0 (expo x)) (k * 2 ^ Z.max 0 (- expo x)).

(** [int(x)]: the fraction is cut off. *)
Definition int_of_float (x : Float) : Z :=
  Z.quot (mant x * 2 ^ Z.max 0 (expo x)) (2 ^ Z.max 0 (- expo x)).

(** [timedelta.total_seconds()] of a difference of [us] microseconds: the
    float nearest to [us / 10**6]. *)
Definition total_seconds (us : Z) : Float := div_rounded us 1000000.

(** [max(0, int(delta.total_seconds() / 60))] *)
Definition whole_minutes (us : Z) : Z :=
  Z.max 0 (int_of_float (float_div (total_seconds us) 60)).

(** The same numbers in the standard library's specification of IEEE 754
    arithmetic, with which the worked examples compare [div_rounded]. *)
Definition spec_of_Z (n : Z) : SpecFloat.spec_float :=
  match n with
  | Z0 => SpecFloat.S754_zero false
  | Zpos m => SpecFloat.S754_finite false m 0
  | Zneg m => SpecFloat.S754_finite true m 0
  end.

Definition spec_of_float (x : Float) : SpecFloat.spec_float :=
  match mant x with
  | Z0 => SpecFloat.S754_zero false
  | Zpos m => SpecFloat.S754_finite false m (expo x)
  | Zneg m => SpecFloat.S754_finite true m (expo x)
  end.

Definition binary64_div (x y : SpecFloat.spec_float) : SpecFloat.spec_float :=
  SpecFloat.SFdiv 53 1024 x y.

(** ** Arrival computation and rendering *)

(** What [datetime.fromisoformat] does: it raises [ValueError], or returns a
    datetime without offset (wall-clock microseconds), or one with an offset
    (an instant, in microseconds since the epoch). *)
Inductive ParsedTime :=
| ParseError
| Naive (wall_us : Z)
| Aware (utc_us : Z).

Class IsoParser := { fromisoformat : str → ParsedTime }.

Definition us_per_minute : Z := 60000000.

Section Arrival.
Context `{IsoParser}.

(** [iso_time] is [None] for an absent value.  Subtracting the aware
    [now] from a datetime without offset raises [TypeError], which the
    [except] clause turns into [None].  The difference of two datetimes is
    exact, in microseconds; [total_seconds()] and the division by 60 are
    float divisions, and [int(...)] cuts off the fraction. *)
Definition minutes_to_arrival (env : Env) (iso_time : option str)
  : M (option Z) :=
  match iso_time with
  | None | Some [] => ret None
  | Some iso_time =>
    match fromisoformat (replace_char 90 (py "+00:00") iso_time) with
    | ParseError => ret None
    | Naive _ => let* now := datetime_now env in ret None
    | Aware arr =>
      let* now := datetime_now env in
      ret (Some (whole_minutes (arr - now)))
    end
  end.

(** The two characters a backslash and [n] that the source's ["\\n"]
    denotes. *)
Definition backslash_n : str := [92%N; 110%N].

(** [f"{x}"] for [x] an [int] or [None]. *)
Definition format_minutes (x : option Z) : str :=
  match x with
  | Some n => str_of_int n
  | None => py "None"
  end.

Definition message_header (bus_number : str) : str :=
  [128652%N] ++ py " *Bus " ++ bus_number ++ py " Arrival Info*" ++ backslash_n.

(** [next_bus.get("EstimatedArrival")], where [next_bus] is what
    [service.get("NextBus", {})] gave: the default [{}] for a missing key
    holds no arrival; a value that is not an object has no [.get]. *)
Definition get_EstimatedArrival (next_bus : option BusField)
  : Raises (option str) :=
  match next_bus with
  | None => Returned None
  | Some (BusObject bus) => Returned (bus_EstimatedArrival bus)
  | Some NotAnObject => Raised AttributeError
  end.

Definition format_arrival_message (env : Env) (service : option Service)
    (bus_number : str) : M (Raises str) :=
  let next_bus := service ≫= svc_NextBus in
  let next2_bus := service ≫= svc_NextBus2 in
  match get_EstimatedArrival next_bus with
  | Raised e => ret (Raised e)
  | Returned arrival =>
    let* next_arrival := minutes_to_arrival env arrival in
    match get_EstimatedArrival next2_bus with
    | Raised e => ret (Raised e)
    | Returned arrival2 =>
      let* next2_arrival := minutes_to_arrival env arrival2 in
      let msg := message_header bus_number in
      match next_arrival with
      | None =>
        ret (Returned (msg ++ py "No arrival data available." ++ backslash_n))
      | Some n =>
        let urgency :=
          if n <=? 2 then py "*RUN! The bus is arriving soon!*"
          else if n <=? 5 then py "*Bus is coming shortly*"
          else py "You have some time." in
        ret (Returned
               (msg
                ++ py "Next bus: *" ++ str_of_int n ++ py " min*" ++ backslash_n
                ++ py "Second bus: *" ++ format_minutes next2_arrival ++ py " min*"
                ++ backslash_n ++ backslash_n
                ++ urgency))
      end
    end
  end.

(** ** Scheduler: [check_reminders] *)

Inductive Weekday :=
| Monday | Tuesday | Wednesday | Thursday | Friday | Saturday | Sunday.

(** [datetime.weekday()]: Monday is 0. *)
Definition weekday_index (d : Weekday) : Z :=
  match d with
  | Monday => 0 | Tuesday => 1 | Wednesday => 2 | Thursday => 3
  | Friday => 4 | Saturday => 5 | Sunday => 6
  end.

(** The local time [sg_now] of a tick. *)
Record LocalTime := mkLocal {
  lt_hour : nat;
  lt_minute : nat;
  lt_weekday : Weekday
}.

Definition two_digits (n : nat) : str :=
  [N.of_nat (48 + n / 10); N.of_nat (48 + n mod 10)].

(** [sg_now.strftime("%H:%M")] *)
Definition strftime_HM (t : LocalTime) : str :=
  two_digits (lt_hour t) ++ [58%N] ++ two_digits (lt_minute t).

Definition could_not_fetch (bus : str) : str :=
  py "Could not fetch arrival for Bus " ++ bus.

(** The body of the inner [for] loop.  Neither the rendering nor the two
    calls of [send_message] are inside a [try]. *)
Definition check_reminder (env : Env) (now : str) (weekday : Z)
    (chat_id : Z) (rem : Reminder) : M (Raises unit) :=
  if bool_decide (rem_days rem = py "weekdays") && (5 <=? weekday)
  then ret (Returned tt)
  else if bool_decide (rem_time rem = now) then
    let bus := rem_bus_number rem in
    let stop := rem_bus_stop rem in
    let* service := get_bus_arrival env stop bus in
    match service with
    | None => send_message env chat_id (could_not_fetch bus) false
    | Some _ =>
      let* rendered := format_arrival_message env service bus in
      match rendered with
      | Raised e => ret (Raised e)
      | Returned msg => send_message env chat_id msg true
      end
    end
  else ret (Returned tt).

Fixpoint for_each {A} (body : A → M unit) (l : list A) : M unit :=
  match l with
  | [] => ret tt
  | x :: l' => let* _ := body x in for_each body l'
  end.

(** A [for] loop whose body can raise: the exception leaves the loop. *)
Fixpoint for_each_raising {A} (body : A → M (Raises unit)) (l : list A)
  : M (Raises unit) :=
  match l with
  | [] => ret (Returned tt)
  | x :: l' =>
    let* r := body x in
    match r with
    | Returned _ => for_each_raising body l'
    | Raised e => ret (Raised e)
    end
  end.

Definition check_reminders (env : Env) (sg_now : LocalTime) : M (Raises unit) :=
  let now := strftime_HM sg_now in
  let weekday := weekday_index (lt_weekday sg_now) in
  λ s,
    for_each_raising
      (λ entry,
         for_each_raising (check_reminder env now weekday (fst entry)) (snd entry))
      (user_reminders s) s.
End Arrival.

#[global] Instance Weekday_eq_dec : EqDecision Weekday.
Proof. solve_decision. Defined.

(** ** Reminder persistence: [dynamodb_helper.py] *)

Module DynamoDB.

Record Item := mkItem {
  reminder_id : str;
  chat_id : Z;
  bus_number : str;
  bus_stop : str;
  bus_stop_name : str;
  days : str;
  time : str
}.

(** A call of the table either raises [ClientError] or is carried out. *)
Inductive Outcome (A : Type) : Type :=
| ClientError
| Carried (response : A).
Arguments ClientError {A}.
Arguments Carried {A} response.

(** [table.delete_item(Key=..., ReturnValues='ALL_OLD')] on a table keyed
    by [reminder_id]: the response carries the attributes of the item that
    was removed, if there was one.  [fails] says whether the service
    raises; a call that raises leaves the table as it was. *)
Definition delete_item (fails : bool) (key : str) (table : gmap str Item)
  : Outcome (option Item) * gmap str Item :=
  if fails then (ClientError, table)
  else (Carried (table !! key), delete key table).

(** [reminder_id] is [None] for Python's [None]. *)
Definition delete_reminder (fails : bool) (reminder_id : option str)
    (table : gmap str Item) : bool * gmap str Item :=
  match reminder_id with
  | None | Some [] => (false, table)
  | Some reminder_id =>
    match delete_item fails reminder_id table with
    | (Carried (Some _), table') => (true, table')
    | (Carried None, table') => (false, table')
    | (ClientError, table') => (false, table')
    end
  end.

(** [table.put_item(Item=...)]: the item replaces what the table held
    under its key. *)
Definition put_item (fails : bool) (item : Item) (table : gmap str Item)
  : Outcome unit * gmap str Item :=
  if fails then (ClientError, table)
  else (Carried tt, <[reminder_id item := item]> table).

(** [uuid] is the string of the identifier that [uuid.uuid4()] draws. *)
Definition add_reminder (fails : bool) (uuid : str) (chat_id : Z)
    (bus_number bus_stop bus_stop_name days time : str)
    (table : gmap str Item) : option str * gmap str Item :=
  let reminder_id := uuid in
  match put_item fails
          (mkItem reminder_id chat_id bus_number bus_stop bus_stop_name days time)
          table with
  | (Carried _, table') => (Some reminder_id, table')
  | (ClientError, table') => (None, table')
  end.

(** The order in which the index [chat_id-index] returns the items of one
    subscriber is the service's own: some rearrangement of them, which owes
    nothing to the order of a scan. *)
Class IndexOrder := {
  index_order : list Item → list Item;
  index_order_perm : ∀ items, index_order items ≡ₚ items
}.

(** The answer of [table.query] on the index of [chat_id], and of
    [table.scan]: the matching items in the order of the service, of which
    one call returns the first page only; [page] is the number of items the
    page holds.  The code reads ['Items'] of the one answer. *)
Definition query `{IndexOrder} (fails : bool) (page : nat) (chat : Z)
    (table : gmap str Item) : Outcome (list Item) :=
  if fails then ClientError
  else Carried (take page (index_order (filter (λ item, chat_id item = chat)
                                               (snd <$> map_to_list table)))).

Definition scan (fails : bool) (page : nat) (table : gmap str Item)
  : Outcome (list Item) :=
  if fails then ClientError
  else Carried (take page (snd <$> map_to_list table)).

(** An element of the result of [get_user_reminders]. *)
Record Listed := mkListed {
  listed_id : str;
  listed_bus_number : str;
  listed_bus_stop : str;
  listed_bus_stop_name : str;
  listed_days : str;
  listed_time : str
}.

Definition listed_of (item : Item) : Listed :=
  mkListed (reminder_id item) (bus_number item) (bus_stop item)
           (bus_stop_name item) (days item) (time item).

Definition get_user_reminders `{IndexOrder} (fails : bool) (page : nat)
    (chat : Z) (table : gmap str Item) : list Listed :=
  match query fails page chat table with
  | Carried reminders => listed_of <$> reminders
  | ClientError => []
  end.

(** The records of [get_all_reminders] carry all seven fields, as [Item]
    does. *)
Definition get_all_reminders (fails : bool) (page : nat)
    (table : gmap str Item) : list Item :=
  match scan fails page table with
  | Carried reminders => reminders
  | ClientError => []
  end.

(** An index that returns the items of a subscriber in the reverse of the
    order of the scan, for the worked examples. *)
Definition reversed_index : IndexOrder :=
  {| index_order := reverse; index_order_perm := reverse_Permutation |}.

End DynamoDB.

(** ** ASCII instances for the worked examples *)

Definition ascii_isspace (c : N) : bool :=
  ((9 <=? c) && (c <=? 13) || (28 <=? c) && (c <=? 32))%N.

Definition ascii_isdigit (c : N) : bool := ((48 <=? c) && (c <=? 57))%N.

Definition ascii_lower_char (c : N) : N :=
  (if (65 <=? c) && (c <=? 90) then c + 32 else c)%N.

Definition ascii_tables : CharTables := {|
  isspace := ascii_isspace;
  isdigit := ascii_isdigit;
  lower := fmap ascii_lower_char
|}.

(** The fragment [YYYY-MM-DDTHH:MM:SS], with or without an offset [+HH:MM]
    or [-HH:MM], of the ISO format. *)
Module IsoFragment.

Definition digit (c : N) : option Z :=
  if ascii_isdigit c then Some (Z.of_N c - 48) else None.

(** Reads [n] digits. *)
Fixpoint number (n : nat) (acc : Z) (s : str) : option (Z * str) :=
  match n, s with
  | O, _ => Some (acc, s)
  | S n', c :: s' => d ← digit c; number n' (10 * acc + d) s'
  | S _, [] => None
  end.

Definition expect (c : N) (s : str) : option str :=
  match s with
  | c' :: s' => if (c =? c')%N then Some s' else None
  | [] => None
  end.

(** Days from 1970-01-01 to the given day of the Gregorian calendar. *)
Definition days_from_civil (y m d : Z) : Z :=
  let y := if m <=? 2 then y - 1 else y in
  let era := y / 400 in
  let yoe := y - era * 400 in
  let doy := (153 * (if 2 <? m then m - 3 else m + 9) + 2) / 5 + d - 1 in
  let doe := yoe * 365 + yoe / 4 - yoe / 100 + doy in
  era * 146097 + doe - 719468.

Definition offset (s : str) : option (option Z) :=
  match s with
  | [] => Some None
  | sign :: s' =>
    '(h, s1) ← number 2 0 s';
    s2 ← expect 58 s1;
    '(m, s3) ← number 2 0 s2;
    let seconds := h * 3600 + m * 60 in
    match s3 with
    | [] =>
      if (sign =? 43)%N then Some (Some seconds)
      else if (sign =? 45)%N then Some (Some (- seconds))
      else None
    | _ => None
    end
  end.

Definition parse (s : str) : option ParsedTime :=
  '(y, s) ← number 4 0 s; s ← expect 45 s;
  '(mo, s) ← number 2 0 s; s ← expect 45 s;
  '(d, s) ← number 2 0 s; s ← expect 84 s;
  '(h, s) ← number 2 0 s; s ← expect 58 s;
  '(mi, s) ← number 2 0 s; s ← expect 58 s;
  '(sec, s) ← number 2 0 s;
  off ← offset s;
  if (1 <=? mo) && (mo <=? 12) && (1 <=? d) && (d <=? 31)
     && (h <? 24) && (mi <? 60) && (sec <? 60)
  then
    let wall := days_from_civil y mo d * 86400 + h * 3600 + mi * 60 + sec in
    Some match off with
         | None => Naive (wall * 1000000)
         | Some o => Aware ((wall - o) * 1000000)
         end
  else None.

Definition parser : IsoParser := {|
  fromisoformat s := default ParseError (parse s)
|}.

End IsoFragment.

(** A world for the examples: the given answers of the two endpoints in the
    order of the requests (then the network is down), and a stopped clock. *)
Definition scripted (routes : list (HttpResult (Payload (list RouteRow))))
    (arrivals : list (HttpResult (Payload (list Service)))) (now : Z) : Env :=
  mkEnv (λ n, default RequestError (routes !! n))
        (λ n, default RequestError (arrivals !! n))
        (λ _, now)
        (λ _, false).

(** The same, with a Telegram API of which the listed calls raise. *)
Definition scripted_sends (arrivals : list (HttpResult (Payload (list Service))))
    (now : Z) (raising : list bool) : Env :=
  mkEnv (λ _, RequestError)
        (λ n, default RequestError (arrivals !! n))
        (λ _, now)
        (λ n, default false (raising !! n)).

Definition initial (stops : list (str * StopRecord))
    (reminders : list (Z * list Reminder)) : State :=
  mkState ∅ stops reminders 0 0 0 [].

(** ** A small world for the worked examples *)

Definition stop_28009 : StopRecord :=
  mkStop (py "28009") (py "Jurong East Int") (py "Jurong East Ctrl").

Definition stop_28019 : StopRecord :=
  mkStop (py "28019") (py "Jurong Town Hall Int") (py "Jurong Town Hall Rd").

Definition demo_stops : list (str * StopRecord) :=
  [(py "28009", stop_28009); (py "28019", stop_28019)].

Definition route_970 : list RouteRow :=
  [mkRow (Some (py "970")) (Some (py "28009"))].

Definition reminder_970 : Reminder :=
  mkReminder (py "970") (py "28009") (py "Jurong East Int")
             (py "weekdays") (py "08:00").

Definition reminder_15 : Reminder :=
  mkReminder (py "15") (py "28019") (py "Jurong Town Hall Int")
             (py "everyday") (py "08:00").

Definition demo_reminders : list (Z * list Reminder) :=
  [(1, [reminder_970]); (2, [reminder_15])].

(** 2024-01-01T00:00:00Z, a Monday, 08:00 in Singapore. *)
Definition demo_now : Z := 1704067200000000.

Definition service_15 : Service :=
  mkService (Some (py "15"))
            (Some (BusObject (mkBus (Some (py "2024-01-01T08:02:00+08:00")))))
            (Some (BusObject (mkBus (Some (py "2024-01-01T08:09:30+08:00"))))).

(** A record of service 970, and one whose ["NextBus"] is [null]. *)
Definition service_970 : Service :=
  mkService (Some (py "970"))
            (Some (BusObject (mkBus (Some (py "2024-01-01T08:03:00+08:00")))))
            None.

Definition service_970_null : Service :=
  mkService (Some (py "970")) (Some NotAnObject) None.

(** The route listing answers with the one row of 970, then with an empty
    page; the arrival listing times out, then lists service 15. *)
Definition demo_env : Env :=
  scripted [Response 200 (Json (Some route_970)); Response 200 (Json (Some []))]
           [Timeout; Response 200 (Json (Some [service_15]))]
           demo_now.

(** The route of 970 is cached. *)
Definition demo_state : State :=
  mkState (<[py "970" := route_970]> ∅) demo_stops demo_reminders 0 0 0 [].

Definition demo_calls : list str := [py "970"; py "15"; py "970"].

Definition demo_run : option (list CallReport * State) :=
  run_calls demo_env 5 demo_calls (initial [] []).

Definition demo_reports : list CallReport := default [] (fst <$> demo_run).

Definition demo_final : State := default (initial [] []) (snd <$> demo_run).

Definition demo_table : gmap str DynamoDB.Item :=
  {[ py "r-1" := DynamoDB.mkItem (py "r-1") 1 (py "970") (py "28009")
                   (py "Jurong East Int") (py "weekdays") (py "08:00") ]}.

(** The table with two reminders of subscriber 2 besides. *)
Definition demo_table_3 : gmap str DynamoDB.Item :=
  <[py "r-3" := DynamoDB.mkItem (py "r-3") 2 (py "970") (py "28009")
                  (py "Jurong East Int") (py "everyday") (py "07:30")]>
    (<[py "r-2" := DynamoDB.mkItem (py "r-2") 2 (py "15") (py "28019")
                     (py "Jurong Town Hall Int") (py "everyday") (py "08:00")]>
       demo_table).

(** ** Notions used in the statements *)

(** A computation that leaves the three globals as they were. *)
Definition same_globals (s s' : State) : Prop :=
  bus_route_cache s' = bus_route_cache s
  ∧ all_bus_stops_cache s' = all_bus_stops_cache s
  ∧ user_reminders s' = user_reminders s.

(** An answer after which the loop goes round again: status 200 and at
    least [batch_size] rows. *)
Definition full_page (r : HttpResult (Payload (list RouteRow))) : bool :=
  match r with
  | Response status_code (Json (Some rows)) =>
    bool_decide (status_code = 200) && bool_decide (batch_size ≤ length rows)%nat
  | _ => false
  end.


(** The notice for a due reminder whose arrival query returned nothing. *)
Definition notice_text (bus : str) : str :=
  py "Could not fetch arrival for Bus " ++ bus.

(** The three urgency bands and their texts. *)
Inductive Band := VerySoon | Shortly | Neutral.

Definition band_text (b : Band) : str :=
  match b with
  | VerySoon => py "*RUN! The bus is arriving soon!*"
  | Shortly => py "*Bus is coming shortly*"
  | Neutral => py "You have some time."
  end.

(** The message for a primary bus in [next] minutes and a second bus in
    [next2], ending in the text of a band. *)
Definition arrival_text (bus_number : str) (next : Z) (next2 : option Z)
    (b : Band) : str :=
  message_header bus_number
  ++ py "Next bus: *" ++ str_of_int next ++ py " min*" ++ backslash_n
  ++ py "Second bus: *" ++ format_minutes next2 ++ py " min*"
  ++ backslash_n ++ backslash_n
  ++ band_text b.

(** The reminders of all subscribers, in the order of the sweep. *)
Definition all_reminders (s : State) : list (Z * Reminder) :=
  flat_map (λ entry, pair (fst entry) <$> snd entry) (user_reminders s).

(** A reminder is due at the local time of a tick: its time string is the
    tick's [HH:MM], and it is not a "weekdays" reminder on a Saturday or
    Sunday. *)
Definition due (sg_now : LocalTime) (rem : Reminder) : Prop :=
  rem_time rem = strftime_HM sg_now
  ∧ ¬ (rem_days rem = py "weekdays"
       ∧ (lt_weekday sg_now = Saturday ∨ lt_weekday sg_now = Sunday)).

(** A reminder is acted upon between two states: one arrival request for
    its stop was sent, and then one message to its subscriber. *)
Definition acted_upon (chat_id : Z) (rem : Reminder) (s s' : State) : Prop :=
  ∃ text markdown,
    log s' = log s ++ [EvGetArrival (rem_bus_stop rem);
                       EvSend chat_id text markdown].

(** The answer of the arrival endpoint holds no data for the bus: the
    request failed, the status is not 200, the body does not decode, or no
    listed service has the number. *)
Definition no_service_data (bus_number : str)
    (answer : HttpResult (Payload (list Service))) : Prop :=
  match answer with
  | Timeout | RequestError => True
  | Response status_code body =>
    status_code ≠ 200
    ∨ match body with
      | NotJson => True
      | Json data =>
        ∀ svc, svc ∈ default [] data → svc_ServiceNo svc ≠ Some bus_number
      end
  end.

(** The arrival query of a reminder is invoked between two states: one
    request was sent, for its stop. *)
Definition arrival_queried (rem : Reminder) (s s' : State) : Prop :=
  requests s' = S (requests s)
  ∧ ∃ rest, log s' = log s ++ EvGetArrival (rem_bus_stop rem) :: rest.

(** The sweep over a list of (subscriber, reminder) pairs. *)
Definition sweep `{IsoParser} (env : Env) (sg_now : LocalTime)
    (items : list (Z * Reminder)) : M (Raises unit) :=
  for_each_raising
    (λ item, check_reminder env (strftime_HM sg_now)
               (weekday_index (lt_weekday sg_now)) (fst item) (snd item))
    items.

(** No call of [send_message] raises. *)
Definition delivers (env : Env) : Prop := ∀ n, send_raises env n = false.

(** [NextBus] and [NextBus2] of a service are objects, or missing. *)
Definition service_well_formed (svc : Service) : Prop :=
  svc_NextBus svc ≠ Some NotAnObject ∧ svc_NextBus2 svc ≠ Some NotAnObject.

(** Every service of every answer of the arrival endpoint is well formed. *)
Definition answers_well_formed (env : Env) : Prop :=
  ∀ n status_code services svc,
    http_arrival env n = Response status_code (Json (Some services)) →
    svc ∈ services → service_well_formed svc.

(** ** Further notions used in the statements *)

(** The rows of a listing page that [get_bus_routes] keeps. *)
Definition own_rows (service_no : str) (rows : list RouteRow) : list RouteRow :=
  filter (λ r, default [] (row_ServiceNo r) = service_no) rows.

(** Every cached route holds only rows of its own service number. *)
Definition cache_well_filtered (s : State) : Prop :=
  ∀ service_no rows,
    bus_route_cache s !! service_no = Some rows →
    Forall (λ r, default [] (row_ServiceNo r) = service_no) rows.

#[global] Instance due_dec sg_now rem : Decision (due sg_now rem).
Proof. unfold due. apply _. Defined.

(** The number of reminders that are due at a tick. *)
Definition due_count (sg_now : LocalTime) (s : State) : nat :=
  length (filter (λ item, due sg_now (snd item)) (all_reminders s)).

(** A page of the route listing with a row of another service in it. *)
Definition mixed_page : list RouteRow :=
  [mkRow (Some (py "970")) (Some (py "28009"));
   mkRow (Some (py "97")) (Some (py "28019"));
   mkRow None (Some (py "28029"))].

Definition full_page_970 : list RouteRow :=
  replicate 500 (mkRow (Some (py "970")) (Some (py "28009"))).

(** ** Stop directory: [load_all_bus_stops], [get_bus_stop_name] *)

(** The value under ["BusStopCode"], of which the code takes [str(...)]:
    [null], or a string. *)
Inductive JsonValue :=
| JsonNull
| JsonString (s : str).

(** [str(v)]: [str(None)] is ["None"]. *)
Definition py_str (v : JsonValue) : str :=
  match v with
  | JsonNull => py "None"
  | JsonString s => s
  end.

(** One row of the BusStops listing.  [row_StopCode] is [None] when the key
    is missing from the row.  [row_Description] and [row_RoadName] are only
    read through [x or ...]: they are [None] when the key is missing or
    null. *)
Record StopRow := mkStopRow {
  row_StopCode : option JsonValue;
  row_Description : option str;
  row_RoadName : option str
}.

(** [str(stop.get("BusStopCode", ""))] *)
Definition stop_key (row : StopRow) : str :=
  from_option py_str [] (row_StopCode row).

(** [d[key] = v] on a dict kept in insertion order: the value of a present
    key is replaced in place, a new key goes to the end. *)
Fixpoint dict_set {V} (key : str) (v : V) (d : list (str * V)) : list (str * V) :=
  match d with
  | [] => [(key, v)]
  | (k, x) :: d' =>
    if bool_decide (k = key) then (k, v) :: d' else (k, x) :: dict_set key v d'
  end.

(** [a or b] on strings. *)
Definition str_or (a b : str) : str :=
  match a with
  | [] => b
  | _ => a
  end.

(** The record that the loop body stores for a row. *)
Definition stop_of_row (row : StopRow) : StopRecord :=
  let code := stop_key row in
  let name :=
    str_or (default [] (row_Description row))
           (str_or (default [] (row_RoadName row)) (py "Stop " ++ code)) in
  let road := str_or (default [] (row_RoadName row)) [] in
  mkStop code name road.

Definition with_stops (d : list (str * StopRecord)) (s : State) : State :=
  mkState (bus_route_cache s) d (user_reminders s)
          (requests s) (clock_reads s) (sends s) (log s).

(** A request of the stop listing.  It counts as a request; the log holds
    no event for it. *)
Definition with_stops_request (s : State) : State :=
  mkState (bus_route_cache s) (all_bus_stops_cache s) (user_reminders s)
          (S (requests s)) (clock_reads s) (sends s) (log s).

Definition get_stops_page (http_stops : nat → HttpResult (Payload (list StopRow)))
  : M (HttpResult (Payload (list StopRow))) :=
  λ s, Some (http_stops (requests s), with_stops_request s).

(** [all_bus_stops_cache[code] = {...}] *)
Definition store_stop (row : StopRow) : M unit :=
  λ s, Some (tt, with_stops (dict_set (stop_key row) (stop_of_row row)
                                      (all_bus_stops_cache s)) s).

(** The [while True] loop of [load_all_bus_stops]: one request per page,
    no retry; every failure leaves the loop. *)
Fixpoint load_pages (http_stops : nat → HttpResult (Payload (list StopRow)))
    (fuel : nat) (skip : nat) : M unit :=
  match fuel with
  | O => out_of_fuel
  | S fuel' =>
    let* r := get_stops_page http_stops in
    match r with
    | Timeout | RequestError => ret tt
    | Response status_code body =>
      if bool_decide (status_code ≠ 200) then ret tt
      else
        match body with
        | NotJson => ret tt
        | Json data =>
          match default [] data with
          | [] => ret tt
          | stops =>
            let* _ := for_each store_stop stops in
            if bool_decide (length stops < batch_size)%nat then ret tt
            else load_pages http_stops fuel' (skip + batch_size)
          end
        end
    end
  end.

Definition load_all_bus_stops
    (http_stops : nat → HttpResult (Payload (list StopRow))) (fuel : nat)
  : M unit :=
  load_pages http_stops fuel 0.

Definition get_bus_stop_name (code : str) : M (option str) :=
  let* stop := stops_get code in
  ret (stop_name <$> stop).

(** *** Notions used in the statements *)

(** The rows that an answer of the stop listing contributes. *)
Definition rows_of_answer (r : HttpResult (Payload (list StopRow)))
  : list StopRow :=
  match r with
  | Response status_code (Json (Some rows)) =>
    if bool_decide (status_code = 200) then rows else []
  | _ => []
  end.

(** An answer after which the loading loop goes round again. *)
Definition full_stops_page (r : HttpResult (Payload (list StopRow))) : bool :=
  bool_decide (batch_size ≤ length (rows_of_answer r))%nat.

(** The directory after storing the rows one by one. *)
Definition store_rows (rows : list StopRow) (d : list (str * StopRecord))
  : list (str * StopRecord) :=
  foldl (λ d row, dict_set (stop_key row) (stop_of_row row) d) d rows.

(** The keys of the directory are distinct, every record sits under its
    own code, and no record has an empty name. *)
Definition directory_ok (d : list (str * StopRecord)) : Prop :=
  NoDup (fst <$> d)
  ∧ ∀ key stop, (key, stop) ∈ d → stop_code stop = key ∧ stop_name stop ≠ [].

(** A page with a row whose description is empty, a row without
    description and road, a row whose code is [null], a row without code,
    and a second row for 28009. *)
Definition stop_rows_demo : list StopRow :=
  [mkStopRow (Some (JsonString (py "28009"))) (Some (py "Jurong East Int"))
             (Some (py "Jurong East Ctrl"));
   mkStopRow (Some (JsonString (py "28019"))) (Some [])
             (Some (py "Jurong Town Hall Rd"));
   mkStopRow (Some (JsonString (py "28029"))) None None;
   mkStopRow (Some JsonNull) None None;
   mkStopRow None None (Some (py "Boon Lay Way"));
   mkStopRow (Some (JsonString (py "28009"))) (Some (py "Jurong East Temp Int"))
             None].

Definition stops_script (answers : list (HttpResult (Payload (list StopRow))))
  : nat → HttpResult (Payload (list StopRow)) :=
  λ n, default RequestError (answers !! n).

(** ** Conversation and command handlers *)

(** The states of the conversation ([range(4)]) and
    [ConversationHandler.END]. *)
Inductive ConvState := ASK_BUS_NUMBER | ASK_BUS_STOP | ASK_DAYS | ASK_TIME | END.

(** [context.user_data]: a key that is not set is [None]. *)
Record UserData := mkUserData {
  ud_bus_number : option str;
  ud_bus_stop_code : option str;
  ud_bus_stop_name : option str;
  ud_selected_days : option str;
  ud_time : option str
}.

(** The one message a handler answers with: its text, whether it is sent
    with [parse_mode="Markdown"], and the rows of inline buttons (label and
    callback data) under it. *)
Record Reply := mkReply {
  reply_text : str;
  reply_markdown : bool;
  reply_buttons : list (list (str * str))
}.

Definition plain (text : str) : Reply := mkReply text false [].

(** [user_reminders] as a dict from chat ids kept in insertion order. *)
Definition reminders_get (chat_id : Z) (d : list (Z * list Reminder))
  : option (list Reminder) :=
  snd <$> List.find (λ kv, bool_decide (kv.1 = chat_id)) d.

Fixpoint reminders_set (chat_id : Z) (v : list Reminder)
    (d : list (Z * list Reminder)) : list (Z * list Reminder) :=
  match d with
  | [] => [(chat_id, v)]
  | (k, x) :: d' =>
    if bool_decide (k = chat_id) then (k, v) :: d'
    else (k, x) :: reminders_set chat_id v d'
  end.

(** [user_reminders.pop(chat_id, None)] *)
Fixpoint reminders_pop (chat_id : Z) (d : list (Z * list Reminder))
  : list (Z * list Reminder) :=
  match d with
  | [] => []
  | (k, x) :: d' =>
    if bool_decide (k = chat_id) then d' else (k, x) :: reminders_pop chat_id d'
  end.

Definition with_reminders (d : list (Z * list Reminder)) (s : State) : State :=
  mkState (bus_route_cache s) (all_bus_stops_cache s) d
          (requests s) (clock_reads s) (sends s) (log s).

Definition read_reminders (chat_id : Z) : M (list Reminder) :=
  λ s, Some (default [] (reminders_get chat_id (user_reminders s)), s).

Definition newline : str := [10%N].

(** [r.get("bus_stop_name") or get_bus_stop_name(stop_code) or stop_code] *)
Definition display_name (rem : Reminder) : M str :=
  let* looked_up := get_bus_stop_name (rem_bus_stop rem) in
  ret (str_or (rem_bus_stop_name rem)
              (str_or (default [] looked_up) (rem_bus_stop rem))).

Section Handlers.
Context `{CharTables}.

Definition ask_bus_stop (env : Env) (fuel : nat) (text : str) (ud : UserData)
  : M (Reply * ConvState * UserData) :=
  let bus_number := strip text in
  let ud := mkUserData (Some bus_number) (ud_bus_stop_code ud)
                       (ud_bus_stop_name ud) (ud_selected_days ud) (ud_time ud) in
  let* routes := get_bus_routes env fuel bus_number in
  match routes with
  | [] =>
    ret (plain (py "Bus " ++ bus_number ++ py " does not exist!" ++ newline
                ++ py "Please try again with a valid bus number."),
         ASK_BUS_NUMBER, ud)
  | _ =>
    ret (plain (py "Please enter the 5 digit bus stop code or the stop name (e.g. Jurong East Int)"),
         ASK_BUS_STOP, ud)
  end.

Definition days_buttons : list (list (str * str)) :=
  [[(py "Weekdays", py "weekdays")]; [(py "Everyday", py "everyday")]].

Definition stop_confirmed (ud : UserData) (code name : str)
  : Reply * ConvState * UserData :=
  (mkReply (py "Bus stop confirmed: " ++ name ++ py " (" ++ code ++ py ")"
            ++ newline ++ newline ++ py "When should I send reminders?")
           false days_buttons,
   ASK_DAYS,
   mkUserData (ud_bus_number ud) (Some code) (Some name)
              (ud_selected_days ud) (ud_time ud)).

Definition validate_and_process_bus_stop (env : Env) (fuel : nat) (text : str)
    (ud : UserData) : M (Reply * ConvState * UserData) :=
  let user_input := strip text in
  match ud_bus_number ud with
  | None | Some [] =>
    ret (plain (py "Error: Bus number not found. Please start over with /setbusreminder"),
         END, ud)
  | Some bus_number =>
    let* result := validate_bus_stop_input env fuel bus_number user_input in
    match result with
    | VNone =>
      ret (plain (py "Invalid bus stop or stop not found on Bus " ++ bus_number
                  ++ py "." ++ newline
                  ++ py "Please enter a valid 5-digit bus stop code or stop name."),
           ASK_BUS_STOP, ud)
    | VMessage text => ret (plain text, ASK_BUS_STOP, ud)
    | VCodeName code name => ret (stop_confirmed ud code name)
    | VStop stop => ret (stop_confirmed ud (stop_code stop) (stop_name stop))
    end
  end.
End Handlers.

(** [query.data] of the pressed button becomes [selected_days]. *)
Definition ask_time (data : str) (ud : UserData) : Reply * ConvState * UserData :=
  (plain (py "What time? (HH:MM)"), ASK_TIME,
   mkUserData (ud_bus_number ud) (ud_bus_stop_code ud) (ud_bus_stop_name ud)
              (Some data) (ud_time ud)).

(** The two checks of the time string are library code:
    [re.match(r"^\d{2}:\d{2}$", s)] and whether
    [datetime.strptime(s, "%H:%M")] returns. *)
Class TimeChecks := {
  matches_HH_MM : str → bool;
  strptime_HM : str → bool
}.

(** [int(s)], or [None] where it raises [ValueError]. *)
Class IntParser := { int_of_str : str → option Z }.

Section Commands.
Context `{CharTables} `{TimeChecks} `{IntParser}.

(** The dict that [save_reminder] appends, when each of its values is a
    string.  With a key of [user_data] unset the code stores [None] under
    it, which a [Reminder] cannot hold: the result is then [None]. *)
Definition reminder_of_user_data (ud : UserData) (time_str : str)
  : M (option Reminder) :=
  match ud_bus_number ud, ud_bus_stop_code ud, ud_selected_days ud with
  | Some bus, Some code, Some days =>
    match ud_bus_stop_name ud with
    | Some (c :: name) => ret (Some (mkReminder bus code (c :: name) days time_str))
    | _ =>
      let* looked_up := get_bus_stop_name code in
      ret ((λ name, mkReminder bus code name days time_str) <$> looked_up)
    end
  | _, _, _ => ret None
  end.

Definition saved_text (rem : Reminder) : str :=
  py "Reminder saved!" ++ newline ++ newline
  ++ py "Bus: *" ++ rem_bus_number rem ++ py "*" ++ newline
  ++ py "Stop: *" ++ rem_bus_stop_name rem ++ py " (" ++ rem_bus_stop rem
  ++ py ")*" ++ newline
  ++ py "Days: *" ++ rem_days rem ++ py "*" ++ newline
  ++ py "Time: *" ++ rem_time rem ++ py "*".

(** [save_reminder].  The result is [None] where the stored dict would hold
    a [None] (see [reminder_of_user_data]). *)
Definition save_reminder (chat_id : Z) (text : str) (ud : UserData)
  : M (option (Reply * ConvState * UserData)) :=
  let time_str := strip text in
  if negb (matches_HH_MM time_str) then
    ret (Some (plain (py "Invalid time format!" ++ newline
                      ++ py "Please enter in HH:MM (24-hour) format." ++ newline
                      ++ py "Example: 07:30 or 18:45"),
               ASK_TIME, ud))
  else if negb (strptime_HM time_str) then
    ret (Some (plain ([9201%N] ++ py " That doesn't seem like a real time." ++ newline
                      ++ py "Try again (HH:MM, 24-hour format)."),
               ASK_TIME, ud))
  else
    let ud := mkUserData (ud_bus_number ud) (ud_bus_stop_code ud)
                         (ud_bus_stop_name ud) (ud_selected_days ud)
                         (Some time_str) in
    let* rem := reminder_of_user_data ud time_str in
    match rem with
    | None => ret None
    | Some rem =>
      λ s,
        let old := default [] (reminders_get chat_id (user_reminders s)) in
        Some (Some (mkReply (saved_text rem) true [], END, ud),
              with_reminders (reminders_set chat_id (old ++ [rem]) (user_reminders s)) s)
    end.

(** One line of [/list]. *)
Definition list_line (idx : nat) (rem : Reminder) : M str :=
  let* name := display_name rem in
  ret (str_of_int (Z.of_nat idx) ++ py ". " ++ rem_bus_number rem ++ py " | "
       ++ name ++ py " (" ++ rem_bus_stop rem ++ py ") | "
       ++ rem_days rem ++ py " | " ++ rem_time rem ++ newline).

Fixpoint list_lines (idx : nat) (reminders : list Reminder) : M str :=
  match reminders with
  | [] => ret []
  | rem :: rest =>
    let* line := list_line idx rem in
    let* lines := list_lines (S idx) rest in
    ret (line ++ lines)
  end.

Definition list_reminders (chat_id : Z) : M Reply :=
  let* reminders := read_reminders chat_id in
  match reminders with
  | [] => ret (plain (py "You don" ++ [8217%N]
                      ++ py "t have any bus reminders set yet!"))
  | _ =>
    let* lines := list_lines 1 reminders in
    ret (mkReply (py "*Your Bus Reminders:*" ++ newline ++ newline ++ lines)
                 true [])
  end.

Definition deleted_text (idx : Z) (removed : Reminder) (name : str) : str :=
  py "Deleted reminder #" ++ str_of_int idx ++ py ":" ++ newline
  ++ py "Bus: " ++ rem_bus_number removed ++ newline
  ++ py "Stop: " ++ name ++ py " (" ++ rem_bus_stop removed ++ py ")" ++ newline
  ++ py "Days: " ++ rem_days removed ++ newline
  ++ py "Time: " ++ rem_time removed.

(** [/deletereminder <number>]; [args] is [context.args]. *)
Definition delete_reminder (chat_id : Z) (args : list str) : M Reply :=
  let* reminders := read_reminders chat_id in
  match reminders, args with
  | [], _ => ret (plain (py "You have no reminders to delete."))
  | _, [] =>
    ret (plain (py "Usage: /deletereminder <number>" ++ newline
                ++ py "Example: /deletereminder 1"))
  | _, arg :: _ =>
    match int_of_str arg with
    | None =>
      ret (plain (py "Please provide a valid reminder number. Example: /deletereminder 1"))
    | Some idx =>
      if (idx <? 1) || (Z.of_nat (length reminders) <? idx) then
        ret (plain (py "Please provide a number between 1 and "
                    ++ str_of_int (Z.of_nat (length reminders)) ++ py "."))
      else
        match reminders !! Z.to_nat (idx - 1) with
        | None => ret (plain [])   (* not reached: the index is in range *)
        | Some removed =>
          let rest := delete (Z.to_nat (idx - 1)) reminders in
          let* name := display_name removed in
          λ s,
            Some (plain (deleted_text idx removed name),
                  with_reminders
                    (match rest with
                     | [] => reminders_pop chat_id (user_reminders s)
                     | _ => reminders_set chat_id rest (user_reminders s)
                     end) s)
        end
    end
  end.
End Commands.

(** *** Notions used in the statements *)

(** The chat ids of [user_reminders] are distinct and no chat has an empty
    list. *)
Definition reminders_ok (d : list (Z * list Reminder)) : Prop :=
  NoDup (fst <$> d) ∧ ∀ chat_id l, (chat_id, l) ∈ d → l ≠ [].

(** ASCII instances for the worked examples. *)
Definition ascii_time_checks : TimeChecks := {|
  matches_HH_MM s :=
    match s with
    | [h1; h2; c; m1; m2] =>
      ascii_isdigit h1 && ascii_isdigit h2 && (c =? 58)%N
      && ascii_isdigit m1 && ascii_isdigit m2
    | _ => false
    end;
  strptime_HM s :=
    match s with
    | [h1; h2; c; m1; m2] =>
      ascii_isdigit h1 && ascii_isdigit h2 && (c =? 58)%N
      && ascii_isdigit m1 && ascii_isdigit m2
      && ((h1 - 48) * 10 + (h2 - 48) <? 24)%N
      && ((m1 - 48) * 10 + (m2 - 48) <? 60)%N
    | _ => false
    end
|}.

Definition ascii_int_parser : IntParser := {|
  int_of_str s :=
    match s with
    | [] => None
    | _ => fst <$> IsoFragment.number (length s) 0 s
    end
|}.

Definition empty_user_data : UserData := mkUserData None None None None None.

(** The name that [/list] and [/deletereminder] show for a reminder, given
    the stop directory. *)
Definition display_text (d : list (str * StopRecord)) (rem : Reminder) : str :=
  str_or (rem_bus_stop_name rem)
         (str_or (default [] (stop_name <$> dict_get (rem_bus_stop rem) d))
                 (rem_bus_stop rem)).

(** Line [idx] of [/list]. *)
Definition line_text (d : list (str * StopRecord)) (idx : nat) (rem : Reminder)
  : str :=
  str_of_int (Z.of_nat idx) ++ py ". " ++ rem_bus_number rem ++ py " | "
  ++ display_text d rem ++ py " (" ++ rem_bus_stop rem ++ py ") | "
  ++ rem_days rem ++ py " | " ++ rem_time rem ++ newline.

(** The user data of a conversation that has reached [ASK_TIME]. *)
Definition demo_user_data : UserData :=
  mkUserData (Some (py "970")) (Some (py "28009")) (Some (py "Jurong East Int"))
             (Some (py "everyday")) None.

Definition reminder_0730 : Reminder :=
  mkReminder (py "970") (py "28009") (py "Jurong East Int")
             (py "everyday") (py "07:30").

(** The conversation of the worked examples: bus " 970 ", stop "28009",
    the button "everyday", time " 07:30 ", for subscriber 1. *)
Definition demo_bus_reply : Reply :=
  plain (py "Please enter the 5 digit bus stop code or the stop name (e.g. Jurong East Int)").

Definition demo_user_data_bus : UserData :=
  mkUserData (Some (py "970")) None None None None.

Definition demo_saved_user_data : UserData :=
  mkUserData (Some (py "970")) (Some (py "28009")) (Some (py "Jurong East Int"))
             (Some (py "everyday")) (Some (py "07:30")).

Definition demo_saved_reply : Reply := mkReply (saved_text reminder_0730) true [].

Definition demo_saved_state : State :=
  with_reminders (reminders_set 1 [reminder_970; reminder_0730] demo_reminders)
                 demo_state.

(** Every item of the table sits under its own [reminder_id], the key of
    the table. *)
Definition table_keyed (table : gmap str DynamoDB.Item) : Prop :=
  ∀ key item, table !! key = Some item → DynamoDB.reminder_id item = key.

(** * Properties *)

(** ** Route cache *)

Ltac run :=
  repeat (unfold bind, ret, out_of_fuel, get_routes_page, get_arrival_page,
          datetime_now, send_message, cache_routes, stops_get, stops_values in *;
          simpl in * ).

Lemma bind_run {A B} (m : M A) (k : A → M B) s :
  bind m k s = match m s with Some (a, s') => k a s' | None => None end.
Proof. reflexivity. Qed.

Lemma same_globals_refl s : same_globals s s.
Proof. by repeat split. Qed.

Lemma same_globals_trans s1 s2 s3 :
  same_globals s1 s2 → same_globals s2 s3 → same_globals s1 s3.
Proof. unfold same_globals. intros (-> & -> & ->) (-> & -> & ->). done. Qed.

Lemma request_with_retries_total env service_no skip attempts s :
  ∃ a s', request_with_retries env service_no skip attempts s = Some (a, s')
          ∧ same_globals s s' ∧ (requests s ≤ requests s')%nat.
Proof.
  revert s. induction attempts as [|attempt rest IH]; intros s.
  - exists NoResponse, s. split; [done|]. split; [apply same_globals_refl | lia].
  - run. set (s1 := with_request _ s).
    assert (Hs1 : same_globals s s1 ∧ (requests s ≤ requests s1)%nat).
    { split; [by repeat split | simpl; lia]. }
    destruct Hs1 as [Hg Hr].
    destruct (http_routes env (requests s)) as [| |st body].
    + case_bool_decide.
      * destruct (IH s1) as (a & s' & Heq & Hg' & Hr').
        exists a, s'. split; [done|].
        split; [by eapply same_globals_trans | lia].
      * by exists ReturnEmpty, s1.
    + by exists ReturnEmpty, s1.
    + by exists (GotResponse st body), s1.
Qed.

Lemma paginate_frame env fuel service_no all_routes skip s path routes s' :
  paginate env fuel service_no all_routes skip s = Some ((path, routes), s') →
  same_globals s s' ∧ (requests s ≤ requests s')%nat ∧ path ≠ CacheHit
  ∧ (path = Aborted → routes = []).
Proof.
  revert all_routes skip s. induction fuel as [|fuel IH]; intros all_routes skip s.
  - discriminate.
  - cbn [paginate]. unfold bind at 1.
    destruct (request_with_retries_total env service_no skip (seq 0 MAX_RETRIES) s)
      as (a & s1 & -> & Hg & Hr).
    destruct a as [st body| |].
    + case_bool_decide.
      { intros [= <- <- <-]. done. }
      destruct body as [|data].
      { intros [= <- <- <-]. done. }
      destruct (default [] data) as [|r0 rs].
      { intros [= <- <- <-]. done. }
      case_bool_decide.
      { intros [= <- <- <-]. done. }
      intros Hrec. apply IH in Hrec as (Hg' & Hr' & Hp).
      split; [by eapply same_globals_trans|]. split; [lia | done].
    + intros [= <- <- <-]. done.
    + intros [= <- <- <-]. done.
Qed.

(** A cache hit: the cached list is returned and nothing else happens. *)
Lemma get_bus_routes_path_hit env fuel service_no s routes :
  bus_route_cache s !! service_no = Some routes →
  get_bus_routes_path env fuel service_no s = Some ((CacheHit, routes), s).
Proof. intros Hc. unfold get_bus_routes_path. by rewrite Hc. Qed.

(** What a call does to the cache, by the path it took. *)
Lemma get_bus_routes_path_cache env fuel service_no s path routes s' :
  get_bus_routes_path env fuel service_no s = Some ((path, routes), s') →
  match path with
  | CacheHit => s' = s ∧ bus_route_cache s !! service_no = Some routes
  | Aborted =>
    bus_route_cache s' = bus_route_cache s ∧ routes = []
    ∧ bus_route_cache s !! service_no = None
  | _ =>
    bus_route_cache s' = <[service_no := routes]> (bus_route_cache s)
    ∧ bus_route_cache s !! service_no = None
  end
  ∧ all_bus_stops_cache s' = all_bus_stops_cache s
  ∧ user_reminders s' = user_reminders s
  ∧ (requests s ≤ requests s')%nat.
Proof.
  unfold get_bus_routes_path.
  destruct (bus_route_cache s !! service_no) as [cached|] eqn:Hc.
  - intros [= <- <- <-]. done.
  - unfold bind at 1.
    destruct (paginate env fuel service_no [] 0 s) as [[[p r] s1]|] eqn:Hp;
      [|discriminate].
    apply paginate_frame in Hp as ((Hg1 & Hg2 & Hg3) & Hr & Hne & Hab).
    destruct p; run; intros [= <- <- <-]; simpl; try done;
      rewrite ?Hg1; repeat split; auto.
Qed.

(** Entries of the cache are never removed or replaced. *)
Lemma get_bus_routes_path_keeps env fuel service_no s pr s' key cached :
  get_bus_routes_path env fuel service_no s = Some (pr, s') →
  bus_route_cache s !! key = Some cached →
  bus_route_cache s' !! key = Some cached.
Proof.
  destruct pr as [path routes]. intros Hcall Hkey.
  apply get_bus_routes_path_cache in Hcall as (Hcache & _).
  destruct path.
  - by destruct Hcache as [-> _].
  - destruct Hcache as [-> Hnone].
    rewrite lookup_insert_ne; [done | congruence].
  - destruct Hcache as [-> Hnone].
    rewrite lookup_insert_ne; [done | congruence].
  - by destruct Hcache as (-> & _).
Qed.

Lemma filter_none {A} (P : A → Prop) `{∀ x, Decision (P x)} (l : list A) :
  (∀ x, x ∈ l → ¬ P x) → filter P l = [].
Proof.
  induction l as [|a l IH]; intros Hall; [done|].
  rewrite filter_cons. case_decide as Ha.
  - exfalso. eapply Hall; [left | done].
  - apply IH. intros x Hx. apply Hall. by right.
Qed.

(** Once a service number is in the cache, every call for it in a run is a
    cache hit that sends nothing and returns the cached list. *)
Lemma run_calls_hits env fuel calls s reports s' service_no cached report :
  run_calls env fuel calls s = Some (reports, s') →
  bus_route_cache s !! service_no = Some cached →
  report ∈ reports →
  call_service report = service_no →
  call_path report = CacheHit ∧ call_requests report = 0%nat
  ∧ call_result report = cached.
Proof.
  revert s reports. induction calls as [|c rest IH]; intros s reports.
  - intros [= <- <-] _ Hin. by apply elem_of_nil in Hin.
  - cbn [run_calls]. unfold bind at 1.
    destruct (get_bus_routes_path env fuel c s) as [[[p r] s1]|] eqn:Hcall;
      [|discriminate].
    unfold bind at 1.
    destruct (run_calls env fuel rest s1) as [[reps s2]|] eqn:Hrest;
      [|discriminate].
    intros [= <- <-] Hc Hin Hsvc.
    apply elem_of_cons in Hin as [->|Hin].
    + simpl in Hsvc. subst c.
      rewrite (get_bus_routes_path_hit _ _ _ _ _ Hc) in Hcall.
      injection Hcall as <- <- <-. simpl. split; [done|]. split; [lia | done].
    + eapply IH; eauto.
      eapply get_bus_routes_path_keeps; eauto.
Qed.

Lemma get_bus_routes_path_fetched env fuel service_no s path routes s' :
  get_bus_routes_path env fuel service_no s = Some ((path, routes), s') →
  path = EndOfData ∨ path = UpstreamFailure →
  bus_route_cache s' !! service_no = Some routes.
Proof.
  intros Hcall Hpath. apply get_bus_routes_path_cache in Hcall as (Hcache & _).
  destruct Hpath as [-> | ->]; destruct Hcache as [-> _]; apply lookup_insert_eq.
Qed.

(** C3, as amended.  In every run of calls of [get_bus_routes]: after a
    call that completed its pagination (it left the loop at the end of the
    data, with a possibly empty result), every later call with the same
    service number is served from the cache, sends no request and returns
    the same list; and for every service number at most one call of the run
    carries a pagination through to the cache write.  (A pagination that is
    aborted by a timeout or a request error writes nothing, and a later call
    paginates again.) *)
Theorem route_cache_fetches_once env fuel calls s reports s' :
  run_calls env fuel calls s = Some (reports, s') →
  (∀ i j first later,
     (i < j)%nat → reports !! i = Some first → reports !! j = Some later →
     call_service later = call_service first →
     call_path first = EndOfData →
     call_path later = CacheHit ∧ call_requests later = 0%nat
     ∧ call_result later = call_result first)
  ∧ (∀ service_no,
       length (filter (λ r, call_service r = service_no
                            ∧ (call_path r = EndOfData
                               ∨ call_path r = UpstreamFailure))
                      reports) ≤ 1)%nat.
Proof.
  revert s reports. induction calls as [|c rest IH]; intros s reports.
  - intros [= <- <-]. split; [|intros; simpl; lia].
    intros i j first later _ Hi. by rewrite lookup_nil in Hi.
  - cbn [run_calls]. unfold bind at 1.
    destruct (get_bus_routes_path env fuel c s) as [[[p r] s1]|] eqn:Hcall;
      [|discriminate].
    unfold bind at 1.
    destruct (run_calls env fuel rest s1) as [[reps s2]|] eqn:Hrest;
      [|discriminate].
    intros [= <- <-]. destruct (IH _ _ Hrest) as [IH1 IH2]. split.
    + intros i j first later Hij Hi Hj Hsvc Hpath.
      destruct j as [|j]; [lia|]. simpl in Hj.
      destruct i as [|i].
      * injection Hi as <-. simpl in *. subst p.
        eapply run_calls_hits; eauto.
        -- eapply get_bus_routes_path_fetched; eauto.
        -- eapply list_elem_of_lookup_2; eauto.
      * simpl in Hi. eapply (IH1 i j); eauto. lia.
    + intros service_no. rewrite filter_cons. case_decide as Hhd; [|apply IH2].
      simpl in Hhd. destruct Hhd as [<- Hpath].
      pose proof (get_bus_routes_path_fetched _ _ _ _ _ _ _ Hcall Hpath) as Hc.
      rewrite (filter_none _ reps); [simpl; lia|].
      intros x Hx [Hs Hp].
      destruct (run_calls_hits _ _ _ _ _ _ _ _ x Hrest Hc Hx Hs) as [Hhit _].
      destruct Hp; congruence.
Qed.

(** *** Termination of the pagination *)

Lemma request_with_retries_response env service_no skip attempts s st body s' :
  request_with_retries env service_no skip attempts s
    = Some (GotResponse st body, s') →
  (requests s < requests s')%nat
  ∧ http_routes env (requests s' - 1) = Response st body.
Proof.
  revert s. induction attempts as [|attempt rest IH]; intros s; [done|].
  run. destruct (http_routes env (requests s)) as [| |st0 body0] eqn:Hnet.
  - case_bool_decide; [|done]. intros Hrec. apply IH in Hrec as [Hlt Hresp].
    simpl in Hlt. split; [lia | done].
  - done.
  - intros [= <- <- <-]. simpl. split; [lia|].
    by rewrite Nat.sub_0_r.
Qed.

(** If from the [bound]-th request on no answer is a full page, the loop
    leaves within [bound - requests s + 1] rounds. *)
Lemma paginate_terminates env bound fuel service_no all_routes skip s :
  (∀ n, (bound ≤ n)%nat → full_page (http_routes env n) = false) →
  (bound - requests s < fuel)%nat →
  is_Some (paginate env fuel service_no all_routes skip s).
Proof.
  intros Hbound. revert all_routes skip s.
  induction fuel as [|fuel IH]; intros all_routes skip s Hfuel; [lia|].
  cbn [paginate]. unfold bind at 1.
  destruct (request_with_retries_total env service_no skip (seq 0 MAX_RETRIES) s)
    as (a & s1 & Hreq & _ & _).
  rewrite Hreq. destruct a as [st body| |]; try done.
  apply request_with_retries_response in Hreq as [Hlt Hresp].
  case_bool_decide as Hst; [done|].
  destruct body as [|data]; [done|].
  destruct data as [rows|]; [|done]. simpl.
  destruct rows as [|r0 rows]; [done|].
  case_bool_decide as Hlen; [done|].
  apply IH.
  destruct (decide (bound ≤ requests s1 - 1)%nat) as [Hge|Hlt']; [|lia].
  apply Hbound in Hge. rewrite Hresp in Hge. simpl in Hge.
  apply andb_false_iff in Hge as [Hge|Hge]; apply bool_decide_eq_false in Hge.
  - exfalso. apply Hge. by destruct (decide (st = 200)); [|exfalso; auto].
  - exfalso. apply Hge. simpl in *. lia.
Qed.

(** [get_bus_routes] returns whenever the upstream stops, at some point,
    answering with full pages. *)
Lemma get_bus_routes_terminates env bound fuel service_no s :
  (∀ n, (bound ≤ n)%nat → full_page (http_routes env n) = false) →
  (bound - requests s < fuel)%nat →
  is_Some (get_bus_routes env fuel service_no s).
Proof.
  intros Hbound Hfuel. unfold get_bus_routes, get_bus_routes_path, bind.
  destruct (bus_route_cache s !! service_no); [done|].
  destruct (paginate_terminates env bound fuel service_no [] 0 s Hbound Hfuel)
    as [[[p r] s1] ->].
  by destruct p.
Qed.

(** *** What is cached *)

(** A request error on the first attempt, or a timeout on each of the
    three attempts, ends the call with [[]] and leaves the cache alone. *)
Lemma get_bus_routes_request_error env fuel service_no s :
  bus_route_cache s !! service_no = None →
  http_routes env (requests s) = RequestError →
  ∃ s', get_bus_routes_path env (S fuel) service_no s = Some ((Aborted, []), s')
        ∧ bus_route_cache s' = bus_route_cache s.
Proof.
  intros Hc Hnet. unfold get_bus_routes_path. rewrite Hc. run. rewrite Hnet.
  eexists. split; reflexivity.
Qed.

Lemma get_bus_routes_timeouts env fuel service_no s :
  bus_route_cache s !! service_no = None →
  http_routes env (requests s) = Timeout →
  http_routes env (S (requests s)) = Timeout →
  http_routes env (S (S (requests s))) = Timeout →
  ∃ s', get_bus_routes_path env (S fuel) service_no s = Some ((Aborted, []), s')
        ∧ bus_route_cache s' = bus_route_cache s
        ∧ requests s' = (requests s + 3)%nat.
Proof.
  intros Hc H1 H2 H3. unfold get_bus_routes_path. rewrite Hc. run.
  rewrite H1. simpl. rewrite H2. simpl. rewrite H3. simpl.
  eexists. split; [reflexivity|]. simpl. split; [done | lia].
Qed.

(** A status other than 200, or an undecodable body, leaves the loop by
    [break], and what was collected so far is written to the cache. *)
Lemma get_bus_routes_http_error env fuel service_no s status_code body :
  bus_route_cache s !! service_no = None →
  http_routes env (requests s) = Response status_code body →
  status_code ≠ 200 ∨ body = NotJson →
  ∃ s', get_bus_routes_path env (S fuel) service_no s
          = Some ((UpstreamFailure, []), s')
        ∧ bus_route_cache s' !! service_no = Some [].
Proof.
  intros Hc Hnet Hbad. unfold get_bus_routes_path. rewrite Hc. run. rewrite Hnet.
  case_bool_decide as Hst.
  - eexists. split; [reflexivity|]. simpl. apply lookup_insert_eq.
  - destruct Hbad as [Hbad| ->]; [done|].
    eexists. split; [reflexivity|]. simpl. apply lookup_insert_eq.
Qed.

(** C1, evaluated.  Service 970, empty cache.  (a) The upstream answers the
    first request with status 503: the call returns [[]] and writes the
    entry [970 -> []].  (b) The upstream answers the first request with a
    full page of 500 rows and the second with status 500: the call returns
    the 500 rows and writes them to the cache as the route of 970. *)
Theorem get_bus_routes_caches_aborted_fetch :
  let row := mkRow (Some (py "970")) (Some (py "28009")) in
  let page := replicate 500 row in
  (∃ s', get_bus_routes (scripted [Response 503 NotJson] [] 0) 5 (py "970")
           (initial [] []) = Some ([], s')
         ∧ bus_route_cache s' !! py "970" = Some [])
  ∧ (∃ s', get_bus_routes
             (scripted [Response 200 (Json (Some page)); Response 500 NotJson] [] 0)
             5 (py "970") (initial [] []) = Some (page, s')
           ∧ bus_route_cache s' !! py "970" = Some page).
Proof.
  split; eexists; (split; [vm_compute; reflexivity | vm_compute; reflexivity]).
Qed.

(** ** Validation *)

Section ValidationProperties.
Context `{CharTables}.



Lemma lstrip_digits (s : str) :
  (∀ c, isdigit c = true → isspace c = false) →
  forallb isdigit s = true → lstrip s = s.
Proof.
  intros Hlaw. destruct s as [|c s]; [done|]. simpl.
  intros [Hc _]%andb_true_iff. by rewrite (Hlaw c Hc).
Qed.

Lemma strip_digits (s : str) :
  (∀ c, isdigit c = true → isspace c = false) →
  forallb isdigit s = true → strip s = s.
Proof.
  intros Hlaw Hs. unfold strip, rstrip. rewrite (lstrip_digits s Hlaw Hs).
  rewrite lstrip_digits; [apply rev_involutive | done |].
  rewrite forallb_forall in *. intros c Hc. apply Hs. by apply in_rev.
Qed.

Lemma str_isdigit_forallb (s : str) :
  str_isdigit s = true → forallb isdigit s = true.
Proof. by destruct s. Qed.

Lemma is_stop_in_bus_route_spec env fuel bus_number stop s routes s1 :
  get_bus_routes env fuel bus_number s = Some (routes, s1) →
  is_stop_in_bus_route env fuel bus_number stop s
  = Some (bool_decide (stop ∈ route_stop_codes routes), s1).
Proof. intros Hr. unfold is_stop_in_bus_route, bind. by rewrite Hr. Qed.

(** The code path, for an input whose trimmed form is five digits. *)
Lemma validate_code_path env fuel bus_number user_input s :
  let code := strip user_input in
  str_isdigit code = true → length code = 5%nat →
  match dict_get code (all_bus_stops_cache s) with
  | None =>
    validate_bus_stop_input env fuel bus_number user_input s = Some (VNone, s)
  | Some stop =>
    ∀ routes s1,
      get_bus_routes env fuel bus_number s = Some (routes, s1) →
      validate_bus_stop_input env fuel bus_number user_input s
      = Some (if bool_decide (code ∈ route_stop_codes routes)
              then VCodeName code (stop_name stop) else VNone, s1)
  end.
Proof.
  intros code Hd Hl. unfold validate_bus_stop_input. fold code.
  rewrite Hd, bool_decide_eq_true_2 by done. simpl.
  rewrite bind_run. unfold stops_get.
  destruct (dict_get code (all_bus_stops_cache s)) as [stop|]; [|done].
  intros routes s1 Hr. rewrite bind_run.
  rewrite (is_stop_in_bus_route_spec _ _ _ _ _ _ _ Hr).
  by case_bool_decide.
Qed.

(** The name path, for an input whose trimmed form is not five digits. *)
Lemma validate_name_path env fuel bus_number user_input s :
  let query := strip user_input in
  str_isdigit query && bool_decide (length query = 5%nat) = false →
  ∃ matches,
    search_bus_stops_by_name query s = Some (matches, s)
    ∧ match matches with
      | [] =>
        validate_bus_stop_input env fuel bus_number user_input s
        = Some (VNone, s)
      | [found] =>
        ∀ routes s1,
          get_bus_routes env fuel bus_number s = Some (routes, s1) →
          validate_bus_stop_input env fuel bus_number user_input s
          = Some (if bool_decide (stop_code found ∈ route_stop_codes routes)
                  then VStop found else VNone, s1)
      | _ :: _ :: _ =>
        validate_bus_stop_input env fuel bus_number user_input s
        = Some (VMessage (multiple_matches_message query), s)
      end.
Proof.
  intros query Hq. unfold validate_bus_stop_input. fold query. rewrite Hq.
  unfold search_bus_stops_by_name. run.
  set (matches := List.filter _ _). exists matches. split; [done|].
  destruct matches as [|found [|? ?]]; try done.
  intros routes s1 Hr.
  rewrite (is_stop_in_bus_route_spec _ _ _ _ _ _ _ Hr).
  by destruct (bool_decide (stop_code found ∈ route_stop_codes routes)).
Qed.

(** [validate_bus_stop_input] returns under the condition under which
    [get_bus_routes] does. *)
Lemma validate_bus_stop_input_terminates env bound fuel bus_number user_input s :
  (∀ n, (bound ≤ n)%nat → full_page (http_routes env n) = false) →
  (bound - requests s < fuel)%nat →
  is_Some (validate_bus_stop_input env fuel bus_number user_input s).
Proof.
  intros Hbound Hfuel.
  assert (Hroute : ∀ stop (k : bool → M Validated),
            (∀ b s1, is_Some (k b s1)) →
            is_Some (bind (is_stop_in_bus_route env fuel bus_number stop) k s)).
  { intros stop k Hk. rewrite bind_run. unfold is_stop_in_bus_route.
    rewrite bind_run.
    destruct (get_bus_routes_terminates env bound fuel bus_number s Hbound Hfuel)
      as [[routes s1] ->]. apply Hk. }
  unfold validate_bus_stop_input. destruct (_ && _).
  - rewrite bind_run. unfold stops_get.
    destruct (dict_get _ _); [|done]. apply Hroute. by intros [] s1.
  - unfold search_bus_stops_by_name. rewrite !bind_run. simpl.
    destruct (List.filter _ _) as [|found [|? ?]]; [done| |done].
    apply Hroute. by intros [] s1.
Qed.

(** C2.  Let the input be exactly a 5-digit code.  If the code is not in
    the stop directory, the result is [None].  If it is, then for the
    routes that [get_bus_routes] returns for the bus number: the result is
    not [None] iff the code is among the stop codes of these routes, and
    then it is [{code, name}] with the directory's name for the code. *)
Theorem validate_code_iff_on_route env fuel bus_number code s :
  (∀ c, isdigit c = true → isspace c = false) →
  str_isdigit code = true → length code = 5%nat →
  (dict_get code (all_bus_stops_cache s) = None →
   validate_bus_stop_input env fuel bus_number code s = Some (VNone, s))
  ∧ (∀ stop routes s1,
       dict_get code (all_bus_stops_cache s) = Some stop →
       get_bus_routes env fuel bus_number s = Some (routes, s1) →
       ∃ result,
         validate_bus_stop_input env fuel bus_number code s = Some (result, s1)
         ∧ (result ≠ VNone ↔ code ∈ route_stop_codes routes)
         ∧ (code ∈ route_stop_codes routes →
            result = VCodeName code (stop_name stop))).
Proof.
  intros Hlaw Hd Hl.
  assert (Hs : strip code = code).
  { apply strip_digits; [done | by apply str_isdigit_forallb]. }
  pose proof (validate_code_path env fuel bus_number code s) as Hp.
  simpl in Hp. rewrite Hs in Hp. specialize (Hp Hd Hl). split.
  - intros Hnone. by rewrite Hnone in Hp.
  - intros stop routes s1 Hsome Hr. rewrite Hsome in Hp.
    rewrite (Hp routes s1 Hr). eexists. split; [done|].
    case_bool_decide; split; done.
Qed.




End ValidationProperties.

(** ** Arrival computation and rendering *)

(** *** The float divisions of [minutes_to_arrival] *)

Lemma nearest_even_near n d :
  0 < d →
  2 * (nearest_even n d * d - n) ≤ d ∧ 2 * (n - nearest_even n d * d) ≤ d.
Proof.
  intros Hd. unfold nearest_even.
  pose proof (Z.div_mod n d ltac:(lia)) as Hdm.
  pose proof (Z.mod_pos_bound n d Hd) as Hr.
  set (q := n / d) in *. set (r := n mod d) in *.
  destruct (2 * r <? d) eqn:H1; [apply Z.ltb_lt in H1; nia|].
  apply Z.ltb_ge in H1.
  destruct (d <? 2 * r) eqn:H2; [apply Z.ltb_lt in H2; nia|].
  apply Z.ltb_ge in H2.
  destruct (Z.even q); nia.
Qed.

Lemma nearest_even_lower n d q :
  0 < d → q * d ≤ n → q ≤ nearest_even n d.
Proof.
  intros Hd Hq. assert (q ≤ n / d) by (apply Z.div_le_lower_bound; lia).
  unfold nearest_even.
  destruct (2 * (n mod d) <? d); [done|].
  destruct (d <? 2 * (n mod d)); [lia|].
  destruct (Z.even (n / d)); lia.
Qed.

Lemma scaled_nonpos_exponent e a b :
  e ≤ 0 → scaled_num e a = a * 2 ^ (- e) ∧ scaled_den e b = b.
Proof.
  intros He. unfold scaled_num, scaled_den.
  rewrite Z.max_r by lia. rewrite Z.max_l by lia. split; [done|]. simpl. lia.
Qed.

(** The quotient scaled by the exponent has at least 53 bits. *)
Lemma ulp_exponent_lower a b :
  0 < a → 0 < b →
  let e := ulp_exponent a b in
  2 ^ 52 * scaled_den e b ≤ scaled_num e a.
Proof.
  intros Ha Hb.
  destruct (Z.log2_spec a Ha) as [Hla1 Hla2].
  destruct (Z.log2_spec b Hb) as [Hlb1 Hlb2].
  pose proof (Z.log2_nonneg a) as Hla0. pose proof (Z.log2_nonneg b) as Hlb0.
  unfold ulp_exponent. set (e0 := Z.log2 a - Z.log2 b - 53).
  unfold scaled_num, scaled_den.
  destruct (Z_le_gt_dec 0 e0) as [He0|He0].
  - (* e0 >= 0 *)
    rewrite (Z.max_r 0 e0) by lia. rewrite (Z.max_l 0 (- e0)) by lia.
    rewrite Z.pow_0_r, Z.mul_1_r.
    destruct (_ <=? _) eqn:Hc.
    + apply Z.leb_le in Hc. cbv zeta.
      rewrite (Z.max_r 0 (e0 + 1)) by lia. rewrite (Z.max_l 0 (- (e0 + 1))) by lia.
      rewrite Z.pow_0_r, Z.mul_1_r.
      rewrite Z.pow_add_r by lia. change (2 ^ 1) with 2.
      change (2 ^ 53) with (2 * 2 ^ 52) in Hc. lia.
    + cbv zeta. rewrite (Z.max_r 0 e0) by lia. rewrite (Z.max_l 0 (- e0)) by lia.
      rewrite Z.pow_0_r, Z.mul_1_r.
      assert (Hpow : 2 ^ Z.log2 a = 2 ^ 52 * 2 ^ Z.succ (Z.log2 b) * 2 ^ e0).
      { rewrite <- !Z.pow_add_r by lia. f_equal. lia. }
      assert (0 < 2 ^ e0) by (apply Z.pow_pos_nonneg; lia).
      nia.
  - (* e0 < 0 *)
    rewrite (Z.max_l 0 e0) by lia. rewrite (Z.max_r 0 (- e0)) by lia.
    rewrite Z.pow_0_r, Z.mul_1_r.
    destruct (_ <=? _) eqn:Hc.
    + apply Z.leb_le in Hc. cbv zeta.
      rewrite (Z.max_l 0 (e0 + 1)) by lia. rewrite (Z.max_r 0 (- (e0 + 1))) by lia.
      rewrite Z.pow_0_r, Z.mul_1_r.
      replace (- e0) with (- (e0 + 1) + 1) in Hc by lia.
      rewrite Z.pow_add_r in Hc by lia. change (2 ^ 1) with 2 in Hc.
      change (2 ^ 53) with (2 * 2 ^ 52) in Hc. lia.
    + cbv zeta. rewrite (Z.max_l 0 e0) by lia. rewrite (Z.max_r 0 (- e0)) by lia.
      rewrite Z.pow_0_r, Z.mul_1_r.
      assert (Hpow : 2 ^ Z.log2 a * 2 ^ (- e0) = 2 ^ 52 * 2 ^ Z.succ (Z.log2 b)).
      { rewrite <- !Z.pow_add_r by lia. f_equal. lia. }
      assert (0 < 2 ^ (- e0)) by (apply Z.pow_pos_nonneg; lia).
      nia.
Qed.

(** ... and at most 53 bits. *)
Lemma ulp_exponent_upper a b :
  0 < a → 0 < b →
  let e := ulp_exponent a b in
  scaled_num e a < 2 ^ 53 * scaled_den e b.
Proof.
  intros Ha Hb.
  destruct (Z.log2_spec a Ha) as [Hla1 Hla2].
  destruct (Z.log2_spec b Hb) as [Hlb1 Hlb2].
  pose proof (Z.log2_nonneg a) as Hla0. pose proof (Z.log2_nonneg b) as Hlb0.
  unfold ulp_exponent. set (e0 := Z.log2 a - Z.log2 b - 53).
  destruct (_ <=? _) eqn:Hc; [|apply Z.leb_gt in Hc; exact Hc].
  cbv zeta. unfold scaled_num, scaled_den.
  destruct (Z_le_gt_dec 0 (e0 + 1)) as [He0|He0].
  - rewrite (Z.max_r 0 (e0 + 1)) by lia. rewrite (Z.max_l 0 (- (e0 + 1))) by lia.
    rewrite Z.pow_0_r, Z.mul_1_r.
    assert (Hpow : 2 ^ Z.succ (Z.log2 a) = 2 ^ 53 * 2 ^ Z.log2 b * 2 ^ (e0 + 1)).
    { rewrite <- !Z.pow_add_r by lia. f_equal. lia. }
    assert (0 < 2 ^ (e0 + 1)) by (apply Z.pow_pos_nonneg; lia).
    nia.
  - rewrite (Z.max_l 0 (e0 + 1)) by lia. rewrite (Z.max_r 0 (- (e0 + 1))) by lia.
    rewrite Z.pow_0_r, Z.mul_1_r.
    assert (Hpow : 2 ^ Z.succ (Z.log2 a) * 2 ^ (- (e0 + 1)) = 2 ^ 53 * 2 ^ Z.log2 b).
    { rewrite <- !Z.pow_add_r by lia. f_equal. lia. }
    assert (0 < 2 ^ (- (e0 + 1))) by (apply Z.pow_pos_nonneg; lia).
    nia.
Qed.

Lemma scaled_den_pos e b : 0 < b → 0 < scaled_den e b.
Proof.
  intros Hb. unfold scaled_den.
  assert (0 < 2 ^ Z.max 0 e) by (apply Z.pow_pos_nonneg; lia). lia.
Qed.

(** With a quotient below [2^53] the exponent is not positive: the scaling
    multiplies the numerator by a power of two. *)
Lemma ulp_exponent_small a b :
  0 < a → 0 < b → a < 2 ^ 53 * b →
  ∃ p, 1 ≤ p
       ∧ 2 ^ Z.max 0 (ulp_exponent a b) = 1
       ∧ 2 ^ Z.max 0 (- ulp_exponent a b) = p
       ∧ scaled_num (ulp_exponent a b) a = a * p
       ∧ scaled_den (ulp_exponent a b) b = b
       ∧ 2 ^ 52 * b ≤ a * p.
Proof.
  intros Ha Hb Hsmall.
  pose proof (ulp_exponent_lower a b Ha Hb) as Hlow. cbv zeta in Hlow.
  destruct (Z_le_gt_dec (ulp_exponent a b) 0) as [He|He].
  - destruct (scaled_nonpos_exponent (ulp_exponent a b) a b He) as [Hn Hd].
    exists (2 ^ (- ulp_exponent a b)).
    rewrite Hn, Hd in *. rewrite Z.max_l by lia. rewrite Z.max_r by lia.
    assert (0 < 2 ^ (- ulp_exponent a b)) by (apply Z.pow_pos_nonneg; lia).
    repeat split; try done; lia.
  - exfalso. unfold scaled_num, scaled_den in Hlow.
    rewrite Z.max_r in Hlow by lia. rewrite Z.max_l in Hlow by lia.
    rewrite Z.pow_0_r, Z.mul_1_r in Hlow.
    assert (2 ^ 1 ≤ 2 ^ ulp_exponent a b) by (apply Z.pow_le_mono_r; lia).
    change (2 ^ 1) with 2 in *. change (2 ^ 53) with (2 * 2 ^ 52) in Hsmall. nia.
Qed.

Lemma div_rounded_pos n d :
  0 < n → 0 < d → n < 2 ^ 53 * d →
  ∃ m e p,
    div_rounded n d = mkFloat m e
    ∧ 1 ≤ p
    ∧ 2 ^ Z.max 0 e = 1
    ∧ 2 ^ Z.max 0 (- e) = p
    ∧ m = nearest_even (n * p) d
    ∧ 2 ^ 52 * d ≤ n * p.
Proof.
  intros Hn Hd Hsmall. unfold div_rounded.
  destruct (n =? 0) eqn:H0; [apply Z.eqb_eq in H0; lia|].
  rewrite Z.abs_eq by lia. rewrite Z.sgn_pos by lia. rewrite Z.mul_1_l.
  destruct (ulp_exponent_small n d Hn Hd Hsmall) as (p & Hp & H1 & H2 & H3 & H4 & H5).
  rewrite H3, H4. by exists (nearest_even (n * p) d), (ulp_exponent n d), p.
Qed.

Lemma div_rounded_sign n d :
  0 < d → (0 ≤ n → 0 ≤ mant (div_rounded n d)) ∧ (n ≤ 0 → mant (div_rounded n d) ≤ 0).
Proof.
  intros Hd. unfold div_rounded.
  destruct (n =? 0) eqn:H0; [done|]. apply Z.eqb_neq in H0. cbn [mant].
  set (e := ulp_exponent (Z.abs n) d).
  assert (Hm : 0 ≤ nearest_even (scaled_num e (Z.abs n)) (scaled_den e d)).
  { apply nearest_even_lower; [by apply scaled_den_pos|].
    unfold scaled_num. assert (0 < 2 ^ Z.max 0 (- e)) by (apply Z.pow_pos_nonneg; lia).
    nia. }
  split; intros Hs.
  - rewrite Z.sgn_pos by lia. lia.
  - rewrite Z.sgn_neg by lia. lia.
Qed.

Lemma whole_minutes_past us : us ≤ 0 → whole_minutes us = 0.
Proof.
  intros Hus. unfold whole_minutes, total_seconds, float_div, int_of_float.
  pose proof (proj2 (div_rounded_sign us 1000000 ltac:(done)) Hus) as H1.
  set (x := div_rounded us 1000000) in *.
  assert (Hp1 : 0 < 2 ^ Z.max 0 (expo x)) by (apply Z.pow_pos_nonneg; lia).
  assert (Hp2 : 0 < 2 ^ Z.max 0 (- expo x)) by (apply Z.pow_pos_nonneg; lia).
  pose proof (proj2 (div_rounded_sign (mant x * 2 ^ Z.max 0 (expo x))
                       (60 * 2 ^ Z.max 0 (- expo x)) ltac:(lia)) ltac:(nia)) as H2.
  set (y := div_rounded (mant x * _) _) in *.
  assert (Hq1 : 0 < 2 ^ Z.max 0 (expo y)) by (apply Z.pow_pos_nonneg; lia).
  assert (Hq2 : 0 < 2 ^ Z.max 0 (- expo y)) by (apply Z.pow_pos_nonneg; lia).
  assert ((mant y * 2 ^ Z.max 0 (expo y)) ÷ 2 ^ Z.max 0 (- expo y) ≤ 0).
  { rewrite <- (Z.opp_involutive (mant y * _)). rewrite Z.quot_opp_l by lia.
    assert (0 ≤ (- (mant y * 2 ^ Z.max 0 (expo y))) ÷ 2 ^ Z.max 0 (- expo y))
      by (apply Z.quot_pos; [apply Z.opp_nonneg_nonpos, Z.mul_nonpos_nonneg; lia | lia]).
    lia. }
  lia.
Qed.

(** Within [2^51] microseconds (some 71 years) the two roundings do not
    reach the next whole minute. *)
Lemma whole_minutes_exact us :
  us < 2 ^ 51 → whole_minutes us = Z.max 0 (us / 60000000).
Proof.
  intros Hbound. destruct (Z_le_gt_dec us 0) as [Hneg|Hpos].
  { rewrite whole_minutes_past by done.
    assert (us / 60000000 ≤ 0) by (apply Z.div_le_upper_bound; lia). lia. }
  unfold whole_minutes, total_seconds, float_div, int_of_float.
  destruct (div_rounded_pos us 1000000)
    as (m1 & e1 & p1 & -> & Hp1 & Ha1 & Hb1 & Hm1 & Hn1);
    [lia | done | lia |].
  cbn [mant expo]. rewrite Ha1, Hb1, Z.mul_1_r.
  destruct (nearest_even_near (us * p1) 1000000 ltac:(done)) as [Herr1 _].
  rewrite <- Hm1 in Herr1.
  assert (Hm1low : 2 ^ 52 ≤ m1)
    by (rewrite Hm1; apply nearest_even_lower; [done | lia]).
  assert (Hus : us * 1 ≤ us * p1) by (apply Z.mul_le_mono_nonneg_l; lia).
  destruct (div_rounded_pos m1 (60 * p1))
    as (m2 & e2 & p2 & -> & Hp2 & Ha2 & Hb2 & Hm2 & Hn2);
    [lia | lia | |].
  { change (2 ^ 51) with 2251799813685248 in Hbound.
    change (2 ^ 53) with 9007199254740992. nia. }
  cbn [mant expo]. rewrite Ha2, Hb2, Z.mul_1_r.
  destruct (nearest_even_near (m1 * p2) (60 * p1) ltac:(lia)) as [Herr2 _].
  rewrite <- Hm2 in Herr2.
  set (k := us / 60000000).
  assert (Hk : 60000000 * k ≤ us < 60000000 * (k + 1)).
  { pose proof (Z.mul_div_le us 60000000 ltac:(done)).
    pose proof (Z.mul_succ_div_gt us 60000000 ltac:(done)). unfold k. lia. }
  assert (Hk0 : 0 ≤ k) by (apply Z.div_pos; lia).
  (* lower bound: each rounding is monotone and exact on whole multiples *)
  assert (Hlow1 : 60 * k * p1 ≤ m1).
  { rewrite Hm1. apply nearest_even_lower; [done|]. nia. }
  assert (Hlow2 : k * p2 ≤ m2).
  { rewrite Hm2. apply nearest_even_lower; [lia|]. nia. }
  (* upper bound: the relative error of each rounding is at most 2^-53 *)
  assert (Hup : m2 < (k + 1) * p2).
  { change (2 ^ 52) with 4503599627370496 in *.
    change (2 ^ 51) with 2251799813685248 in *.
    set (W := 9007199254740992).
    assert (E1 : W * (m1 * 1000000) ≤ (W + 1) * (us * p1)) by (unfold W; lia).
    assert (E2 : W * (m2 * (60 * p1)) ≤ (W + 1) * (m1 * p2)) by (unfold W; lia).
    destruct (Z_lt_le_dec m2 ((k + 1) * p2)) as [?|Hge]; [done|]. exfalso.
    assert (E3 : W * W * (m2 * 60000000) * p1 ≤ (W + 1) * (W + 1) * (us * p2) * p1).
    { transitivity ((W + 1) * (W * (m1 * 1000000)) * p2).
      - replace (W * W * (m2 * 60000000) * p1)
          with (W * 1000000 * (W * (m2 * (60 * p1)))) by ring.
        replace ((W + 1) * (W * (m1 * 1000000)) * p2)
          with (W * 1000000 * ((W + 1) * (m1 * p2))) by ring.
        apply Z.mul_le_mono_nonneg_l; [unfold W; lia | done].
      - replace ((W + 1) * (W + 1) * (us * p2) * p1)
          with ((W + 1) * ((W + 1) * (us * p1)) * p2) by ring.
        apply Z.mul_le_mono_nonneg_r; [lia|].
        apply Z.mul_le_mono_nonneg_l; [unfold W; lia | done]. }
    apply Z.mul_le_mono_pos_r in E3; [|lia].
    assert (E4 : W * W * ((k + 1) * 60000000) * p2 ≤ (W + 1) * (W + 1) * us * p2).
    { transitivity (W * W * (m2 * 60000000)).
      - replace (W * W * ((k + 1) * 60000000) * p2)
          with (W * W * 60000000 * ((k + 1) * p2)) by ring.
        replace (W * W * (m2 * 60000000)) with (W * W * 60000000 * m2) by ring.
        apply Z.mul_le_mono_nonneg_l; [unfold W; lia | done].
      - replace ((W + 1) * (W + 1) * us * p2)
          with ((W + 1) * (W + 1) * (us * p2)) by ring. done. }
    apply Z.mul_le_mono_pos_r in E4; [|lia].
    unfold W in E4. lia. }
  assert (Hm2pos : 0 ≤ m2) by nia.
  rewrite Z.quot_div_nonneg by lia.
  rewrite (Z.div_unique_pos m2 p2 k (m2 - k * p2)); [done | lia | lia].
Qed.

Section ArrivalProperties.
Context `{IsoParser}.

(** C4, as amended.  [minutes_to_arrival] always returns.  It returns
    [None] for an absent or empty timestamp, for one that [fromisoformat]
    rejects, and for one without an offset (the subtraction from an aware
    [now] fails).  For a timestamp that denotes an instant [arr] less than
    [2^51] microseconds (some 71 years) after [now], the clock reading of the
    call, it returns [max 0 (floor ((arr - now) / 60 s))]; the result is
    never negative, it is 0 for an instant 90 seconds before [now], and 3
    for an instant 3 minutes after [now].  (Further in the future the two
    float divisions can round up to the next minute.) *)
Theorem minutes_to_arrival_spec env iso_time s :
  let now := utcnow env (clock_reads s) in
  let parsed := λ text, fromisoformat (replace_char 90 (py "+00:00") text) in
  ∃ result s',
    minutes_to_arrival env iso_time s = Some (result, s')
    ∧ (iso_time = None ∨ iso_time = Some [] → result = None)
    ∧ (∀ text, iso_time = Some text → parsed text = ParseError → result = None)
    ∧ (∀ text wall, iso_time = Some text → parsed text = Naive wall →
         result = None)
    ∧ (∀ text arr, iso_time = Some text → text ≠ [] → parsed text = Aware arr →
         (arr - now < 2 ^ 51 →
          result = Some (Z.max 0 ((arr - now) / us_per_minute)))
         ∧ (arr = now - 90 * 1000000 → result = Some 0)
         ∧ (arr = now + 3 * us_per_minute → result = Some 3))
    ∧ (∀ m, result = Some m → 0 ≤ m).
Proof.
  intros now parsed. unfold minutes_to_arrival.
  destruct iso_time as [[|c text]|].
  - exists None, s. repeat split; intros; simplify_eq; congruence.
  - fold (parsed (c :: text)).
    destruct (parsed (c :: text)) as [|wall|arr] eqn:Hparse.
    + exists None, s. repeat split; intros; simplify_eq; congruence.
    + exists None, (with_clock_read s). repeat split; intros; simplify_eq; congruence.
    + exists (Some (whole_minutes (arr - now))), (with_clock_read s).
      split; [done|]. split; [by intros [|]|].
      split; [intros ? [= <-]; congruence|].
      split; [intros ?? [= <-]; congruence|]. split.
      * intros text' arr' [= <-] _ Harr. rewrite Hparse in Harr.
        injection Harr as <-. split; [|split].
        -- intros Hnear. by rewrite whole_minutes_exact.
        -- intros ->. f_equal.
           replace (now - 90 * 1000000 - now) with (-90000000) by lia. done.
        -- intros ->. f_equal.
           replace (now + 3 * us_per_minute - now) with (3 * us_per_minute) by lia.
           done.
      * intros m [= <-]. unfold whole_minutes. lia.
  - exists None, s. repeat split; intros; simplify_eq; congruence.
Qed.
End ArrivalProperties.

(** ** Scheduler *)

Section SchedulerProperties.
Context `{IsoParser}.

Lemma for_each_raising_app {A} (body : A → M (Raises unit)) (l1 l2 : list A) s :
  for_each_raising body (l1 ++ l2) s
  = match for_each_raising body l1 s with
    | Some (Returned _, s1) => for_each_raising body l2 s1
    | Some (Raised e, s1) => Some (Raised e, s1)
    | None => None
    end.
Proof.
  revert s. induction l1 as [|x l1 IH]; intros s; [done|].
  simpl. rewrite !bind_run.
  destruct (body x s) as [[[[]|e] s1]|]; [apply IH | done | done].
Qed.

Lemma for_each_raising_fmap {A B} (f : A → B) (body : B → M (Raises unit))
    (l : list A) s :
  for_each_raising body (f <$> l) s = for_each_raising (λ x, body (f x)) l s.
Proof.
  revert s. induction l as [|x l IH]; intros s; [done|].
  simpl. rewrite !bind_run.
  destruct (body (f x) s) as [[[[]|e] s1]|]; [apply IH | done | done].
Qed.

Lemma check_reminders_sweep env sg_now s :
  check_reminders env sg_now s = sweep env sg_now (all_reminders s) s.
Proof.
  unfold check_reminders, sweep, all_reminders.
  generalize (user_reminders s) as entries. intros entries. revert s.
  induction entries as [|[chat_id rems] entries IH]; intros s; [done|].
  simpl. rewrite bind_run, for_each_raising_app, for_each_raising_fmap. simpl.
  destruct (for_each_raising _ rems s) as [[[[]|e] s1]|]; [apply IH | done | done].
Qed.

(** What [minutes_to_arrival] leaves alone: all but the clock. *)
Lemma minutes_to_arrival_total env iso_time s :
  ∃ result s', minutes_to_arrival env iso_time s = Some (result, s')
               ∧ same_globals s s' ∧ log s' = log s
               ∧ requests s' = requests s ∧ sends s' = sends s.
Proof.
  unfold minutes_to_arrival.
  destruct iso_time as [[|c text]|]; [by eexists _, _| |by eexists _, _].
  destruct (fromisoformat _); by eexists _, _.
Qed.

(** The rendering ends, and leaves all but the clock alone. *)
Lemma format_arrival_message_total env service bus_number s :
  ∃ rendered s',
    format_arrival_message env service bus_number s = Some (rendered, s')
    ∧ same_globals s s' ∧ log s' = log s
    ∧ requests s' = requests s ∧ sends s' = sends s.
Proof.
  unfold format_arrival_message.
  destruct (get_EstimatedArrival (service ≫= svc_NextBus)) as [arrival|e];
    [|exists (Raised e), s; by repeat split].
  rewrite bind_run.
  destruct (minutes_to_arrival_total env arrival s)
    as (r1 & s1 & -> & Hg1 & Hl1 & Hr1 & Hs1).
  destruct (get_EstimatedArrival (service ≫= svc_NextBus2)) as [arrival2|e];
    [|by exists (Raised e), s1].
  rewrite bind_run.
  destruct (minutes_to_arrival_total env arrival2 s1)
    as (r2 & s2 & -> & Hg2 & Hl2 & Hr2 & Hs2).
  pose proof (same_globals_trans _ _ _ Hg1 Hg2) as Hg.
  destruct r1; eexists _, _; (split; [reflexivity|]);
    (split; [exact Hg|]); repeat split; congruence.
Qed.

(** The rendering of a well-formed service returns. *)
Lemma format_arrival_message_returns env svc bus_number s :
  service_well_formed svc →
  ∃ msg s', format_arrival_message env (Some svc) bus_number s
            = Some (Returned msg, s').
Proof.
  intros [Hw1 Hw2]. unfold format_arrival_message.
  change (Some svc ≫= svc_NextBus) with (svc_NextBus svc).
  change (Some svc ≫= svc_NextBus2) with (svc_NextBus2 svc).
  assert (∃ a, get_EstimatedArrival (svc_NextBus svc) = Returned a) as [a ->].
  { destruct (svc_NextBus svc) as [[bus|]|]; [by eexists | done | by eexists]. }
  assert (∃ a, get_EstimatedArrival (svc_NextBus2 svc) = Returned a) as [a2 ->].
  { destruct (svc_NextBus2 svc) as [[bus|]|]; [by eexists | done | by eexists]. }
  rewrite bind_run.
  destruct (minutes_to_arrival_total env a s) as (r1 & s1 & -> & _).
  rewrite bind_run.
  destruct (minutes_to_arrival_total env a2 s1) as (r2 & s2 & -> & _).
  destruct r1; by eexists _, _.
Qed.

(** The pure part of [get_bus_arrival]: it returns [None] exactly on an
    answer without data for the bus, and a service it returns is listed in
    the answer. *)
Lemma get_bus_arrival_spec env stop bus_number s :
  ∃ service,
    get_bus_arrival env stop bus_number s
    = Some (service, with_request (EvGetArrival stop) s)
    ∧ (service = None ↔ no_service_data bus_number (http_arrival env (requests s)))
    ∧ (∀ svc, service = Some svc →
         ∃ status_code services,
           http_arrival env (requests s)
           = Response status_code (Json (Some services))
           ∧ svc ∈ services).
Proof.
  unfold get_bus_arrival, get_arrival_page. rewrite bind_run.
  destruct (http_arrival env (requests s)) as [| |st body]; simpl.
  - by exists None.
  - by exists None.
  - case_bool_decide as Hst.
    + exists None. split; [done|]. split; [|done]. split; [by left | done].
    + destruct body as [|data].
      * exists None. split; [done|]. split; [|done]. split; [by right | done].
      * eexists. split; [reflexivity|]. split; [split|].
        -- intros Hfind. right. intros svc Hin Heq.
           eapply find_none in Hfind; [|by apply list_elem_of_In].
           by apply bool_decide_eq_false in Hfind.
        -- intros [Hbad|Hnone]; [done|].
           destruct (List.find _ _) as [svc|] eqn:Hfind; [|done].
           apply find_some in Hfind as [Hin Heq].
           apply bool_decide_eq_true in Heq. apply list_elem_of_In in Hin.
           by destruct (Hnone svc Hin).
        -- intros svc Hfind. apply find_some in Hfind as [Hin _].
           destruct data as [services|]; [|done].
           exists st, services. split; [done|]. by apply list_elem_of_In.
Qed.

Lemma weekend_index d :
  (5 <=? weekday_index d) = true ↔ d = Saturday ∨ d = Sunday.
Proof.
  destruct d; simpl; split; intros Hd; try done; auto; by destruct Hd.
Qed.

(** The guard of the loop body is the predicate [due]. *)
Lemma check_reminder_guard sg_now rem :
  (if bool_decide (rem_days rem = py "weekdays")
      && (5 <=? weekday_index (lt_weekday sg_now))
   then false else bool_decide (rem_time rem = strftime_HM sg_now)) = true
  ↔ due sg_now rem.
Proof.
  unfold due. destruct (_ && _) eqn:Hskip.
  - apply andb_true_iff in Hskip as [Hd Hw].
    apply bool_decide_eq_true in Hd. apply weekend_index in Hw.
    split; [done|]. intros [_ Hno]. by destruct Hno.
  - rewrite bool_decide_eq_true. split.
    + intros Ht. split; [done|]. intros [Hd Hw].
      apply weekend_index in Hw. rewrite Hw, andb_true_r in Hskip.
      by apply bool_decide_eq_false in Hskip.
    + by intros [Ht _].
Qed.

(** A reminder that is not due is skipped. *)
Lemma check_reminder_skip env sg_now chat_id rem s :
  ¬ due sg_now rem →
  check_reminder env (strftime_HM sg_now)
    (weekday_index (lt_weekday sg_now)) chat_id rem s = Some (Returned tt, s).
Proof.
  intros Hnd. pose proof (check_reminder_guard sg_now rem) as Hguard.
  unfold check_reminder. destruct (_ && _); [done|].
  case_bool_decide; [|done]. by destruct Hnd; apply Hguard.
Qed.

(** What [send_message] does. *)
Lemma send_message_spec env chat_id text markdown s :
  send_message env chat_id text markdown s
  = Some (if send_raises env (sends s) then Raised TelegramError else Returned tt,
          if send_raises env (sends s) then with_send s
          else with_event (EvSend chat_id text markdown) (with_send s)).
Proof. unfold send_message. by destruct (send_raises env (sends s)). Qed.

(** One round of the loop body on a due reminder: the arrival request is
    sent; then either one message is sent and the body returns, or the
    rendering or the sending raises and no message is sent. *)
Lemma check_reminder_due env sg_now chat_id rem s :
  due sg_now rem →
  ∃ r s' sent,
    check_reminder env (strftime_HM sg_now)
      (weekday_index (lt_weekday sg_now)) chat_id rem s = Some (r, s')
    ∧ same_globals s s'
    ∧ requests s' = S (requests s)
    ∧ log s' = log s ++ EvGetArrival (rem_bus_stop rem) :: sent
    ∧ match r with
      | Returned _ => ∃ text markdown, sent = [EvSend chat_id text markdown]
      | Raised _ => sent = []
      end
    ∧ (no_service_data (rem_bus_number rem) (http_arrival env (requests s)) →
       r = (if send_raises env (sends s) then Raised TelegramError
            else Returned tt)
       ∧ sent = (if send_raises env (sends s) then []
                 else [EvSend chat_id (could_not_fetch (rem_bus_number rem)) false]))
    ∧ (answers_well_formed env → send_raises env (sends s) = false →
       r = Returned tt).
Proof.
  intros Hdue. apply check_reminder_guard in Hdue as Hguard.
  unfold check_reminder. destruct (_ && _); [done|].
  rewrite Hguard.
  destruct (get_bus_arrival_spec env (rem_bus_stop rem) (rem_bus_number rem) s)
    as (service & Hget & Hnone & Hlisted).
  rewrite bind_run, Hget. destruct service as [svc|].
  - destruct (format_arrival_message_total env (Some svc) (rem_bus_number rem)
                (with_request (EvGetArrival (rem_bus_stop rem)) s))
      as (rendered & s1 & Hfmt & Hg & Hlog & Hreq & Hsends).
    rewrite bind_run, Hfmt. destruct rendered as [msg|e].
    + rewrite send_message_spec, Hsends. cbn [sends with_request].
      destruct (send_raises env (sends s)) eqn:Hraise.
      * eexists _, _, []. split; [reflexivity|].
        split; [destruct Hg as (? & ? & ?); by repeat split|].
        split; [by simpl; rewrite Hreq|]. split; [by simpl; rewrite Hlog|].
        split; [done|]. split; [|done].
        intros Hno. by apply Hnone in Hno.
      * eexists _, _, [_]. split; [reflexivity|].
        split; [destruct Hg as (? & ? & ?); by repeat split|].
        split; [by simpl; rewrite Hreq|].
        split; [simpl; rewrite Hlog; simpl; by rewrite <- app_assoc|].
        split; [by eexists _, _|]. split; [|done].
        intros Hno. by apply Hnone in Hno.
    + eexists _, _, []. split; [reflexivity|].
      split; [destruct Hg as (? & ? & ?); by repeat split|].
      split; [by simpl; rewrite Hreq|]. split; [by simpl; rewrite Hlog|].
      split; [done|]. split.
      * intros Hno. by apply Hnone in Hno.
      * intros Hwf _. exfalso.
        destruct (Hlisted svc eq_refl) as (st & services & Hans & Hin).
        destruct (format_arrival_message_returns env svc (rem_bus_number rem)
                    (with_request (EvGetArrival (rem_bus_stop rem)) s)
                    (Hwf _ _ _ _ Hans Hin)) as (msg & s2 & Hret).
        congruence.
  - rewrite send_message_spec. cbn [sends with_request].
    destruct (send_raises env (sends s)) eqn:Hraise.
    + eexists _, _, []. split; [reflexivity|]. split; [by repeat split|].
      do 3 (split; [done|]). split; done.
    + eexists _, _, [_]. split; [reflexivity|]. split; [by repeat split|].
      split; [done|]. split; [simpl; by rewrite <- app_assoc|].
      split; [by eexists _, _|]. split; done.
Qed.

Lemma log_not_extended (l : list Event) a b : l ≠ l ++ [a; b].
Proof.
  intros Heq. apply (f_equal length) in Heq.
  rewrite length_app in Heq. simpl in Heq. lia.
Qed.

(** One round of the loop body: it ends; the arrival query is invoked iff
    the reminder is due; the reminder is acted upon iff it is due and the
    body returns; a reminder that is not due leaves the state as it was. *)
Lemma check_reminder_spec env sg_now chat_id rem s :
  ∃ r s',
    check_reminder env (strftime_HM sg_now)
      (weekday_index (lt_weekday sg_now)) chat_id rem s = Some (r, s')
    ∧ same_globals s s'
    ∧ (arrival_queried rem s s' ↔ due sg_now rem)
    ∧ (acted_upon chat_id rem s s' ↔ due sg_now rem ∧ r = Returned tt)
    ∧ (¬ due sg_now rem → r = Returned tt ∧ s' = s).
Proof.
  destruct (decide (due sg_now rem)) as [Hdue|Hnd].
  - destruct (check_reminder_due env sg_now chat_id rem s Hdue)
      as (r & s' & sent & Hrun & Hg & Hreq & Hlog & Hsent & _).
    exists r, s'. split; [done|]. split; [done|]. split; [|split; [|done]].
    + split; [done|]. intros _. split; [done|]. by exists sent.
    + split.
      * intros (text & md & Hact). split; [done|].
        rewrite Hlog in Hact. apply app_inv_head in Hact.
        injection Hact as Hact. destruct r as [[]|e]; [done|]. by subst sent.
      * intros [_ ->]. destruct Hsent as (text & md & ->). by exists text, md.
  - exists (Returned tt), s. split; [by apply check_reminder_skip|].
    split; [apply same_globals_refl|]. split; [|split; [|done]].
    + split; [|done]. intros [Hreq _]. lia.
    + split; [|by intros [? _]]. intros (text & md & Hact).
      by apply log_not_extended in Hact.
Qed.

Lemma sweep_total env sg_now items s :
  ∃ r s', sweep env sg_now items s = Some (r, s').
Proof.
  revert s. induction items as [|[chat_id rem] items IH]; intros s.
  - by exists (Returned tt), s.
  - unfold sweep. simpl. rewrite bind_run.
    destruct (check_reminder_spec env sg_now chat_id rem s) as (r & s1 & -> & _).
    destruct r as [[]|e]; [apply IH | by eexists _, _].
Qed.

(** The sweep runs the loop body on the reminders in turn, up to the first
    one that raises. *)
Lemma sweep_split env sg_now before chat_id rem after s :
  sweep env sg_now (before ++ (chat_id, rem) :: after) s
  = match sweep env sg_now before s with
    | Some (Returned _, s1) =>
      match check_reminder env (strftime_HM sg_now)
              (weekday_index (lt_weekday sg_now)) chat_id rem s1 with
      | Some (Returned _, s2) => sweep env sg_now after s2
      | Some (Raised e, s2) => Some (Raised e, s2)
      | None => None
      end
    | Some (Raised e, s1) => Some (Raised e, s1)
    | None => None
    end.
Proof.
  unfold sweep. rewrite for_each_raising_app.
  destruct (for_each_raising _ before s) as [[[[]|e] s1]|]; [|done..].
  cbn [for_each_raising fst snd]. rewrite bind_run.
  by destruct (check_reminder _ _ _ _ _ s1) as [[[[]|e] s2]|].
Qed.

(** C5, as amended.  In the sweep of a tick at local time [sg_now], the loop
    body is run on the stored reminders in turn.  Either the sweep has ended
    before it reaches the reminder, because the rendering or the sending of
    the message of an earlier reminder raised; or the loop body is run on
    the reminder, and then its arrival query is invoked iff its time string
    equals the tick's [HH:MM] and it is not a "weekdays" reminder on a
    Saturday or Sunday, and it is acted upon (the query is invoked, then a
    message is sent to its subscriber) iff this holds and neither the
    rendering nor the sending of its message raises.  A reminder whose query
    is not invoked leaves the state as it was.  So the query of a "weekdays"
    reminder for 08:00 is invoked at 08:00 exactly on Monday to Friday, and
    never at 08:01, at 07:59, or on a Saturday or Sunday.  An exception of
    the loop body ends the tick. *)
Theorem reminder_fires_iff_due env sg_now s before chat_id rem after :
  all_reminders s = before ++ (chat_id, rem) :: after →
  ∃ r1 s1,
    sweep env sg_now before s = Some (r1, s1)
    ∧ match r1 with
      | Raised e => check_reminders env sg_now s = Some (Raised e, s1)
      | Returned _ =>
        ∃ r2 s2,
          check_reminder env (strftime_HM sg_now)
            (weekday_index (lt_weekday sg_now)) chat_id rem s1 = Some (r2, s2)
          ∧ (arrival_queried rem s1 s2
             ↔ rem_time rem = strftime_HM sg_now
               ∧ ¬ (rem_days rem = py "weekdays"
                    ∧ (lt_weekday sg_now = Saturday ∨ lt_weekday sg_now = Sunday)))
          ∧ (acted_upon chat_id rem s1 s2
             ↔ (rem_time rem = strftime_HM sg_now
                ∧ ¬ (rem_days rem = py "weekdays"
                     ∧ (lt_weekday sg_now = Saturday
                        ∨ lt_weekday sg_now = Sunday)))
               ∧ r2 = Returned tt)
          ∧ (¬ arrival_queried rem s1 s2 → r2 = Returned tt ∧ s2 = s1)
          ∧ match r2 with
            | Raised e => check_reminders env sg_now s = Some (Raised e, s2)
            | Returned _ =>
              ∃ r3 s', sweep env sg_now after s2 = Some (r3, s')
                       ∧ check_reminders env sg_now s = Some (r3, s')
            end
          ∧ (rem_days rem = py "weekdays" → rem_time rem = py "08:00" →
             (lt_hour sg_now = 8%nat → lt_minute sg_now = 0%nat →
              (arrival_queried rem s1 s2
               ↔ lt_weekday sg_now ≠ Saturday ∧ lt_weekday sg_now ≠ Sunday)
              ∧ (acted_upon chat_id rem s1 s2
                 ↔ (lt_weekday sg_now ≠ Saturday ∧ lt_weekday sg_now ≠ Sunday)
                   ∧ r2 = Returned tt))
             ∧ (lt_hour sg_now = 8%nat → lt_minute sg_now = 1%nat →
                ¬ arrival_queried rem s1 s2 ∧ ¬ acted_upon chat_id rem s1 s2)
             ∧ (lt_hour sg_now = 7%nat → lt_minute sg_now = 59%nat →
                ¬ arrival_queried rem s1 s2 ∧ ¬ acted_upon chat_id rem s1 s2)
             ∧ (lt_weekday sg_now = Saturday ∨ lt_weekday sg_now = Sunday →
                ¬ arrival_queried rem s1 s2 ∧ ¬ acted_upon chat_id rem s1 s2))
      end.
Proof.
  intros Hall.
  pose proof (sweep_split env sg_now before chat_id rem after s) as Hsplit.
  rewrite check_reminders_sweep, Hall.
  destruct (sweep_total env sg_now before s) as (r1 & s1 & Hbefore).
  rewrite Hbefore in Hsplit. exists r1, s1. split; [done|].
  destruct r1 as [[]|e]; [|done].
  destruct (check_reminder_spec env sg_now chat_id rem s1)
    as (r2 & s2 & Hbody & _ & Hquery & Hact & Hskip).
  rewrite Hbody in Hsplit. exists r2, s2. unfold due in Hquery, Hact, Hskip.
  split; [done|]. split; [exact Hquery|]. split; [exact Hact|].
  split; [intros Hno; apply Hskip; intros Hd; by apply Hno, Hquery|].
  split.
  { destruct r2 as [[]|e]; [|done].
    destruct (sweep_total env sg_now after s2) as (r3 & s' & Hafter).
    exists r3, s'. by rewrite Hsplit. }
  intros Hdays Htime. destruct sg_now as [h m d]. simpl in *.
  assert (Hnot : ∀ P : Prop, ¬ P → (arrival_queried rem s1 s2 → P) →
                 (acted_upon chat_id rem s1 s2 → P) →
                 ¬ arrival_queried rem s1 s2 ∧ ¬ acted_upon chat_id rem s1 s2)
    by (intros P HP Hq Ha; split; intros ?; auto).
  split; [|split; [|split]].
  - intros -> ->. split; split.
    + intros Hq. apply Hquery in Hq as [_ Hno]. split; intros Hd; apply Hno; auto.
    + intros [Hsat Hsun]. apply Hquery. split; [by rewrite Htime|].
      intros [_ [?|?]]; done.
    + intros Ha. apply Hact in Ha as [[_ Hno] Hr]. split; [|done].
      split; intros Hd; apply Hno; auto.
    + intros [[Hsat Hsun] Hr]. apply Hact. split; [|done].
      split; [by rewrite Htime|]. intros [_ [?|?]]; done.
  - intros -> ->.
    apply (Hnot (py "08:00" = strftime_HM (mkLocal 8 1 d))); [by vm_compute| |].
    + intros Hq. apply Hquery in Hq as [Ht _]. by rewrite <- Htime.
    + intros Ha. apply Hact in Ha as [[Ht _] _]. by rewrite <- Htime.
  - intros -> ->.
    apply (Hnot (py "08:00" = strftime_HM (mkLocal 7 59 d))); [by vm_compute| |].
    + intros Hq. apply Hquery in Hq as [Ht _]. by rewrite <- Htime.
    + intros Ha. apply Hact in Ha as [[Ht _] _]. by rewrite <- Htime.
  - intros Hwe.
    apply (Hnot (¬ (rem_days rem = py "weekdays" ∧ (d = Saturday ∨ d = Sunday))));
      [by intros Hno; apply Hno| |].
    + intros Hq. by apply Hquery in Hq as [_ Hno].
    + intros Ha. by apply Hact in Ha as [[_ Hno] _].
Qed.

(** C6, as amended.  Let the sweep reach a due reminder.
    [get_bus_arrival] returns [None] exactly when the request failed, the
    status is not 200, the body does not decode, or the answer lists no
    service with the bus number.  In each of these cases [send_message] is
    called with the notice "Could not fetch arrival for Bus <number>".
    Unless that call raises, the notice is sent, the loop body returns and
    the sweep goes on: every reminder after it has the loop body run on it,
    and its arrival query invoked iff it is due, up to the first reminder of
    which the rendering or the sending raises.  When the sending of the
    notice raises, the tick ends with that exception. *)
Theorem arrival_failure_keeps_sweep env sg_now s before chat_id rem after s1 :
  all_reminders s = before ++ (chat_id, rem) :: after →
  due sg_now rem →
  sweep env sg_now before s = Some (Returned tt, s1) →
  ((∃ s1', get_bus_arrival env (rem_bus_stop rem) (rem_bus_number rem) s1
           = Some (None, s1'))
   ↔ no_service_data (rem_bus_number rem) (http_arrival env (requests s1)))
  ∧ (no_service_data (rem_bus_number rem) (http_arrival env (requests s1)) →
     ∃ s2,
       check_reminder env (strftime_HM sg_now)
         (weekday_index (lt_weekday sg_now)) chat_id rem s1
       = Some (if send_raises env (sends s1) then Raised TelegramError
               else Returned tt, s2)
       ∧ log s2
         = log s1 ++ EvGetArrival (rem_bus_stop rem)
             :: (if send_raises env (sends s1) then []
                 else [EvSend chat_id (notice_text (rem_bus_number rem)) false])
       ∧ if send_raises env (sends s1)
         then check_reminders env sg_now s = Some (Raised TelegramError, s2)
         else
           ∃ r3 s',
             sweep env sg_now after s2 = Some (r3, s')
             ∧ check_reminders env sg_now s = Some (r3, s')
             ∧ ∀ i chat_id' rem',
                 after !! i = Some (chat_id', rem') →
                 ∃ r t1,
                   sweep env sg_now (take i after) s2 = Some (r, t1)
                   ∧ match r with
                     | Raised e => r3 = Raised e ∧ s' = t1
                     | Returned _ =>
                       ∃ r' t2,
                         check_reminder env (strftime_HM sg_now)
                           (weekday_index (lt_weekday sg_now)) chat_id' rem' t1
                         = Some (r', t2)
                         ∧ (arrival_queried rem' t1 t2 ↔ due sg_now rem')
                         ∧ (acted_upon chat_id' rem' t1 t2
                            ↔ due sg_now rem' ∧ r' = Returned tt)
                     end).
Proof.
  intros Hall Hdue Hbefore.
  pose proof (sweep_split env sg_now before chat_id rem after s) as Hsplit.
  rewrite Hbefore in Hsplit. rewrite check_reminders_sweep, Hall. split.
  - destruct (get_bus_arrival_spec env (rem_bus_stop rem) (rem_bus_number rem) s1)
      as (service & Hget & Hnone & _).
    rewrite Hget. split.
    + intros (s1' & [= -> _]). by apply Hnone.
    + intros Hno. apply Hnone in Hno as ->. by eexists.
  - intros Hno.
    destruct (check_reminder_due env sg_now chat_id rem s1 Hdue)
      as (r & s2 & sent & Hbody & _ & _ & Hlog & _ & Hnotice & _).
    destruct (Hnotice Hno) as [-> ->]. rewrite Hbody in Hsplit.
    exists s2. split; [done|]. split; [done|].
    destruct (send_raises env (sends s1)); [done|].
    destruct (sweep_total env sg_now after s2) as (r3 & s' & Hafter).
    exists r3, s'. split; [done|]. split; [by rewrite Hsplit|].
    intros i chat_id' rem' Hi.
    pose proof (sweep_split env sg_now (take i after) chat_id' rem'
                  (drop (S i) after) s2) as Hsplit'.
    rewrite <- (take_drop_middle after i (chat_id', rem') Hi) in Hafter.
    rewrite Hafter in Hsplit'.
    destruct (sweep_total env sg_now (take i after) s2) as (r & t1 & Htake).
    rewrite Htake in Hsplit'. exists r, t1. split; [done|].
    destruct r as [[]|e]; [|by injection Hsplit' as -> ->].
    destruct (check_reminder_spec env sg_now chat_id' rem' t1)
      as (r' & t2 & Hbody' & _ & Hq & Ha & _).
    by exists r', t2.
Qed.

(** C8.  Let the rendering reach the primary bus: [NextBus] is an object
    or missing, and the minutes to arrival [m] of its timestamp are defined.
    When [NextBus2] is an object or missing as well, the rendering returns,
    and the message ends in the text of one band: the very-soon band when
    [m <= 2], the shortly band when [2 < m <= 5], and the neutral band
    otherwise.  (A [NextBus2] that is not an object raises: no message is
    rendered.) *)
Theorem format_arrival_message_band env service bus_number s arrival m s1 :
  get_EstimatedArrival (service ≫= svc_NextBus) = Returned arrival →
  minutes_to_arrival env arrival s = Some (Some m, s1) →
  match get_EstimatedArrival (service ≫= svc_NextBus2) with
  | Raised e =>
    format_arrival_message env service bus_number s = Some (Raised e, s1)
  | Returned arrival2 =>
    ∃ next2 s' band,
      minutes_to_arrival env arrival2 s1 = Some (next2, s')
      ∧ format_arrival_message env service bus_number s
        = Some (Returned (arrival_text bus_number m next2 band), s')
      ∧ (m ≤ 2 → band = VerySoon)
      ∧ (2 < m ≤ 5 → band = Shortly)
      ∧ (5 < m → band = Neutral)
      ∧ (m = 2 → band = VerySoon) ∧ (m = 5 → band = Shortly)
      ∧ (m = 6 → band = Neutral)
  end.
Proof.
  intros Hfirst Hm. unfold format_arrival_message.
  rewrite Hfirst, bind_run, Hm.
  destruct (get_EstimatedArrival (service ≫= svc_NextBus2)) as [arrival2|e];
    [|done].
  destruct (minutes_to_arrival_total env arrival2 s1) as (next2 & s' & Hm2 & _).
  rewrite bind_run, Hm2. unfold arrival_text, ret.
  destruct (m <=? 2) eqn:H2; [|destruct (m <=? 5) eqn:H5].
  - exists next2, s', VerySoon. repeat split; try done; lia.
  - exists next2, s', Shortly. repeat split; try done; lia.
  - exists next2, s', Neutral. repeat split; try done; lia.
Qed.
End SchedulerProperties.

(** ** Reminder persistence *)

(** C9.  Deleting by an id that is absent ([None]), empty, or not the key
    of a stored record returns [False] and leaves the table as it was. *)
Theorem delete_missing_reminder (fails : bool) (reminder_id : option str)
    (table : gmap str DynamoDB.Item) :
  (∀ id, reminder_id = Some id → id ≠ [] → table !! id = None) →
  DynamoDB.delete_reminder fails reminder_id table = (false, table).
Proof.
  intros Hmissing. unfold DynamoDB.delete_reminder, DynamoDB.delete_item.
  destruct reminder_id as [[|c id]|]; [done| |done].
  destruct fails; [done|].
  rewrite (Hmissing (c :: id)) by done.
  by rewrite delete_id by (by apply Hmissing).
Qed.

(** * Worked examples *)

Lemma ascii_digit_not_space c : ascii_isdigit c = true → ascii_isspace c = false.
Proof.
  unfold ascii_isdigit, ascii_isspace.
  intros [Hlo Hhi]%andb_true_iff. apply N.leb_le in Hlo, Hhi.
  apply orb_false_iff. split; apply andb_false_iff.
  - right. apply N.leb_gt. lia.
  - right. apply N.leb_gt. lia.
Qed.

(** The end-to-end example of the specification: with stop 28009 in the
    directory and on the cached route of 970, the code 28009 is confirmed
    for bus 970. *)
Lemma validate_code_iff_on_route_witness :
  @validate_bus_stop_input ascii_tables demo_env 0 (py "970") (py "28009") demo_state
  = Some (VCodeName (py "28009") (py "Jurong East Int"), demo_state).
Proof.
  destruct (@validate_code_iff_on_route ascii_tables demo_env 0 (py "970")
              (py "28009") demo_state ascii_digit_not_space)
    as [_ Hfound]; [reflexivity | reflexivity |].
  destruct (Hfound stop_28009 route_970 demo_state) as (result & Hrun & _ & Hres);
    [reflexivity | vm_compute; reflexivity |].
  rewrite Hrun, Hres; [reflexivity|].
  apply (bool_decide_unpack _). vm_compute. exact I.
Defined.

Lemma route_cache_fetches_once_witness :
  run_calls demo_env 5 demo_calls (initial [] []) = Some (demo_reports, demo_final)
  ∧ demo_reports !! 0%nat = Some (mkReport (py "970") EndOfData route_970 1)
  ∧ demo_reports !! 2%nat = Some (mkReport (py "970") CacheHit route_970 0)
  ∧ (length (filter (λ r, call_service r = py "970"
                         ∧ (call_path r = EndOfData
                            ∨ call_path r = UpstreamFailure))
                    demo_reports) ≤ 1)%nat.
Proof.
  assert (Hrun : run_calls demo_env 5 demo_calls (initial [] [])
                 = Some (demo_reports, demo_final)) by (vm_compute; reflexivity).
  destruct (route_cache_fetches_once demo_env 5 demo_calls (initial [] [])
              demo_reports demo_final Hrun) as [Hhit Honce].
  assert (H0 : demo_reports !! 0%nat
               = Some (mkReport (py "970") EndOfData route_970 1))
    by (vm_compute; reflexivity).
  destruct (demo_reports !! 2%nat) as [later|] eqn:H2; [|by vm_compute in H2].
  assert (Hsvc : call_service later = py "970")
    by (vm_compute in H2; by injection H2 as <-).
  destruct (Hhit 0%nat 2%nat _ later ltac:(lia) H0 H2 Hsvc eq_refl)
    as (Hpath & Hreq & Hres).
  destruct later as [svc path res req]; simpl in *; subst.
  repeat split; [done.. | apply Honce].
Defined.

(** C3 as stated fails: the first call for 970 is aborted by a request error
    on its first request, nothing is cached, and the second call for 970
    paginates again.  So two pagination sequences are sent for one service
    number. *)
Lemma route_cache_paginates_again :
  ∃ reports s',
    run_calls (scripted [RequestError; Response 200 (Json (Some route_970))] [] 0)
              5 [py "970"; py "970"] (initial [] [])
    = Some (reports, s')
    ∧ call_path <$> reports = [Aborted; EndOfData]
    ∧ call_requests <$> reports = [1; 1]%nat
    ∧ length (filter (λ r, call_service r = py "970" ∧ call_requests r ≠ 0%nat)
                     reports) = 2%nat.
Proof.
  eexists _, _. split; [vm_compute; reflexivity|].
  split; [reflexivity|]. split; [reflexivity|]. vm_compute. reflexivity.
Qed.



(** A timestamp three minutes after the clock reading gives 3, and one
    seven and a half minutes after it gives 7. *)
Lemma minutes_to_arrival_spec_witness :
  (∃ s', @minutes_to_arrival IsoFragment.parser demo_env
           (Some (py "2024-01-01T00:03:00Z")) demo_state = Some (Some 3, s'))
  ∧ (∃ s', @minutes_to_arrival IsoFragment.parser demo_env
             (Some (py "2024-01-01T00:07:30Z")) demo_state = Some (Some 7, s')).
Proof.
  split.
  - destruct (@minutes_to_arrival_spec IsoFragment.parser demo_env
                (Some (py "2024-01-01T00:03:00Z")) demo_state)
      as (result & s' & Hrun & _ & _ & _ & Haware & _).
    destruct (Haware (py "2024-01-01T00:03:00Z") (demo_now + 3 * us_per_minute))
      as (_ & _ & Hthree); [reflexivity | done | vm_compute; reflexivity |].
    exists s'. rewrite Hrun, Hthree; reflexivity.
  - destruct (@minutes_to_arrival_spec IsoFragment.parser demo_env
                (Some (py "2024-01-01T00:07:30Z")) demo_state)
      as (result & s' & Hrun & _ & _ & _ & Haware & _).
    destruct (Haware (py "2024-01-01T00:07:30Z") (demo_now + 450000000))
      as (Hfloor & _); [reflexivity | done | vm_compute; reflexivity |].
    exists s'. rewrite Hrun, Hfloor; [reflexivity|].
    vm_compute. reflexivity.
Defined.

(** C4 as stated fails far in the future.  At one microsecond past
    2024-01-01T00:00:00Z the timestamp 2600-01-01T00:00:00Z is one
    microsecond short of 302947200 minutes away: the floor is 302947199, and
    the code returns 302947200, because [total_seconds()] rounds the
    18176831999.999999 seconds to the float 18176832000.0. *)
Lemma minutes_to_arrival_far_future :
  ∃ arr s',
    @fromisoformat IsoFragment.parser (py "2600-01-01T00:00:00+00:00") = Aware arr
    ∧ @minutes_to_arrival IsoFragment.parser (scripted [] [] (demo_now + 1))
        (Some (py "2600-01-01T00:00:00Z")) (initial [] [])
      = Some (Some 302947200, s')
    ∧ arr - (demo_now + 1) = 18176831999999999
    ∧ Z.max 0 ((arr - (demo_now + 1)) / us_per_minute) = 302947199
    ∧ total_seconds 18176831999999999 = mkFloat 4764947447808000 (-18)
    ∧ 4764947447808000 = 18176832000 * 2 ^ 18.
Proof.
  eexists _, _. split; [vm_compute; reflexivity|].
  split; [vm_compute; reflexivity|].
  split; [vm_compute; reflexivity|].
  split; [vm_compute; reflexivity|].
  split; vm_compute; reflexivity.
Qed.

(** [div_rounded] gives what the standard library's specification of the
    binary64 division gives: on the two divisions of the far timestamp, on
    those of an instant in the past, and on 1/3. *)
Example div_rounded_is_binary64_div :
  spec_of_float (total_seconds 18176831999999999)
  = binary64_div (spec_of_Z 18176831999999999) (spec_of_Z 1000000)
  ∧ spec_of_float (float_div (total_seconds 18176831999999999) 60)
    = binary64_div (spec_of_float (total_seconds 18176831999999999)) (spec_of_Z 60)
  ∧ spec_of_float (total_seconds (-90000001))
    = binary64_div (spec_of_Z (-90000001)) (spec_of_Z 1000000)
  ∧ spec_of_float (float_div (total_seconds (-90000001)) 60)
    = binary64_div (spec_of_float (total_seconds (-90000001))) (spec_of_Z 60)
  ∧ spec_of_float (div_rounded 1 3) = binary64_div (spec_of_Z 1) (spec_of_Z 3).
Proof. repeat split; vm_compute; reflexivity. Qed.

(** Two minutes to the primary bus: the very-soon band. *)
Lemma format_arrival_message_band_witness :
  ∃ next2 s',
    @format_arrival_message IsoFragment.parser demo_env (Some service_15)
      (py "15") demo_state
    = Some (Returned (arrival_text (py "15") 2 next2 VerySoon), s').
Proof.
  pose proof (@format_arrival_message_band IsoFragment.parser demo_env
                (Some service_15) (py "15") demo_state
                (Some (py "2024-01-01T08:02:00+08:00")) 2
                (with_clock_read demo_state) eq_refl) as Hband.
  destruct Hband as (next2 & s' & band & _ & Hmsg & Hvery & _);
    [vm_compute; reflexivity|].
  exists next2, s'. rewrite Hmsg, Hvery; [reflexivity | lia].
Defined.

(** Monday 08:00: the arrival query of the "weekdays" reminder for 08:00 is
    invoked, and the reminder is acted upon. *)
Lemma reminder_fires_iff_due_witness :
  ∃ s2,
    @check_reminder IsoFragment.parser demo_env (py "08:00") 0 1 reminder_970
      demo_state
    = Some (Returned tt, s2)
    ∧ arrival_queried reminder_970 demo_state s2
    ∧ acted_upon 1 reminder_970 demo_state s2.
Proof.
  destruct (@reminder_fires_iff_due IsoFragment.parser demo_env
              (mkLocal 8 0 Monday) demo_state [] 1 reminder_970 [(2, reminder_15)])
    as (r1 & s1 & Hbefore & Hrest); [reflexivity|].
  change (Some (Returned tt, demo_state) = Some (r1, s1)) in Hbefore.
  injection Hbefore as <- <-.
  destruct Hrest as (r2 & s2 & Hbody & Hquery & Hact & _).
  assert (Hr2 : Returned tt = r2).
  { pose proof Hbody as Hrun. vm_compute in Hrun. by injection Hrun as Hr _. }
  subst r2.
  assert (Hdue : rem_time reminder_970 = strftime_HM (mkLocal 8 0 Monday)
                 ∧ ¬ (rem_days reminder_970 = py "weekdays"
                      ∧ (lt_weekday (mkLocal 8 0 Monday) = Saturday
                         ∨ lt_weekday (mkLocal 8 0 Monday) = Sunday))).
  { split; [reflexivity|]. intros [_ [Hd|Hd]]; discriminate Hd. }
  exists s2. split; [exact Hbody|]. split; [by apply Hquery | by apply Hact].
Defined.

(** C5 as stated fails.  Monday 08:00, both reminders are due.  (a) The
    arrival of bus 970 is fetched and rendered, and the sending of the
    message raises: no message is sent for the first reminder, and the
    second is not evaluated at all.  (b) The answer for the first lists
    service 970 with a [null] under ["NextBus"]: the rendering raises, with
    the same outcome. *)
Lemma reminder_due_not_acted_upon :
  all_reminders demo_state = [(1, reminder_970); (2, reminder_15)]
  ∧ due (mkLocal 8 0 Monday) reminder_970
  ∧ due (mkLocal 8 0 Monday) reminder_15
  ∧ (∃ s',
       @check_reminders IsoFragment.parser
         (scripted_sends [Response 200 (Json (Some [service_970]));
                          Response 200 (Json (Some [service_15]))] demo_now [true])
         (mkLocal 8 0 Monday) demo_state
       = Some (Raised TelegramError, s')
       ∧ log s' = [EvGetArrival (py "28009")]
       ∧ ¬ acted_upon 1 reminder_970 demo_state s'
       ∧ ¬ arrival_queried reminder_15 demo_state s')
  ∧ (∃ s',
       @check_reminders IsoFragment.parser
         (scripted_sends [Response 200 (Json (Some [service_970_null]));
                          Response 200 (Json (Some [service_15]))] demo_now [])
         (mkLocal 8 0 Monday) demo_state
       = Some (Raised AttributeError, s')
       ∧ log s' = [EvGetArrival (py "28009")]
       ∧ ¬ acted_upon 1 reminder_970 demo_state s'
       ∧ ¬ arrival_queried reminder_15 demo_state s').
Proof.
  split; [reflexivity|].
  split; [split; [reflexivity|]; intros [_ [Hd|Hd]]; discriminate Hd|].
  split; [split; [reflexivity|]; intros [_ [Hd|Hd]]; discriminate Hd|].
  split; eexists; (split; [vm_compute; reflexivity|]);
    (split; [reflexivity|]); split.
  - intros (text & markdown & Hlog). discriminate Hlog.
  - intros (_ & rest & Hlog). discriminate Hlog.
  - intros (text & markdown & Hlog). discriminate Hlog.
  - intros (_ & rest & Hlog). discriminate Hlog.
Qed.

(** The arrival request for the first reminder times out: the notice is
    sent for it, and the loop body is run on the second reminder, whose
    arrival query is invoked. *)
Lemma arrival_failure_keeps_sweep_witness :
  ∃ s2,
    @check_reminder IsoFragment.parser demo_env (py "08:00") 0 1 reminder_970
      demo_state
    = Some (Returned tt, s2)
    ∧ log s2 = [EvGetArrival (py "28009");
                EvSend 1 (notice_text (py "970")) false]
    ∧ ∃ r' t2,
        @check_reminder IsoFragment.parser demo_env (py "08:00") 0 2 reminder_15 s2
        = Some (r', t2)
        ∧ arrival_queried reminder_15 s2 t2.
Proof.
  assert (Hdue1 : due (mkLocal 8 0 Monday) reminder_970).
  { split; [reflexivity|]. intros [_ [Hd|Hd]]; discriminate Hd. }
  assert (Hdue2 : due (mkLocal 8 0 Monday) reminder_15).
  { split; [reflexivity|]. intros [_ [Hd|Hd]]; discriminate Hd. }
  destruct (@arrival_failure_keeps_sweep IsoFragment.parser demo_env
              (mkLocal 8 0 Monday) demo_state [] 1 reminder_970 [(2, reminder_15)]
              demo_state eq_refl Hdue1 eq_refl)
    as [_ Hnotice].
  destruct (Hnotice I) as (s2 & Hbody & Hlog & r3 & s' & _ & _ & Hrest).
  destruct (Hrest 0%nat 2 reminder_15 eq_refl) as (r & t1 & Htake & Hnext).
  change (Some (Returned tt, s2) = Some (r, t1)) in Htake.
  injection Htake as <- <-.
  destruct Hnext as (r' & t2 & Hbody' & Hquery & _).
  exists s2. split; [exact Hbody|]. split; [exact Hlog|].
  exists r', t2. split; [exact Hbody'|]. by apply Hquery.
Defined.

(** C6 as stated fails.  Monday 08:00, both reminders are due.  The
    arrival request for the first times out, and the sending of the notice
    raises: the tick ends with that exception, and the second reminder is
    not evaluated. *)
Lemma notice_failure_ends_sweep :
  ∃ s',
    @check_reminders IsoFragment.parser
      (scripted_sends [Timeout; Response 200 (Json (Some [service_15]))]
                      demo_now [true])
      (mkLocal 8 0 Monday) demo_state
    = Some (Raised TelegramError, s')
    ∧ log s' = [EvGetArrival (py "28009")]
    ∧ requests s' = 1%nat
    ∧ all_reminders demo_state = [(1, reminder_970); (2, reminder_15)]
    ∧ due (mkLocal 8 0 Monday) reminder_970
    ∧ due (mkLocal 8 0 Monday) reminder_15.
Proof.
  eexists. split; [vm_compute; reflexivity|]. split; [reflexivity|].
  split; [reflexivity|]. split; [reflexivity|].
  split; (split; [reflexivity|]); intros [_ [Hd|Hd]]; discriminate Hd.
Qed.

Lemma delete_missing_reminder_witness :
  DynamoDB.delete_reminder false (Some (py "r-2")) demo_table = (false, demo_table)
  ∧ DynamoDB.delete_reminder false (Some []) demo_table = (false, demo_table).
Proof.
  split; apply delete_missing_reminder.
  - intros id [= <-] _. vm_compute. reflexivity.
  - intros id [= <-] Hne. by destruct Hne.
Defined.

(** Against which: the stored id is deleted and reported. *)
Example delete_stored_reminder :
  DynamoDB.delete_reminder false (Some (py "r-1")) demo_table = (true, ∅).
Proof. vm_compute. reflexivity. Qed.

(** A timestamp 90 seconds before the clock reading gives 0. *)
Example minutes_90_seconds_ago :
  fst <$> @minutes_to_arrival IsoFragment.parser demo_env
            (Some (py "2023-12-31T23:58:30Z")) demo_state
  = Some (Some 0).
Proof. vm_compute. reflexivity. Qed.

(** The other end-to-end example: code 99999 is not in the directory. *)
Example validate_unknown_code :
  @validate_bus_stop_input ascii_tables demo_env 0 (py "970") (py "99999") demo_state
  = Some (VNone, demo_state).
Proof. reflexivity. Qed.

(** * Further properties *)

(** ** Route cache *)

Lemma own_rows_Forall service_no rows :
  Forall (λ r, default [] (row_ServiceNo r) = service_no) (own_rows service_no rows).
Proof.
  apply Forall_forall. intros r Hr. unfold own_rows in Hr.
  by apply list_elem_of_filter in Hr as [Hr _].
Qed.

Lemma paginate_own_rows env fuel service_no all_routes skip s path routes s' :
  Forall (λ r, default [] (row_ServiceNo r) = service_no) all_routes →
  paginate env fuel service_no all_routes skip s = Some ((path, routes), s') →
  Forall (λ r, default [] (row_ServiceNo r) = service_no) routes.
Proof.
  revert all_routes skip s. induction fuel as [|fuel IH]; intros all_routes skip s Hall.
  - discriminate.
  - cbn [paginate]. rewrite bind_run.
    destruct (request_with_retries_total env service_no skip (seq 0 MAX_RETRIES) s)
      as (a & s1 & -> & _).
    destruct a as [st body| |]; try (intros [= <- <- <-]; by constructor).
    case_bool_decide; [by intros [= <- <- <-]|].
    destruct body as [|data]; [by intros [= <- <- <-]|].
    destruct (default [] data) as [|r0 rs] eqn:Hdata; [by intros [= <- <- <-]|].
    assert (Hnew : Forall (λ r, default [] (row_ServiceNo r) = service_no)
                     (all_routes ++ own_rows service_no (r0 :: rs))).
    { apply Forall_app. split; [done | apply own_rows_Forall]. }
    case_bool_decide; [by intros [= <- <- <-]|].
    by apply IH.
Qed.

(** X1.  [get_bus_routes] keeps the cache filtered: if every cached route
    holds only rows of its own service number, then so does the list the
    call returns, and so does every cached route after the call. *)
Theorem get_bus_routes_rows_of_service env fuel service_no s routes s' :
  cache_well_filtered s →
  get_bus_routes env fuel service_no s = Some (routes, s') →
  Forall (λ r, default [] (row_ServiceNo r) = service_no) routes
  ∧ cache_well_filtered s'.
Proof.
  intros Hinv. unfold get_bus_routes. rewrite bind_run.
  destruct (get_bus_routes_path env fuel service_no s) as [[[p r] s1]|] eqn:Hcall;
    [|discriminate].
  intros [= <- <-]. simpl.
  assert (Hrows : Forall (λ r, default [] (row_ServiceNo r) = service_no) r).
  { unfold get_bus_routes_path in Hcall.
    destruct (bus_route_cache s !! service_no) as [cached|] eqn:Hc.
    - injection Hcall as <- <- <-. by apply (Hinv service_no).
    - rewrite bind_run in Hcall.
      destruct (paginate env fuel service_no [] 0 s) as [[[p' r'] s2]|] eqn:Hp;
        [|discriminate].
      apply paginate_own_rows in Hp; [|by constructor].
      by destruct p'; run; injection Hcall as <- <- <-. }
  split; [done|].
  apply get_bus_routes_path_cache in Hcall as (Hcache & _).
  intros k rows Hk.
  destruct p.
  - destruct Hcache as [-> _]. by apply (Hinv k).
  - destruct Hcache as [Heq _]. rewrite Heq in Hk.
    destruct (decide (service_no = k)) as [<-|Hne].
    + rewrite lookup_insert_eq in Hk. by injection Hk as <-.
    + rewrite lookup_insert_ne in Hk by done. by apply (Hinv k).
  - destruct Hcache as [Heq _]. rewrite Heq in Hk.
    destruct (decide (service_no = k)) as [<-|Hne].
    + rewrite lookup_insert_eq in Hk. by injection Hk as <-.
    + rewrite lookup_insert_ne in Hk by done. by apply (Hinv k).
  - destruct Hcache as (Heq & _). rewrite Heq in Hk. by apply (Hinv k).
Qed.

Lemma get_bus_routes_rows_of_service_witness :
  get_bus_routes (scripted [Response 200 (Json (Some mixed_page))] [] 0) 1
    (py "970") (initial [] [])
  = Some ([mkRow (Some (py "970")) (Some (py "28009"))],
          with_cache {[ py "970" := [mkRow (Some (py "970")) (Some (py "28009"))] ]}
            (with_request (EvGetRoutes (py "970") 0) (initial [] [])))
  ∧ Forall (λ r, default [] (row_ServiceNo r) = py "970")
           [mkRow (Some (py "970")) (Some (py "28009"))].
Proof.
  assert (Hrun : get_bus_routes (scripted [Response 200 (Json (Some mixed_page))] [] 0)
                   1 (py "970") (initial [] [])
                 = Some ([mkRow (Some (py "970")) (Some (py "28009"))],
                         with_cache {[ py "970" :=
                                        [mkRow (Some (py "970")) (Some (py "28009"))] ]}
                           (with_request (EvGetRoutes (py "970") 0) (initial [] []))))
    by (vm_compute; reflexivity).
  split; [exact Hrun|].
  refine (proj1 (get_bus_routes_rows_of_service _ _ _ _ _ _ _ Hrun)).
  intros k rows Hk. simpl in Hk. by rewrite lookup_empty in Hk.
Defined.

(** X2.  A timeout on the first attempt, or on the first two, is retried:
    when the next attempt is answered with a last page, the call returns the
    rows of the service on that page, caches them, and has sent one request
    per attempt. *)
Theorem get_bus_routes_recovers_from_timeouts env fuel service_no s timeouts rows :
  bus_route_cache s !! service_no = None →
  (timeouts < MAX_RETRIES)%nat →
  (∀ i, (i < timeouts)%nat → http_routes env (requests s + i) = Timeout) →
  http_routes env (requests s + timeouts) = Response 200 (Json (Some rows)) →
  (length rows < batch_size)%nat →
  ∃ s',
    get_bus_routes env (S fuel) service_no s = Some (own_rows service_no rows, s')
    ∧ bus_route_cache s'
      = <[service_no := own_rows service_no rows]> (bus_route_cache s)
    ∧ requests s' = (requests s + timeouts + 1)%nat.
Proof.
  intros Hc Hlt Htimeouts Hresp Hlen.
  unfold get_bus_routes, get_bus_routes_path. rewrite bind_run, Hc.
  assert (Hlen' : bool_decide (length rows < batch_size)%nat = true)
    by by apply bool_decide_eq_true.
  unfold MAX_RETRIES in Hlt.
  destruct timeouts as [|[|[|?]]]; [| | |lia].
  - rewrite Nat.add_0_r in Hresp. run. rewrite Hresp. simpl.
    destruct rows as [|r0 rows]; simpl.
    + eexists. split; [reflexivity|]. simpl. split; [done | lia].
    + simpl in Hlen'. rewrite Hlen'. simpl.
      eexists. split; [reflexivity|]. simpl. split; [done | lia].
  - pose proof (Htimeouts 0%nat ltac:(lia)) as H0. rewrite Nat.add_0_r in H0.
    replace (requests s + 1)%nat with (S (requests s)) in Hresp by lia.
    run. rewrite H0. simpl. rewrite Hresp. simpl.
    destruct rows as [|r0 rows]; simpl.
    + eexists. split; [reflexivity|]. simpl. split; [done | lia].
    + simpl in Hlen'. rewrite Hlen'. simpl.
      eexists. split; [reflexivity|]. simpl. split; [done | lia].
  - pose proof (Htimeouts 0%nat ltac:(lia)) as H0. rewrite Nat.add_0_r in H0.
    pose proof (Htimeouts 1%nat ltac:(lia)) as H1.
    replace (requests s + 1)%nat with (S (requests s)) in H1 by lia.
    replace (requests s + 2)%nat with (S (S (requests s))) in Hresp by lia.
    run. rewrite H0. simpl. rewrite H1. simpl. rewrite Hresp. simpl.
    destruct rows as [|r0 rows]; simpl.
    + eexists. split; [reflexivity|]. simpl. split; [done | lia].
    + simpl in Hlen'. rewrite Hlen'. simpl.
      eexists. split; [reflexivity|]. simpl. split; [done | lia].
Qed.

Lemma get_bus_routes_recovers_from_timeouts_witness :
  ∃ s',
    get_bus_routes
      (scripted [Timeout; Timeout; Response 200 (Json (Some mixed_page))] [] 0)
      1 (py "970") (initial [] [])
    = Some (own_rows (py "970") mixed_page, s')
    ∧ requests s' = 3%nat.
Proof.
  destruct (get_bus_routes_recovers_from_timeouts
              (scripted [Timeout; Timeout; Response 200 (Json (Some mixed_page))] [] 0)
              0 (py "970") (initial [] []) 2 mixed_page)
    as (s' & Hrun & _ & Hreq).
  - reflexivity.
  - unfold MAX_RETRIES. lia.
  - intros i Hi. destruct i as [|[|i]]; [reflexivity | reflexivity | lia].
  - reflexivity.
  - vm_compute. lia.
  - exists s'. split; [exact Hrun | exact Hreq].
Defined.

Lemma request_with_retries_answered env service_no skip s status_code body :
  http_routes env (requests s) = Response status_code body →
  request_with_retries env service_no skip (seq 0 MAX_RETRIES) s
  = Some (GotResponse status_code body, with_request (EvGetRoutes service_no skip) s).
Proof. intros Hnet. run. by rewrite Hnet. Qed.

Lemma paginate_last_page env fuel service_no all_routes skip s rows :
  http_routes env (requests s) = Response 200 (Json (Some rows)) →
  (length rows < batch_size)%nat →
  paginate env (S fuel) service_no all_routes skip s
  = Some ((EndOfData, all_routes ++ own_rows service_no rows),
          with_request (EvGetRoutes service_no skip) s).
Proof.
  intros Hnet Hlen. cbn [paginate]. rewrite bind_run.
  rewrite (request_with_retries_answered _ _ _ _ _ _ Hnet). cbv beta iota.
  change (bool_decide (200 ≠ 200)) with false. cbv iota.
  destruct rows as [|r0 rows]; cbn [from_option id].
  - unfold own_rows. by rewrite filter_nil, app_nil_r.
  - case_bool_decide; [done | lia].
Qed.

Lemma paginate_full_page env fuel service_no all_routes skip s rows :
  http_routes env (requests s) = Response 200 (Json (Some rows)) →
  (batch_size ≤ length rows)%nat →
  paginate env (S fuel) service_no all_routes skip s
  = paginate env fuel service_no (all_routes ++ own_rows service_no rows)
      (skip + batch_size) (with_request (EvGetRoutes service_no skip) s).
Proof.
  intros Hnet Hlen. cbn [paginate]. rewrite bind_run.
  rewrite (request_with_retries_answered _ _ _ _ _ _ Hnet). cbv beta iota.
  change (bool_decide (200 ≠ 200)) with false. cbv iota.
  destruct rows as [|r0 rows]; cbn [from_option id].
  - unfold batch_size in Hlen. simpl in Hlen. lia.
  - case_bool_decide; [lia | done].
Qed.

Lemma paginate_pages env service_no pages last :
  (length last < batch_size)%nat →
  ∀ fuel all_routes skip s,
    (∀ i page, pages !! i = Some page →
               http_routes env (requests s + i) = Response 200 (Json (Some page))
               ∧ (batch_size ≤ length page)%nat) →
    http_routes env (requests s + length pages) = Response 200 (Json (Some last)) →
    (length pages < fuel)%nat →
    ∃ s',
      paginate env fuel service_no all_routes skip s
      = Some ((EndOfData,
               all_routes ++ flat_map (own_rows service_no) (pages ++ [last])), s')
      ∧ same_globals s s'
      ∧ requests s' = (requests s + length pages + 1)%nat
      ∧ log s' = log s ++ imap (λ i _, EvGetRoutes service_no (skip + i * batch_size))
                               (pages ++ [last]).
Proof.
  intros Hlast. induction pages as [|page pages IH];
    intros fuel all_routes skip s Hpages Hend Hfuel.
  - destruct fuel as [|fuel]; [simpl in Hfuel; lia|].
    simpl in Hend. rewrite Nat.add_0_r in Hend.
    rewrite (paginate_last_page _ _ _ _ _ _ _ Hend Hlast).
    eexists. split; [cbn [flat_map app]; by rewrite (app_nil_r (own_rows _ _))|].
    split; [by repeat split|]. simpl. split; [lia|].
    by rewrite Nat.add_0_r.
  - destruct fuel as [|fuel]; [simpl in Hfuel; lia|].
    destruct (Hpages 0%nat page eq_refl) as [Hnet Hfull].
    rewrite Nat.add_0_r in Hnet.
    rewrite (paginate_full_page _ _ _ _ _ _ _ Hnet Hfull).
    destruct (IH fuel (all_routes ++ own_rows service_no page) (skip + batch_size)%nat
                (with_request (EvGetRoutes service_no skip) s))
      as (s' & Hrun & Hg & Hreq & Hlog).
    + intros i p Hi. simpl.
      replace (S (requests s + i)) with (requests s + S i)%nat by lia.
      by apply Hpages.
    + simpl. replace (S (requests s + length pages))
        with (requests s + length (page :: pages))%nat by (simpl; lia). done.
    + simpl in Hfuel. lia.
    + exists s'. split; [cbn [flat_map app]; by rewrite Hrun, <- app_assoc|].
      split; [unfold same_globals in *; by simpl in *|].
      split; [rewrite Hreq; simpl; lia|].
      rewrite Hlog. cbn [log with_request app imap]. rewrite <- app_assoc.
      cbn [app]. rewrite Nat.mul_0_l, Nat.add_0_r. do 2 f_equal.
      apply imap_ext. intros i x _. unfold compose. f_equal. lia.
Qed.

(** X3.  Pages are asked for at offsets 0, 500, 1000, ... and their rows
    are appended in order: when the upstream answers with full pages and then
    a last page, the call returns (and caches) the rows of the service of all
    these pages in order, and has sent exactly one request per page, the
    [i]-th with [$skip = 500 * i]. *)
Theorem get_bus_routes_pages env fuel service_no s pages last :
  bus_route_cache s !! service_no = None →
  (∀ i page, pages !! i = Some page →
             http_routes env (requests s + i) = Response 200 (Json (Some page))
             ∧ (batch_size ≤ length page)%nat) →
  http_routes env (requests s + length pages) = Response 200 (Json (Some last)) →
  (length last < batch_size)%nat →
  (length pages < fuel)%nat →
  ∃ s',
    get_bus_routes env fuel service_no s
    = Some (flat_map (own_rows service_no) (pages ++ [last]), s')
    ∧ bus_route_cache s' !! service_no
      = Some (flat_map (own_rows service_no) (pages ++ [last]))
    ∧ requests s' = (requests s + length pages + 1)%nat
    ∧ log s' = log s ++ imap (λ i _, EvGetRoutes service_no (i * batch_size))
                             (pages ++ [last]).
Proof.
  intros Hc Hpages Hend Hlast Hfuel.
  destruct (paginate_pages env service_no pages last Hlast fuel [] 0%nat s
              Hpages Hend Hfuel) as (s1 & Hrun & _ & Hreq & Hlog).
  unfold get_bus_routes, get_bus_routes_path. rewrite bind_run, Hc, bind_run, Hrun.
  run. eexists. split; [reflexivity|]. simpl.
  split; [apply lookup_insert_eq|]. split; [done|]. done.
Qed.

Lemma get_bus_routes_pages_witness :
  ∃ s',
    get_bus_routes
      (scripted [Response 200 (Json (Some full_page_970));
                 Response 200 (Json (Some mixed_page))] [] 0)
      2 (py "970") (initial [] [])
    = Some (flat_map (own_rows (py "970")) [full_page_970; mixed_page], s')
    ∧ log s' = [EvGetRoutes (py "970") 0; EvGetRoutes (py "970") 500].
Proof.
  destruct (get_bus_routes_pages
              (scripted [Response 200 (Json (Some full_page_970));
                         Response 200 (Json (Some mixed_page))] [] 0)
              2 (py "970") (initial [] []) [full_page_970] mixed_page)
    as (s' & Hrun & _ & _ & Hlog).
  - reflexivity.
  - intros i page Hi. destruct i as [|i]; [|done].
    injection Hi as <-. split; [reflexivity | vm_compute; lia].
  - reflexivity.
  - vm_compute. lia.
  - simpl. lia.
  - exists s'. split; [exact Hrun | exact Hlog].
Defined.

(** ** Arrival query *)

Lemma find_first {A} (f : A → bool) (l : list A) x :
  List.find f l = Some x →
  f x = true
  ∧ ∃ earlier later, l = earlier ++ x :: later ∧ ∀ y, y ∈ earlier → f y = false.
Proof.
  induction l as [|a l IH]; [done|]. simpl.
  destruct (f a) eqn:Ha.
  - intros [= <-]. split; [done|]. exists [], l. split; [done|].
    intros y Hy. by apply elem_of_nil in Hy.
  - intros Hfind. destruct (IH Hfind) as (Hx & earlier & later & -> & Hnone).
    split; [done|]. exists (a :: earlier), later. split; [done|].
    intros y [->|Hy]%elem_of_cons; [done | by apply Hnone].
Qed.

(** X4.  When [get_bus_arrival] returns a service, the call sent exactly
    one request (for the stop) and changed nothing else, the answer had
    status 200, and the service is the first one of the answer's list whose
    number is the bus number. *)
Theorem get_bus_arrival_found env stop bus_number s svc s' :
  get_bus_arrival env stop bus_number s = Some (Some svc, s') →
  svc_ServiceNo svc = Some bus_number
  ∧ s' = with_request (EvGetArrival stop) s
  ∧ ∃ earlier later,
      http_arrival env (requests s)
      = Response 200 (Json (Some (earlier ++ svc :: later)))
      ∧ ∀ other, other ∈ earlier → svc_ServiceNo other ≠ Some bus_number.
Proof.
  unfold get_bus_arrival, get_arrival_page. rewrite bind_run.
  destruct (http_arrival env (requests s)) as [| |st body]; try done.
  case_bool_decide as Hst; [done|].
  assert (st = 200) as -> by (by destruct (decide (st = 200)); [|exfalso; auto]).
  destruct body as [|data]; [done|].
  intros [= Hfind <-]. apply find_first in Hfind
    as (Hsvc & earlier & later & Hdata & Hnone).
  apply bool_decide_eq_true in Hsvc. split; [done|]. split; [done|].
  exists earlier, later. split.
  - destruct data as [services|]; simpl in Hdata; [by subst|].
    by destruct earlier.
  - intros other Hin. specialize (Hnone other Hin).
    by apply bool_decide_eq_false in Hnone.
Qed.

Lemma get_bus_arrival_found_witness :
  svc_ServiceNo service_15 = Some (py "15")
  ∧ ∃ earlier later,
      http_arrival demo_env 1
      = Response 200 (Json (Some (earlier ++ service_15 :: later)))
      ∧ ∀ other, other ∈ earlier → svc_ServiceNo other ≠ Some (py "15").
Proof.
  destruct (get_bus_arrival_found demo_env (py "28019") (py "15")
              (with_request (EvGetArrival (py "28009")) demo_state) service_15
              (with_request (EvGetArrival (py "28019"))
                 (with_request (EvGetArrival (py "28009")) demo_state)))
    as (Hsvc & _ & Hfirst); [reflexivity|].
  split; [exact Hsvc | exact Hfirst].
Defined.

(** ** Arrival computation and rendering *)

Section MoreArrivalProperties.
Context `{IsoParser}.

(** X5.  [minutes_to_arrival] rounds down to whole minutes: for a timestamp
    that denotes the instant [arr], the result [m] is 0 when the bus is less
    than a minute away or already past, and for a bus less than [2^51]
    microseconds (some 71 years) away [m] minutes have passed at [arr] but
    [m + 1] have not. *)
Theorem minutes_to_arrival_rounds_down env text arr s :
  text ≠ [] →
  fromisoformat (replace_char 90 (py "+00:00") text) = Aware arr →
  let now := utcnow env (clock_reads s) in
  ∃ m,
    minutes_to_arrival env (Some text) s = Some (Some m, with_clock_read s)
    ∧ (arr < now + us_per_minute → m = 0)
    ∧ (now ≤ arr → arr - now < 2 ^ 51 →
       m * us_per_minute ≤ arr - now < (m + 1) * us_per_minute).
Proof.
  intros Htext Hparse now. unfold minutes_to_arrival.
  destruct text as [|c text]; [done|]. rewrite Hparse.
  exists (whole_minutes (arr - now)). split; [done|].
  assert (Hpos : 0 < us_per_minute) by done.
  pose proof (Z.mul_div_le (arr - now) us_per_minute Hpos).
  pose proof (Z.mul_succ_div_gt (arr - now) us_per_minute Hpos).
  split.
  - intros Hsoon. rewrite whole_minutes_exact by (unfold us_per_minute in *; lia).
    destruct (Z_lt_le_dec (arr - now) 0) as [Hneg|Hnn].
    + assert ((arr - now) / us_per_minute < 0)
        by (apply Z.div_lt_upper_bound; lia).
      fold us_per_minute. lia.
    + fold us_per_minute. rewrite Z.div_small by lia. done.
  - intros Hfuture Hnear. rewrite whole_minutes_exact by done.
    fold us_per_minute.
    assert (0 ≤ (arr - now) / us_per_minute) by (apply Z.div_pos; lia).
    rewrite Z.max_r by done. lia.
Qed.

(** X6.  When [NextBus] is an object or missing and the minutes to the
    primary bus are undefined (no service, no [NextBus], or a timestamp that
    gives no data), the message is the header followed by the no-data line,
    whatever timestamp the second bus holds, unless [NextBus2] is not an
    object, which raises; either way the rendering sends no request and no
    message. *)
Theorem format_arrival_message_no_data env service bus_number s arrival s1 :
  get_EstimatedArrival (service ≫= svc_NextBus) = Returned arrival →
  minutes_to_arrival env arrival s = Some (None, s1) →
  ∃ s',
    format_arrival_message env service bus_number s
    = Some (match get_EstimatedArrival (service ≫= svc_NextBus2) with
            | Returned _ =>
              Returned (message_header bus_number
                        ++ py "No arrival data available." ++ backslash_n)
            | Raised e => Raised e
            end, s')
    ∧ requests s' = requests s ∧ log s' = log s ∧ sends s' = sends s.
Proof.
  intros Hget Hfirst.
  destruct (minutes_to_arrival_total env arrival s)
    as (r1 & s1' & Hfirst' & _ & Hlog1 & Hreq1 & Hsends1).
  rewrite Hfirst in Hfirst'. injection Hfirst' as <- <-.
  unfold format_arrival_message. rewrite Hget, bind_run, Hfirst.
  destruct (get_EstimatedArrival (service ≫= svc_NextBus2)) as [arrival2|e];
    [|by exists s1].
  destruct (minutes_to_arrival_total env arrival2 s1)
    as (next2 & s' & Hsecond & _ & Hlog2 & Hreq2 & Hsends2).
  rewrite bind_run, Hsecond.
  exists s'. split; [done|]. repeat split; congruence.
Qed.

End MoreArrivalProperties.

(** A service without ["NextBus"] and with a timestamp under ["NextBus2"];
    and one whose ["NextBus2"] is [null]. *)
Lemma format_arrival_message_no_data_witness :
  (∃ s',
     @format_arrival_message IsoFragment.parser demo_env
       (Some (mkService (Some (py "970")) None
                (Some (BusObject (mkBus (Some (py "2024-01-01T08:09:30+08:00")))))))
       (py "970") demo_state
     = Some (Returned (message_header (py "970")
                       ++ py "No arrival data available." ++ backslash_n), s'))
  ∧ (∃ s',
       @format_arrival_message IsoFragment.parser demo_env
         (Some (mkService (Some (py "970")) None (Some NotAnObject)))
         (py "970") demo_state
       = Some (Raised AttributeError, s')).
Proof.
  split.
  - destruct (@format_arrival_message_no_data IsoFragment.parser demo_env
                (Some (mkService (Some (py "970")) None
                         (Some (BusObject
                                  (mkBus (Some (py "2024-01-01T08:09:30+08:00")))))))
                (py "970") demo_state None demo_state)
      as (s' & Hrun & _); [reflexivity | reflexivity |].
    exists s'. exact Hrun.
  - destruct (@format_arrival_message_no_data IsoFragment.parser demo_env
                (Some (mkService (Some (py "970")) None (Some NotAnObject)))
                (py "970") demo_state None demo_state)
      as (s' & Hrun & _); [reflexivity | reflexivity |].
    exists s'. exact Hrun.
Defined.

Lemma minutes_to_arrival_rounds_down_witness :
  ∃ m,
    @minutes_to_arrival IsoFragment.parser demo_env
      (Some (py "2024-01-01T00:01:59Z")) demo_state
    = Some (Some m, with_clock_read demo_state)
    ∧ m * us_per_minute ≤ 119000000 < (m + 1) * us_per_minute.
Proof.
  destruct (@minutes_to_arrival_rounds_down IsoFragment.parser demo_env
              (py "2024-01-01T00:01:59Z") (demo_now + 119000000) demo_state)
    as (m & Hrun & _ & Hbracket); [done | vm_compute; reflexivity |].
  exists m. split; [exact Hrun|].
  simpl in Hbracket. unfold demo_now in Hbracket.
  replace 119000000 with (1704067200000000 + 119000000 - 1704067200000000) by lia.
  apply Hbracket; [lia|]. vm_compute. reflexivity.
Defined.

(** ** Scheduler *)

Section MoreSchedulerProperties.
Context `{IsoParser}.

(** The sweep over a list of reminders: it ends; it sends one request per
    due reminder on which the loop body is run; when it returns, that is
    every due reminder, and each has got its message. *)
Lemma sweep_effects env sg_now items s :
  let n := length (filter (λ item, due sg_now (snd item)) items) in
  ∃ r s', sweep env sg_now items s = Some (r, s')
        ∧ same_globals s s'
        ∧ (requests s ≤ requests s' ≤ requests s + n)%nat
        ∧ (length (log s) ≤ length (log s') ≤ length (log s) + 2 * n)%nat
        ∧ (r = Returned tt →
           requests s' = (requests s + n)%nat
           ∧ length (log s') = (length (log s) + 2 * n)%nat)
        ∧ (n = 0%nat → r = Returned tt ∧ s' = s)
        ∧ (delivers env → answers_well_formed env → r = Returned tt).
Proof.
  revert s. induction items as [|[chat_id rem] items IH]; intros s.
  - exists (Returned tt), s. simpl. split; [done|].
    split; [apply same_globals_refl|]. repeat split; lia.
  - unfold sweep. cbn [for_each_raising]. rewrite bind_run. cbn [fst snd].
    rewrite filter_cons. cbn [snd].
    destruct (decide (due sg_now rem)) as [Hdue|Hnd].
    + destruct (check_reminder_due env sg_now chat_id rem s Hdue)
        as (r & s1 & sent & -> & Hg1 & Hreq1 & Hlog1 & Hsent & _ & Hgood).
      assert (Hlen1 : (S (length (log s)) ≤ length (log s1)
                       ≤ S (S (length (log s))))%nat
                      ∧ (∀ u, r = Returned u →
                              length (log s1) = S (S (length (log s))))).
      { rewrite Hlog1, length_app. cbn [length].
        destruct r as [u|e].
        - destruct Hsent as (text & md & ->). cbn [length]. split; [lia|].
          intros _ _. lia.
        - subst sent. cbn [length]. split; [lia | done]. }
      destruct Hlen1 as [Hlen1 Hlen1'].
      destruct r as [[]|e].
      * destruct (IH s1) as (r & s' & Hrun & Hg & Hreq & Hlog & Hret & _ & Hgood').
        unfold sweep in Hrun. rewrite Hrun. exists r, s'. split; [done|].
        split; [by eapply same_globals_trans|].
        specialize (Hlen1' tt eq_refl). cbn [length].
        split; [lia|]. split; [lia|]. split; [|split; [lia|done]].
        intros Hr. destruct (Hret Hr). lia.
      * exists (Raised e), s1. split; [done|]. split; [done|]. cbn [length].
        split; [lia|]. split; [lia|]. split; [done|]. split; [lia|].
        intros Hd Hwf. by apply Hgood.
    + rewrite (check_reminder_skip env sg_now chat_id rem s Hnd).
      destruct (IH s) as (r & s' & Hrun & Hrest).
      unfold sweep in Hrun. rewrite Hrun. by exists r, s'.
Qed.

(** X7.  A tick always ends: it returns, or it raises what the rendering or
    the sending of a message raised.  Either way it leaves the route cache,
    the stop directory and the stored reminders as they were, and sends at
    most one arrival request and one message per due reminder.  When it
    returns it has sent exactly one arrival request and one message per due
    reminder.  With no due reminder it returns and the state is unchanged.
    It returns whenever no call of [send_message] raises and every listed
    service has objects under ["NextBus"] and ["NextBus2"]. *)
Theorem check_reminders_effects env sg_now s :
  ∃ r s',
    check_reminders env sg_now s = Some (r, s')
    ∧ bus_route_cache s' = bus_route_cache s
    ∧ all_bus_stops_cache s' = all_bus_stops_cache s
    ∧ user_reminders s' = user_reminders s
    ∧ (requests s' ≤ requests s + due_count sg_now s)%nat
    ∧ (length (log s') ≤ length (log s) + 2 * due_count sg_now s)%nat
    ∧ (r = Returned tt →
       requests s' = (requests s + due_count sg_now s)%nat
       ∧ length (log s') = (length (log s) + 2 * due_count sg_now s)%nat)
    ∧ (due_count sg_now s = 0%nat → r = Returned tt ∧ s' = s)
    ∧ (delivers env → answers_well_formed env → r = Returned tt).
Proof.
  rewrite check_reminders_sweep.
  destruct (sweep_effects env sg_now (all_reminders s) s)
    as (r & s' & Hrun & (Hg1 & Hg2 & Hg3) & Hreq & Hlog & Hret & Hnone & Hgood).
  exists r, s'. unfold due_count. repeat split; try done; try lia.
  - by apply Hret.
  - by apply Hret.
  - by apply Hnone.
  - by apply Hnone.
Qed.

End MoreSchedulerProperties.

(** Saturday 08:00: the "weekdays" reminder is skipped, the other one is
    served. *)
Lemma check_reminders_effects_witness :
  ∃ s',
    @check_reminders IsoFragment.parser demo_env (mkLocal 8 0 Saturday) demo_state
    = Some (Returned tt, s')
    ∧ requests s' = 1%nat ∧ length (log s') = 2%nat.
Proof.
  destruct (@check_reminders_effects IsoFragment.parser demo_env
              (mkLocal 8 0 Saturday) demo_state)
    as (r & s' & Hrun & _ & _ & _ & _ & _ & Hret & _).
  assert (Hr : Returned tt = r).
  { pose proof Hrun as Hrun'. vm_compute in Hrun'. by injection Hrun' as Hr _. }
  subst r. destruct (Hret eq_refl) as [Hreq Hlog].
  exists s'. split; [exact Hrun|]. split; [exact Hreq | exact Hlog].
Defined.

(** ** Validation *)

Section MoreValidationProperties.
Context `{CharTables}.

Lemma lstrip_fixed (s : str) :
  match s with [] => True | c :: _ => isspace c = false end → lstrip s = s.
Proof. destruct s as [|c s]; [done|]. simpl. by intros ->. Qed.

Lemma lstrip_head (s : str) :
  match lstrip s with [] => True | c :: _ => isspace c = false end.
Proof.
  induction s as [|c s IH]; [done|]. simpl.
  destruct (isspace c) eqn:Hc; [done|]. simpl. done.
Qed.

Lemma lstrip_idempotent (s : str) : lstrip (lstrip s) = lstrip s.
Proof. apply lstrip_fixed, lstrip_head. Qed.

Lemma lstrip_app_nonspace (l : str) c (r : str) :
  isspace c = false → lstrip (l ++ c :: r) = lstrip l ++ c :: r.
Proof.
  intros Hc. induction l as [|a l IH]; simpl; [by rewrite Hc|].
  by destruct (isspace a).
Qed.

Lemma rstrip_cons_nonspace c (s : str) :
  isspace c = false → rstrip (c :: s) = c :: rstrip s.
Proof.
  intros Hc. unfold rstrip. simpl.
  rewrite lstrip_app_nonspace by done. by rewrite rev_app_distr.
Qed.

Lemma rstrip_idempotent (s : str) : rstrip (rstrip s) = rstrip s.
Proof. unfold rstrip. by rewrite rev_involutive, lstrip_idempotent. Qed.

(** [strip] is idempotent. *)
Lemma strip_idempotent (s : str) : strip (strip s) = strip s.
Proof.
  unfold strip. pose proof (lstrip_head s) as Hhead.
  destruct (lstrip s) as [|c t]; [done|].
  rewrite (rstrip_cons_nonspace c t Hhead).
  rewrite (lstrip_fixed (c :: rstrip t)) by done.
  rewrite <- (rstrip_cons_nonspace c t Hhead). apply rstrip_idempotent.
Qed.

(** X8.  White space around the input does not matter:
    [validate_bus_stop_input] gives the same result, with the same effects,
    on an input and on its trimmed form. *)
Theorem validate_ignores_surrounding_space env fuel bus_number user_input s :
  validate_bus_stop_input env fuel bus_number (strip user_input) s
  = validate_bus_stop_input env fuel bus_number user_input s.
Proof. unfold validate_bus_stop_input. by rewrite strip_idempotent. Qed.

Lemma get_bus_routes_hit env fuel service_no s routes :
  bus_route_cache s !! service_no = Some routes →
  get_bus_routes env fuel service_no s = Some (routes, s).
Proof.
  intros Hc. unfold get_bus_routes. rewrite bind_run.
  by rewrite (get_bus_routes_path_hit _ _ _ _ _ Hc).
Qed.

(** X9.  With the route of the bus in the cache, the validation uses the
    caches only: for every input and every fuel it returns, and it leaves
    the state as it was (no request is sent). *)
Theorem validate_uses_caches_only env fuel bus_number user_input s routes :
  bus_route_cache s !! bus_number = Some routes →
  ∃ result,
    validate_bus_stop_input env fuel bus_number user_input s = Some (result, s).
Proof.
  intros Hc. pose proof (get_bus_routes_hit env fuel _ _ _ Hc) as Hroutes.
  destruct (str_isdigit (strip user_input)
            && bool_decide (length (strip user_input) = 5%nat)) eqn:Hcode.
  - apply andb_true_iff in Hcode as [Hd Hl]. apply bool_decide_eq_true in Hl.
    pose proof (validate_code_path env fuel bus_number user_input s Hd Hl) as Hp.
    simpl in Hp.
    destruct (dict_get (strip user_input) (all_bus_stops_cache s)) as [stop|].
    + eexists. by apply Hp.
    + by eexists.
  - destruct (validate_name_path env fuel bus_number user_input s Hcode)
      as (matches & _ & Hres).
    destruct matches as [|found [|? ?]]; [by eexists | | by eexists].
    eexists. by apply Hres.
Qed.

(** X10.  Whatever the input, a stop that the validation returns is a stop
    of the directory whose code is among the stop codes of the routes that
    [get_bus_routes] returns for the bus: on the code path the code is the
    trimmed input and the name is the directory's, on the name path the stop
    is one of the directory's records.  The message of the multiple-matches
    case comes without any request. *)
Theorem validate_result_on_route env fuel bus_number user_input s result s' :
  validate_bus_stop_input env fuel bus_number user_input s = Some (result, s') →
  match result with
  | VNone => True
  | VMessage text => s' = s ∧ text = multiple_matches_message (strip user_input)
  | VCodeName code name =>
    code = strip user_input
    ∧ ∃ stop routes,
        dict_get code (all_bus_stops_cache s) = Some stop
        ∧ name = stop_name stop
        ∧ get_bus_routes env fuel bus_number s = Some (routes, s')
        ∧ code ∈ route_stop_codes routes
  | VStop stop =>
    stop ∈ dict_values (all_bus_stops_cache s)
    ∧ ∃ routes,
        get_bus_routes env fuel bus_number s = Some (routes, s')
        ∧ stop_code stop ∈ route_stop_codes routes
  end.
Proof.
  unfold validate_bus_stop_input. destruct (_ && _).
  - rewrite bind_run. unfold stops_get.
    destruct (dict_get _ _) as [stop|] eqn:Hget; [|by intros [= <- <-]].
    rewrite bind_run. unfold is_stop_in_bus_route. rewrite bind_run.
    destruct (get_bus_routes env fuel bus_number s) as [[routes s1]|] eqn:Hr;
      [|done].
    cbn [ret]. case_bool_decide as Hin; intros [= <- <-]; [|done].
    split; [done|]. by exists stop, routes.
  - unfold search_bus_stops_by_name. rewrite !bind_run. cbn [stops_values ret].
    destruct (List.filter _ _) as [|found [|? ?]] eqn:Hfilter.
    + by intros [= <- <-].
    + rewrite bind_run. unfold is_stop_in_bus_route. rewrite bind_run.
      destruct (get_bus_routes env fuel bus_number s) as [[routes s1]|] eqn:Hr;
        [|done].
      cbn [ret]. case_bool_decide as Hin; intros [= <- <-]; [|done].
      split; [|by exists routes].
      assert (Hfound : In found (List.filter
                (name_matches (lower (strip user_input)))
                (dict_values (all_bus_stops_cache s))))
        by (rewrite Hfilter; by left).
      apply filter_In in Hfound as [Hfound _]. by apply list_elem_of_In.
    + by intros [= <- <-].
Qed.
End MoreValidationProperties.

Lemma validate_uses_caches_only_witness :
  ∃ result,
    @validate_bus_stop_input ascii_tables demo_env 0 (py "970") (py "Town Hall")
      demo_state
    = Some (result, demo_state).
Proof.
  apply (@validate_uses_caches_only ascii_tables demo_env 0 (py "970")
           (py "Town Hall") demo_state route_970).
  vm_compute. reflexivity.
Defined.

Lemma validate_result_on_route_witness :
  py "28009" = @strip ascii_tables (py " 28009 ")
  ∧ ∃ stop routes,
      dict_get (py "28009") (all_bus_stops_cache demo_state) = Some stop
      ∧ py "Jurong East Int" = stop_name stop
      ∧ get_bus_routes demo_env 0 (py "970") demo_state = Some (routes, demo_state)
      ∧ py "28009" ∈ route_stop_codes routes.
Proof.
  apply (@validate_result_on_route ascii_tables demo_env 0 (py "970")
           (py " 28009 ") demo_state
           (VCodeName (py "28009") (py "Jurong East Int")) demo_state).
  vm_compute. reflexivity.
Defined.

(** ** Stop directory *)

Lemma dict_get_set_eq {V} key (v : V) d : dict_get key (dict_set key v d) = Some v.
Proof.
  unfold dict_get. induction d as [|[k x] d IH]; simpl.
  - by rewrite bool_decide_eq_true_2.
  - case_bool_decide as Hk; simpl.
    + by rewrite bool_decide_eq_true_2.
    + by rewrite bool_decide_eq_false_2.
Qed.

Lemma dict_get_set_ne {V} key key' (v : V) d :
  key ≠ key' → dict_get key' (dict_set key v d) = dict_get key' d.
Proof.
  intros Hne. unfold dict_get. induction d as [|[k x] d IH]; simpl.
  - by rewrite bool_decide_eq_false_2.
  - case_bool_decide as Hk; simpl.
    + subst k. by rewrite !bool_decide_eq_false_2.
    + destruct (bool_decide (k = key')); [done | apply IH].
Qed.

Lemma dict_set_keys {V} key (v : V) d :
  fst <$> dict_set key v d
  = if bool_decide (key ∈ fst <$> d) then fst <$> d else (fst <$> d) ++ [key].
Proof.
  induction d as [|[k x] d IH]; cbn [dict_set].
  - rewrite bool_decide_eq_false_2; [done|]. by intros ?%elem_of_nil.
  - destruct (decide (k = key)) as [->|Hk].
    + rewrite (bool_decide_eq_true_2 (key = key)) by done.
      rewrite bool_decide_eq_true_2; [done | by left].
    + rewrite (bool_decide_eq_false_2 (k = key)) by done.
      rewrite fmap_cons, IH, fmap_cons. cbn [fst].
      destruct (decide (key ∈ fst <$> d)) as [Hin|Hin].
      * rewrite (bool_decide_eq_true_2 (key ∈ fst <$> d)) by done.
        rewrite bool_decide_eq_true_2; [done | by right].
      * rewrite (bool_decide_eq_false_2 (key ∈ fst <$> d)) by done.
        rewrite bool_decide_eq_false_2; [done|].
        intros [?|?]%elem_of_cons; [by subst | done].
Qed.

Lemma dict_set_elem {V} key (v : V) d k x :
  (k, x) ∈ dict_set key v d → (k, x) = (key, v) ∨ (k, x) ∈ d.
Proof.
  induction d as [|[k0 x0] d IH]; simpl.
  - intros ->%list_elem_of_singleton. by left.
  - case_bool_decide as Hk.
    + intros [->|Hin]%elem_of_cons; [left; by subst | right; by right].
    + intros [->|Hin]%elem_of_cons; [right; by left|].
      destruct (IH Hin) as [->|Hd]; [by left | right; by right].
Qed.

Lemma stop_of_row_name row : stop_name (stop_of_row row) ≠ [].
Proof.
  unfold stop_of_row. simpl.
  destruct (default [] (row_Description row)); [|done].
  by destruct (default [] (row_RoadName row)).
Qed.

Lemma store_rows_snoc rows row d :
  store_rows (rows ++ [row]) d
  = dict_set (stop_key row) (stop_of_row row) (store_rows rows d).
Proof. unfold store_rows. by rewrite foldl_app. Qed.

Lemma store_rows_app rows1 rows2 d :
  store_rows (rows1 ++ rows2) d = store_rows rows2 (store_rows rows1 d).
Proof. unfold store_rows. by rewrite foldl_app. Qed.

Lemma directory_ok_set row d :
  directory_ok d →
  directory_ok (dict_set (stop_key row) (stop_of_row row) d).
Proof.
  intros [Hnd Hrec]. split.
  - rewrite dict_set_keys. case_bool_decide as Hin; [done|].
    apply NoDup_app. split; [done|]. split.
    + intros k Hk ->%list_elem_of_singleton. done.
    + apply NoDup_singleton.
  - intros k x [[= -> ->]|Hin]%dict_set_elem.
    + split; [done | apply stop_of_row_name].
    + by apply Hrec.
Qed.

Lemma directory_ok_store rows d : directory_ok d → directory_ok (store_rows rows d).
Proof.
  revert d. induction rows as [|row rows IH]; intros d Hd; [done|].
  apply (IH _ (directory_ok_set row d Hd)).
Qed.

Lemma dict_get_store rows d key :
  dict_get key (store_rows rows d)
  = match last (filter (λ row, stop_key row = key) rows) with
    | Some row => Some (stop_of_row row)
    | None => dict_get key d
    end.
Proof.
  induction rows as [|row rows IH] using rev_ind; [done|].
  rewrite store_rows_snoc, filter_app, filter_cons, filter_nil.
  case_decide as Hk.
  - rewrite last_snoc. subst key. apply dict_get_set_eq.
  - rewrite app_nil_r, <- IH. by apply dict_get_set_ne.
Qed.

Lemma for_each_store_stop rows s :
  for_each store_stop rows s
  = Some (tt, with_stops (store_rows rows (all_bus_stops_cache s)) s).
Proof.
  revert s. induction rows as [|row rows IH]; intros s.
  - by destruct s.
  - cbn [for_each]. rewrite bind_run. unfold store_stop at 1. by rewrite IH.
Qed.

(** What a run of the loading loop does: it stores some rows, counts its
    requests, and leaves everything else alone. *)
Lemma load_pages_stores http_stops fuel skip s s' :
  load_pages http_stops fuel skip s = Some (tt, s') →
  ∃ rows,
    all_bus_stops_cache s' = store_rows rows (all_bus_stops_cache s)
    ∧ bus_route_cache s' = bus_route_cache s
    ∧ user_reminders s' = user_reminders s
    ∧ log s' = log s
    ∧ (requests s < requests s')%nat.
Proof.
  revert skip s. induction fuel as [|fuel IH]; intros skip s; [done|].
  cbn [load_pages]. rewrite bind_run. unfold get_stops_page.
  assert (Hnone : ∃ rows,
            all_bus_stops_cache (with_stops_request s)
            = store_rows rows (all_bus_stops_cache s)
            ∧ bus_route_cache (with_stops_request s) = bus_route_cache s
            ∧ user_reminders (with_stops_request s) = user_reminders s
            ∧ log (with_stops_request s) = log s
            ∧ (requests s < requests (with_stops_request s))%nat).
  { exists []. simpl. repeat split; lia. }
  destruct (http_stops (requests s)) as [| |st body];
    try (intros [= <-]; exact Hnone).
  case_bool_decide as Hst; [intros [= <-]; exact Hnone|].
  destruct body as [|data]; [intros [= <-]; exact Hnone|].
  destruct (default [] data) as [|r0 rows] eqn:Hdata; [intros [= <-]; exact Hnone|].
  rewrite bind_run, for_each_store_stop.
  case_bool_decide as Hlen.
  - intros [= <-]. exists (r0 :: rows). simpl. repeat split; lia.
  - intros Hrec. apply IH in Hrec as (more & Hdir & Hc & Hu & Hl & Hr).
    exists ((r0 :: rows) ++ more). rewrite store_rows_app.
    simpl in *. repeat split; try done. lia.
Qed.

(** X11.  Loading keeps the directory well formed: if its keys are
    distinct, every record sits under its own code and no name is empty,
    then the same holds after [load_all_bus_stops], however the upstream
    answers (a row without description and road name gets the name
    "Stop <code>"). *)
Theorem load_all_bus_stops_keeps_directory_ok http_stops fuel s s' :
  directory_ok (all_bus_stops_cache s) →
  load_all_bus_stops http_stops fuel s = Some (tt, s') →
  directory_ok (all_bus_stops_cache s').
Proof.
  intros Hok Hrun. apply load_pages_stores in Hrun as (rows & -> & _).
  by apply directory_ok_store.
Qed.

(** X12.  Loading never removes a stop and touches nothing but the
    directory: every code that was in the directory is still in it
    afterwards, and the route cache, the reminders and the log are as they
    were. *)
Theorem load_all_bus_stops_keeps_codes http_stops fuel s s' code :
  load_all_bus_stops http_stops fuel s = Some (tt, s') →
  is_Some (dict_get code (all_bus_stops_cache s)) →
  is_Some (dict_get code (all_bus_stops_cache s'))
  ∧ bus_route_cache s' = bus_route_cache s
  ∧ user_reminders s' = user_reminders s
  ∧ log s' = log s.
Proof.
  intros Hrun Hcode. apply load_pages_stores in Hrun as (rows & -> & Hc & Hu & Hl & _).
  split; [|done]. rewrite dict_get_store.
  by destruct (last _).
Qed.

Lemma load_pages_pages (http_stops : nat → HttpResult (Payload (list StopRow)))
    (pages : list (list StopRow)) final :
  full_stops_page final = false →
  ∀ fuel skip s,
    (∀ i page, pages !! i = Some page →
               http_stops (requests s + i)%nat = Response 200 (Json (Some page))
               ∧ (batch_size ≤ length page)%nat) →
    http_stops (requests s + length pages)%nat = final →
    (length pages < fuel)%nat →
    ∃ s',
      load_pages http_stops fuel skip s = Some (tt, s')
      ∧ all_bus_stops_cache s'
        = store_rows (concat pages ++ rows_of_answer final) (all_bus_stops_cache s)
      ∧ requests s' = (requests s + length pages + 1)%nat.
Proof.
  intros Hfinal. induction pages as [|page pages IH]; intros fuel skip s Hpages Hend Hfuel.
  - destruct fuel as [|fuel]; [simpl in Hfuel; lia|].
    simpl in Hend. rewrite Nat.add_0_r in Hend.
    cbn [load_pages]. rewrite bind_run. unfold get_stops_page. rewrite Hend.
    unfold full_stops_page in Hfinal. apply bool_decide_eq_false in Hfinal.
    destruct final as [| |st body].
    + eexists. split; [reflexivity|]. simpl. split; [done | lia].
    + eexists. split; [reflexivity|]. simpl. split; [done | lia].
    + destruct (decide (st = 200)) as [->|Hst].
      * change (bool_decide (200 ≠ 200)) with false. cbv iota.
        destruct body as [|[[|r0 rows]|]].
        -- eexists. split; [reflexivity|]. simpl. split; [done | lia].
        -- eexists. split; [reflexivity|]. simpl. split; [done | lia].
        -- cbn [from_option id]. rewrite bind_run, for_each_store_stop.
           change (rows_of_answer (Response 200 (Json (Some (r0 :: rows)))))
             with (r0 :: rows) in Hfinal.
           rewrite bool_decide_eq_true_2 by lia.
           eexists. split; [reflexivity|]. simpl. split; [done | lia].
        -- eexists. split; [reflexivity|]. simpl. split; [done | lia].
      * rewrite (bool_decide_eq_true_2 (st ≠ 200)) by done.
        eexists. split; [reflexivity|]. split; [|simpl; lia].
        unfold rows_of_answer. destruct body as [|[rows|]]; try done.
        by rewrite bool_decide_eq_false_2.
  - destruct fuel as [|fuel]; [simpl in Hfuel; lia|].
    destruct (Hpages 0%nat page eq_refl) as [Hnet Hfull].
    rewrite Nat.add_0_r in Hnet.
    cbn [load_pages]. rewrite bind_run. unfold get_stops_page at 1. rewrite Hnet.
    change (bool_decide (200 ≠ 200)) with false. cbv iota.
    destruct page as [|r0 page]; [unfold batch_size in Hfull; simpl in Hfull; lia|].
    cbn [from_option id]. rewrite bind_run, for_each_store_stop.
    rewrite bool_decide_eq_false_2 by lia.
    destruct (IH fuel (skip + batch_size)%nat
                (with_stops (store_rows (r0 :: page)
                               (all_bus_stops_cache (with_stops_request s)))
                            (with_stops_request s)))
      as (s' & Hrun & Hdir & Hreq).
    + intros i p Hi. simpl.
      replace (S (requests s + i)) with (requests s + S i)%nat by lia.
      by apply Hpages.
    + simpl in Hend. simpl.
      by replace (S (requests s + length pages))
        with (requests s + S (length pages))%nat by lia.
    + simpl in Hfuel. lia.
    + exists s'. split; [done|]. split.
      * rewrite Hdir.
        change (concat ((r0 :: page) :: pages)) with ((r0 :: page) ++ concat pages).
        by rewrite <- app_assoc, (store_rows_app (r0 :: page)).
      * rewrite Hreq. simpl. lia.
Qed.

(** X13.  There is one request per page and no retry, and a failure keeps
    what was loaded: when the upstream answers with full pages and then with
    anything else (a last page, a timeout, a request error, a status other
    than 200, a body that does not decode), the directory afterwards holds
    the rows of these pages, and of the last page if there is one, stored in
    order over what it held before, each under [str(...)] of its
    ["BusStopCode"] (the empty string when the row has none, ["None"] when it
    is null); hence [get_bus_stop_name] of a code gives the name of the last
    such row stored under that code, or the name it gave before when there
    is none. *)
Theorem load_all_bus_stops_loads
    (http_stops : nat → HttpResult (Payload (list StopRow))) fuel s
    (pages : list (list StopRow)) final :
  (∀ i page, pages !! i = Some page →
             http_stops (requests s + i)%nat = Response 200 (Json (Some page))
             ∧ (batch_size ≤ length page)%nat) →
  http_stops (requests s + length pages)%nat = final →
  full_stops_page final = false →
  (length pages < fuel)%nat →
  ∃ s',
    load_all_bus_stops http_stops fuel s = Some (tt, s')
    ∧ all_bus_stops_cache s'
      = store_rows (concat pages ++ rows_of_answer final) (all_bus_stops_cache s)
    ∧ requests s' = (requests s + length pages + 1)%nat
    ∧ ∀ code,
        get_bus_stop_name code s'
        = Some (match last (filter (λ row, stop_key row = code)
                                   (concat pages ++ rows_of_answer final)) with
                | Some row => Some (stop_name (stop_of_row row))
                | None => stop_name <$> dict_get code (all_bus_stops_cache s)
                end, s').
Proof.
  intros Hpages Hend Hfinal Hfuel.
  destruct (load_pages_pages http_stops pages final Hfinal fuel 0%nat s
              Hpages Hend Hfuel) as (s' & Hrun & Hdir & Hreq).
  exists s'. split; [done|]. split; [done|]. split; [done|].
  intros code. unfold get_bus_stop_name, stops_get. rewrite bind_run.
  rewrite Hdir, dict_get_store. cbn [ret]. by destruct (last _).
Qed.

Lemma load_all_bus_stops_keeps_directory_ok_witness :
  directory_ok
    (store_rows stop_rows_demo []).
Proof.
  assert (Hrun : load_all_bus_stops
                   (stops_script [Response 200 (Json (Some stop_rows_demo))]) 1
                   (initial [] [])
                 = Some (tt, with_stops (store_rows stop_rows_demo [])
                               (with_stops_request (initial [] []))))
    by reflexivity.
  refine (load_all_bus_stops_keeps_directory_ok _ _ (initial [] []) _ _ Hrun).
  split; [apply NoDup_nil_2 | by intros ?? ?%elem_of_nil].
Defined.

(** Loading the demo page over the demo directory: stop 28019, which the
    page lists again under another name, and the route cache are still
    there. *)
Lemma load_all_bus_stops_keeps_codes_witness :
  ∃ s',
    load_all_bus_stops
      (stops_script [Response 200 (Json (Some stop_rows_demo))]) 1 demo_state
    = Some (tt, s')
    ∧ is_Some (dict_get (py "28019") (all_bus_stops_cache s'))
    ∧ length (all_bus_stops_cache s') = 5%nat
    ∧ bus_route_cache s' = bus_route_cache demo_state.
Proof.
  destruct (load_all_bus_stops
              (stops_script [Response 200 (Json (Some stop_rows_demo))]) 1
              demo_state) as [[[] s']|] eqn:Hrun; [|discriminate Hrun].
  destruct (load_all_bus_stops_keeps_codes _ _ _ _ (py "28019") Hrun)
    as (Hcode & Hcache & _); [by eexists|].
  exists s'. split; [reflexivity|]. split; [exact Hcode|]. split; [|exact Hcache].
  vm_compute in Hrun. by injection Hrun as <-.
Defined.

(** One short page: its rows are kept, the later row for 28009 has replaced
    the earlier one in place, the row with a null code sits under "None" and
    the row without code under the empty string. *)
Lemma load_all_bus_stops_loads_witness :
  ∃ s',
    load_all_bus_stops
      (stops_script [Response 200 (Json (Some stop_rows_demo))]) 1 (initial [] [])
    = Some (tt, s')
    ∧ all_bus_stops_cache s'
      = [(py "28009", mkStop (py "28009") (py "Jurong East Temp Int") []);
         (py "28019", mkStop (py "28019") (py "Jurong Town Hall Rd")
                             (py "Jurong Town Hall Rd"));
         (py "28029", mkStop (py "28029") (py "Stop 28029") []);
         (py "None", mkStop (py "None") (py "Stop None") []);
         ([], mkStop [] (py "Boon Lay Way") (py "Boon Lay Way"))]
    ∧ get_bus_stop_name (py "None") s' = Some (Some (py "Stop None"), s').
Proof.
  destruct (load_all_bus_stops_loads
              (stops_script [Response 200 (Json (Some stop_rows_demo))]) 1
              (initial [] []) [] (Response 200 (Json (Some stop_rows_demo))))
    as (s' & Hrun & Hdir & _ & Hname).
  - intros i page Hi. done.
  - reflexivity.
  - reflexivity.
  - simpl. lia.
  - exists s'. split; [exact Hrun|]. split; [exact Hdir|].
    rewrite (Hname (py "None")). reflexivity.
Defined.

(** ** Reminder persistence *)

(** X14.  [delete_reminder] reports [True] exactly when the service
    carried out the call and a record was stored under the (non-empty) id.
    It then removes that record and no other; whenever it reports [False]
    the table is as it was. *)
Theorem delete_reminder_reports_removal (fails : bool) (reminder_id : option str)
    (table table' : gmap str DynamoDB.Item) (removed : bool) :
  DynamoDB.delete_reminder fails reminder_id table = (removed, table') →
  (removed = true
   ↔ fails = false
     ∧ ∃ id, reminder_id = Some id ∧ id ≠ [] ∧ is_Some (table !! id))
  ∧ (removed = false → table' = table)
  ∧ (removed = true →
     ∃ id, reminder_id = Some id ∧ table' !! id = None
           ∧ ∀ other, other ≠ id → table' !! other = table !! other).
Proof.
  unfold DynamoDB.delete_reminder, DynamoDB.delete_item.
  destruct reminder_id as [[|c id]|].
  - intros [= <- <-]. split; [|done]. split; [done|].
    by intros (_ & id & [= <-] & Hne & _).
  - destruct fails.
    + intros [= <- <-]. split; [|done]. split; [done | by intros [? _]].
    + destruct (table !! (c :: id)) as [item|] eqn:Hget.
      * intros [= <- <-]. split; [|split; [done|]].
        -- split; [|done]. intros _. split; [done|].
           exists (c :: id). by rewrite Hget.
        -- intros _. exists (c :: id). split; [done|].
           split; [apply lookup_delete_eq|].
           intros other Hne. by apply lookup_delete_ne.
      * intros [= <- <-]. split; [|split; [|done]].
        -- split; [done|]. intros (_ & id' & [= <-] & _ & Hsome).
           rewrite Hget in Hsome. by destruct Hsome.
        -- intros _. by apply delete_id.
  - intros [= <- <-]. split; [|done]. split; [done|].
    by intros (_ & id & ? & _).
Qed.

Lemma delete_reminder_reports_removal_witness :
  (true = true
   ↔ false = false
     ∧ ∃ id, Some (py "r-1") = Some id ∧ id ≠ [] ∧ is_Some (demo_table !! id))
  ∧ (true = false → (∅ : gmap str DynamoDB.Item) = demo_table)
  ∧ (true = true →
     ∃ id, Some (py "r-1") = Some id ∧ (∅ : gmap str DynamoDB.Item) !! id = None
           ∧ ∀ other, other ≠ id →
                      (∅ : gmap str DynamoDB.Item) !! other = demo_table !! other).
Proof.
  apply (delete_reminder_reports_removal false (Some (py "r-1")) demo_table ∅ true).
  vm_compute. reflexivity.
Defined.

(** X15.  Adding a reminder under a fresh, non-empty id and deleting it by
    the id that [add_reminder] returned gives back the table as it was, and
    the deletion reports [True]; a second deletion reports [False]. *)
Theorem add_then_delete_reminder (uuid : str) (chat_id : Z)
    (bus_number bus_stop bus_stop_name days time : str)
    (table : gmap str DynamoDB.Item) :
  uuid ≠ [] →
  table !! uuid = None →
  ∃ table1,
    DynamoDB.add_reminder false uuid chat_id bus_number bus_stop bus_stop_name
      days time table = (Some uuid, table1)
    ∧ table1 !! uuid
      = Some (DynamoDB.mkItem uuid chat_id bus_number bus_stop bus_stop_name
                              days time)
    ∧ DynamoDB.delete_reminder false (Some uuid) table1 = (true, table)
    ∧ DynamoDB.delete_reminder false (Some uuid) table = (false, table).
Proof.
  intros Hne Hfresh. eexists. split; [reflexivity|]. simpl.
  split; [apply lookup_insert_eq|].
  unfold DynamoDB.delete_reminder, DynamoDB.delete_item.
  destruct uuid as [|c uuid]; [done|].
  rewrite lookup_insert_eq, Hfresh. split.
  - by rewrite delete_insert_id.
  - by rewrite delete_id.
Qed.

Lemma add_then_delete_reminder_witness :
  ∃ table1,
    DynamoDB.add_reminder false (py "r-2") 2 (py "15") (py "28019")
      (py "Jurong Town Hall Int") (py "everyday") (py "08:00") demo_table
    = (Some (py "r-2"), table1)
    ∧ DynamoDB.delete_reminder false (Some (py "r-2")) table1 = (true, demo_table).
Proof.
  destruct (add_then_delete_reminder (py "r-2") 2 (py "15") (py "28019")
              (py "Jurong Town Hall Int") (py "everyday") (py "08:00") demo_table)
    as (table1 & Hadd & _ & Hdel & _); [done | vm_compute; reflexivity |].
  exists table1. split; [exact Hadd | exact Hdel].
Defined.

Section QueryProperties.
Context `{DynamoDB.IndexOrder}.

(** With a page that holds the whole answer, the query returns the items of
    the subscriber, in the order of the index. *)
Lemma get_user_reminders_whole (page : nat) (chat : Z)
    (table : gmap str DynamoDB.Item) :
  (size table ≤ page)%nat →
  DynamoDB.get_user_reminders false page chat table
  ≡ₚ DynamoDB.listed_of
       <$> filter (λ item, DynamoDB.chat_id item = chat) (snd <$> map_to_list table).
Proof.
  intros Hsize. unfold DynamoDB.get_user_reminders, DynamoDB.query.
  rewrite take_ge.
  - by rewrite DynamoDB.index_order_perm.
  - rewrite (Permutation_length (DynamoDB.index_order_perm _)).
    etrans; [apply length_filter|]. by rewrite length_fmap, length_map_to_list.
Qed.

(** X16.  After [add_reminder] under a fresh id, and with a page that holds
    the whole answer, [get_user_reminders] of the subscriber lists the new
    reminder once besides what it listed before, and lists for every other
    subscriber what it listed before (the order is the service's).  A
    failure of the query gives the empty list. *)
Theorem add_then_get_user_reminders (uuid : str) (chat other : Z)
    (bus_number bus_stop bus_stop_name days time : str) (page : nat)
    (table table1 : gmap str DynamoDB.Item) :
  table !! uuid = None →
  (size table < page)%nat →
  DynamoDB.add_reminder false uuid chat bus_number bus_stop bus_stop_name
    days time table = (Some uuid, table1) →
  DynamoDB.get_user_reminders false page chat table1
  ≡ₚ DynamoDB.mkListed uuid bus_number bus_stop bus_stop_name days time
     :: DynamoDB.get_user_reminders false page chat table
  ∧ (other ≠ chat →
     DynamoDB.get_user_reminders false page other table1
     ≡ₚ DynamoDB.get_user_reminders false page other table)
  ∧ DynamoDB.get_user_reminders true page chat table1 = [].
Proof.
  intros Hfresh Hpage [= <-].
  set (item := DynamoDB.mkItem uuid chat bus_number bus_stop bus_stop_name days time).
  assert (Hperm : snd <$> map_to_list (<[uuid := item]> table)
                  ≡ₚ item :: (snd <$> map_to_list table)).
  { rewrite map_to_list_insert by done. done. }
  assert (Hsize1 : (size (<[uuid := item]> table) ≤ page)%nat)
    by (rewrite map_size_insert_None by done; lia).
  change (DynamoDB.reminder_id item) with uuid.
  rewrite !get_user_reminders_whole by lia. split; [|split; [|done]].
  - rewrite Hperm, filter_cons. rewrite decide_True by done. done.
  - intros Hother. rewrite Hperm, filter_cons.
    rewrite decide_False by (simpl; congruence). done.
Qed.
End QueryProperties.

Lemma add_then_get_user_reminders_witness :
  @DynamoDB.get_user_reminders DynamoDB.reversed_index false 10 2
    (<[py "r-2" := DynamoDB.mkItem (py "r-2") 2 (py "15") (py "28019")
                     (py "Jurong Town Hall Int") (py "everyday") (py "08:00")]>
       demo_table)
  ≡ₚ DynamoDB.mkListed (py "r-2") (py "15") (py "28019")
       (py "Jurong Town Hall Int") (py "everyday") (py "08:00")
     :: @DynamoDB.get_user_reminders DynamoDB.reversed_index false 10 2 demo_table.
Proof.
  refine (proj1 (@add_then_get_user_reminders DynamoDB.reversed_index (py "r-2")
                   2 1 (py "15") (py "28019") (py "Jurong Town Hall Int")
                   (py "everyday") (py "08:00") 10 demo_table _ _ _ eq_refl)).
  - vm_compute. reflexivity.
  - vm_compute. lia.
Defined.

(** ** The stored reminders *)

Lemma reminders_get_set_eq chat_id v d :
  reminders_get chat_id (reminders_set chat_id v d) = Some v.
Proof.
  unfold reminders_get. induction d as [|[k x] d IH]; cbn [reminders_set].
  - simpl. by rewrite bool_decide_eq_true_2.
  - destruct (decide (k = chat_id)) as [->|Hk].
    + rewrite (bool_decide_eq_true_2 (chat_id = chat_id)) by done. simpl.
      by rewrite bool_decide_eq_true_2.
    + rewrite (bool_decide_eq_false_2 (k = chat_id)) by done. simpl.
      by rewrite bool_decide_eq_false_2.
Qed.

Lemma reminders_get_set_ne chat_id other v d :
  other ≠ chat_id →
  reminders_get other (reminders_set chat_id v d) = reminders_get other d.
Proof.
  intros Hne. unfold reminders_get.
  induction d as [|[k x] d IH]; cbn [reminders_set].
  - simpl. by rewrite bool_decide_eq_false_2.
  - destruct (decide (k = chat_id)) as [->|Hk].
    + rewrite (bool_decide_eq_true_2 (chat_id = chat_id)) by done. simpl.
      by rewrite !bool_decide_eq_false_2.
    + rewrite (bool_decide_eq_false_2 (k = chat_id)) by done. simpl.
      destruct (bool_decide (k = other)); [done | apply IH].
Qed.

Lemma reminders_get_elem chat_id d l :
  reminders_get chat_id d = Some l → (chat_id, l) ∈ d.
Proof.
  unfold reminders_get. destruct (List.find _ d) as [[k x]|] eqn:Hfind; [|done].
  intros [= <-]. apply find_some in Hfind as [Hin Hk].
  apply bool_decide_eq_true in Hk. simpl in Hk. subst k.
  by apply list_elem_of_In.
Qed.

Lemma reminders_get_None chat_id d :
  reminders_get chat_id d = None ↔ chat_id ∉ fst <$> d.
Proof.
  unfold reminders_get. induction d as [|[k x] d IH]; simpl.
  - split; [intros _ ?%elem_of_nil; done | done].
  - destruct (decide (k = chat_id)) as [->|Hk].
    + rewrite bool_decide_eq_true_2 by done. simpl. split; [done|].
      intros Hnot. exfalso. apply Hnot. by left.
    + rewrite bool_decide_eq_false_2 by done. rewrite IH. split.
      * intros Hnot [?|?]%elem_of_cons; [by subst | done].
      * intros Hnot Hin. apply Hnot. by right.
Qed.

Lemma reminders_set_keys chat_id v d :
  fst <$> reminders_set chat_id v d
  = if bool_decide (chat_id ∈ fst <$> d) then fst <$> d
    else (fst <$> d) ++ [chat_id].
Proof.
  induction d as [|[k x] d IH]; cbn [reminders_set].
  - rewrite bool_decide_eq_false_2; [done|]. by intros ?%elem_of_nil.
  - destruct (decide (k = chat_id)) as [->|Hk].
    + rewrite (bool_decide_eq_true_2 (chat_id = chat_id)) by done.
      rewrite bool_decide_eq_true_2; [done | by left].
    + rewrite (bool_decide_eq_false_2 (k = chat_id)) by done.
      rewrite fmap_cons, IH, fmap_cons. cbn [fst].
      destruct (decide (chat_id ∈ fst <$> d)) as [Hin|Hin].
      * rewrite (bool_decide_eq_true_2 (chat_id ∈ fst <$> d)) by done.
        rewrite bool_decide_eq_true_2; [done | by right].
      * rewrite (bool_decide_eq_false_2 (chat_id ∈ fst <$> d)) by done.
        rewrite bool_decide_eq_false_2; [done|].
        intros [?|?]%elem_of_cons; [by subst | done].
Qed.

Lemma reminders_set_elem chat_id v d k x :
  (k, x) ∈ reminders_set chat_id v d → (k, x) = (chat_id, v) ∨ (k, x) ∈ d.
Proof.
  induction d as [|[k0 x0] d IH]; cbn [reminders_set].
  - intros ->%list_elem_of_singleton. by left.
  - destruct (decide (k0 = chat_id)) as [->|Hk].
    + rewrite bool_decide_eq_true_2 by done.
      intros [->|Hin]%elem_of_cons; [by left | right; by right].
    + rewrite bool_decide_eq_false_2 by done.
      intros [->|Hin]%elem_of_cons; [right; by left|].
      destruct (IH Hin) as [->|Hd]; [by left | right; by right].
Qed.

Lemma reminders_set_same chat_id l d :
  reminders_get chat_id d = Some l → reminders_set chat_id l d = d.
Proof.
  unfold reminders_get. induction d as [|[k x] d IH]; [done|]. simpl.
  destruct (decide (k = chat_id)) as [->|Hk].
  - rewrite !bool_decide_eq_true_2 by done. simpl. by intros [= ->].
  - rewrite !bool_decide_eq_false_2 by done. intros Hget. by rewrite IH.
Qed.

Lemma reminders_set_set chat_id l1 l2 d :
  reminders_set chat_id l2 (reminders_set chat_id l1 d) = reminders_set chat_id l2 d.
Proof.
  induction d as [|[k x] d IH]; cbn [reminders_set].
  - by rewrite bool_decide_eq_true_2.
  - destruct (decide (k = chat_id)) as [->|Hk].
    + rewrite (bool_decide_eq_true_2 (chat_id = chat_id)) by done.
      cbn [reminders_set]. by rewrite bool_decide_eq_true_2.
    + rewrite (bool_decide_eq_false_2 (k = chat_id)) by done.
      cbn [reminders_set]. rewrite (bool_decide_eq_false_2 (k = chat_id)) by done.
      by rewrite IH.
Qed.

Lemma reminders_pop_set_new chat_id l d :
  chat_id ∉ fst <$> d → reminders_pop chat_id (reminders_set chat_id l d) = d.
Proof.
  induction d as [|[k x] d IH]; cbn [reminders_set reminders_pop].
  - intros _. by rewrite bool_decide_eq_true_2.
  - intros Hnot. destruct (decide (k = chat_id)) as [->|Hk].
    + exfalso. apply Hnot. by left.
    + rewrite (bool_decide_eq_false_2 (k = chat_id)) by done.
      cbn [reminders_pop]. rewrite (bool_decide_eq_false_2 (k = chat_id)) by done.
      rewrite IH; [done|]. intros Hin. apply Hnot. by right.
Qed.

Lemma reminders_pop_sublist chat_id d : reminders_pop chat_id d `sublist_of` d.
Proof.
  induction d as [|[k x] d IH]; cbn [reminders_pop]; [done|].
  destruct (bool_decide (k = chat_id)).
  - by apply sublist_cons.
  - by apply sublist_skip.
Qed.

Lemma reminders_get_pop_ne chat_id other d :
  other ≠ chat_id →
  reminders_get other (reminders_pop chat_id d) = reminders_get other d.
Proof.
  intros Hne. unfold reminders_get.
  induction d as [|[k x] d IH]; cbn [reminders_pop]; [done|].
  destruct (decide (k = chat_id)) as [->|Hk].
  - rewrite (bool_decide_eq_true_2 (chat_id = chat_id)) by done. simpl.
    by rewrite bool_decide_eq_false_2.
  - rewrite (bool_decide_eq_false_2 (k = chat_id)) by done. simpl.
    destruct (bool_decide (k = other)); [done | apply IH].
Qed.

Lemma reminders_get_pop_eq chat_id d :
  NoDup (fst <$> d) → reminders_get chat_id (reminders_pop chat_id d) = None.
Proof.
  intros Hnd. apply reminders_get_None.
  induction d as [|[k x] d IH]; cbn [reminders_pop].
  - by intros ?%elem_of_nil.
  - apply NoDup_cons in Hnd as [Hk Hnd]. simpl in Hk.
    destruct (decide (k = chat_id)) as [->|Hne].
    + by rewrite bool_decide_eq_true_2.
    + rewrite bool_decide_eq_false_2 by done.
      intros [?|?]%elem_of_cons; [by subst | by apply IH].
Qed.

Lemma reminders_ok_set chat_id l d :
  l ≠ [] → reminders_ok d → reminders_ok (reminders_set chat_id l d).
Proof.
  intros Hl [Hnd Hne]. split.
  - rewrite reminders_set_keys. case_bool_decide; [done|].
    apply NoDup_app. split; [done|]. split; [|apply NoDup_singleton].
    by intros k Hk ->%list_elem_of_singleton.
  - intros k x [[= -> ->]|Hin]%reminders_set_elem; [done | by eapply Hne].
Qed.

Lemma reminders_ok_pop chat_id d :
  reminders_ok d → reminders_ok (reminders_pop chat_id d).
Proof.
  intros [Hnd Hne]. pose proof (reminders_pop_sublist chat_id d) as Hsub. split.
  - eapply sublist_NoDup; [done|]. by apply fmap_sublist.
  - intros k x Hin. apply (Hne k x). eapply elem_of_sublist; eauto.
Qed.

Lemma display_name_pure rem s :
  ∃ name, display_name rem s = Some (name, s).
Proof. by eexists. Qed.

Section CommandProperties.
Context `{CharTables} `{TimeChecks} `{IntParser}.

Lemma reminder_of_user_data_pure ud time_str s :
  ∃ rem, reminder_of_user_data ud time_str s = Some (rem, s)
         ∧ ∀ r, rem = Some r →
                ud_bus_number ud = Some (rem_bus_number r)
                ∧ ud_bus_stop_code ud = Some (rem_bus_stop r)
                ∧ ud_selected_days ud = Some (rem_days r)
                ∧ rem_time r = time_str.
Proof.
  unfold reminder_of_user_data.
  destruct (ud_bus_number ud) as [bus|]; [|by eexists].
  destruct (ud_bus_stop_code ud) as [code|]; [|by eexists].
  destruct (ud_selected_days ud) as [days|]; [|by eexists].
  destruct (ud_bus_stop_name ud) as [[|c name]|].
  - eexists. split; [reflexivity|]. intros r Hr. simpl in Hr.
    destruct (dict_get code (all_bus_stops_cache s)); by simplify_eq/=.
  - eexists. split; [reflexivity|]. by intros r [= <-].
  - eexists. split; [reflexivity|]. intros r Hr. simpl in Hr.
    destruct (dict_get code (all_bus_stops_cache s)); by simplify_eq/=.
Qed.

(** X17.  [save_reminder] stores a reminder only for a time string that
    passes both checks.  When a check fails it asks again and leaves the
    stored reminders and [user_data] as they were.  Otherwise it appends one
    reminder, built from [user_data] and the trimmed time, to the end of the
    subscriber's list, and leaves the lists of all other subscribers, the
    caches and the log as they were. *)
Theorem save_reminder_stores chat_id text ud s reply next ud' s' :
  save_reminder chat_id text ud s = Some (Some (reply, next, ud'), s') →
  (next = ASK_TIME
   ∧ (matches_HH_MM (strip text) = false ∨ strptime_HM (strip text) = false)
   ∧ s' = s ∧ ud' = ud)
  ∨ (next = END
     ∧ matches_HH_MM (strip text) = true ∧ strptime_HM (strip text) = true
     ∧ ud_time ud' = Some (strip text)
     ∧ ∃ rem,
         ud_bus_number ud = Some (rem_bus_number rem)
         ∧ ud_bus_stop_code ud = Some (rem_bus_stop rem)
         ∧ ud_selected_days ud = Some (rem_days rem)
         ∧ rem_time rem = strip text
         ∧ reminders_get chat_id (user_reminders s')
           = Some (default [] (reminders_get chat_id (user_reminders s)) ++ [rem])
         ∧ (∀ other, other ≠ chat_id →
                     reminders_get other (user_reminders s')
                     = reminders_get other (user_reminders s))
         ∧ s' = with_reminders (user_reminders s') s).
Proof.
  unfold save_reminder.
  destruct (matches_HH_MM (strip text)) eqn:Hre; cbn [negb].
  2:{ intros [= <- <- <- <-]. left. repeat split; auto. }
  destruct (strptime_HM (strip text)) eqn:Hst; cbn [negb].
  2:{ intros [= <- <- <- <-]. left. repeat split; auto. }
  rewrite bind_run.
  destruct (reminder_of_user_data_pure
              (mkUserData (ud_bus_number ud) (ud_bus_stop_code ud)
                 (ud_bus_stop_name ud) (ud_selected_days ud) (Some (strip text)))
              (strip text) s) as (rem & -> & Hrem).
  destruct rem as [rem|]; [|done].
  intros [= <- <- <- <-]. right. do 3 (split; [done|]). split; [done|].
  destruct (Hrem rem eq_refl) as (Hb & Hc & Hd & Ht). simpl in Hb, Hc, Hd.
  exists rem. do 4 (split; [done|]). cbn [user_reminders with_reminders].
  split; [apply reminders_get_set_eq|]. split; [|done].
  intros other Hne. by apply reminders_get_set_ne.
Qed.

(** X18.  [/deletereminder n] with [n] between 1 and the number of the
    subscriber's reminders removes the [n]-th reminder of the subscriber's
    list and nothing else: the rest of the list keeps its order, the lists of
    the other subscribers are as they were, and when the list becomes empty
    the subscriber's entry is removed from [user_reminders]. *)
Theorem delete_reminder_removes chat_id arg more idx reminders s :
  NoDup (fst <$> user_reminders s) →
  reminders_get chat_id (user_reminders s) = Some reminders →
  int_of_str arg = Some idx →
  1 ≤ idx ≤ Z.of_nat (length reminders) →
  ∃ reply removed s',
    delete_reminder chat_id (arg :: more) s = Some (reply, s')
    ∧ reminders !! Z.to_nat (idx - 1) = Some removed
    ∧ reminders_get chat_id (user_reminders s')
      = match delete (Z.to_nat (idx - 1)) reminders with
        | [] => None
        | rest => Some rest
        end
    ∧ delete (Z.to_nat (idx - 1)) reminders
      = take (Z.to_nat (idx - 1)) reminders ++ drop (Z.to_nat idx) reminders
    ∧ (∀ other, other ≠ chat_id →
                reminders_get other (user_reminders s')
                = reminders_get other (user_reminders s))
    ∧ s' = with_reminders (user_reminders s') s.
Proof.
  intros Hnd Hget Hint Hrange. unfold delete_reminder, read_reminders.
  rewrite bind_run, Hget. cbn [from_option id].
  destruct reminders as [|r0 rs]; [simpl in Hrange; lia|].
  rewrite Hint.
  assert (Hin : (idx <? 1) || (Z.of_nat (length (r0 :: rs)) <? idx) = false).
  { apply orb_false_iff. split; apply Z.ltb_ge; lia. }
  rewrite Hin.
  destruct ((r0 :: rs) !! Z.to_nat (idx - 1)) as [removed|] eqn:Hnth.
  2:{ apply lookup_ge_None in Hnth. lia. }
  rewrite bind_run. destruct (display_name_pure removed s) as (name & ->).
  eexists _, removed, _. split; [reflexivity|]. split; [done|].
  cbn [user_reminders with_reminders].
  assert (Hdel : delete (Z.to_nat (idx - 1)) (r0 :: rs)
                 = take (Z.to_nat (idx - 1)) (r0 :: rs)
                   ++ drop (Z.to_nat idx) (r0 :: rs)).
  { rewrite delete_take_drop. do 2 f_equal. lia. }
  destruct (delete (Z.to_nat (idx - 1)) (r0 :: rs)) as [|r1 rest] eqn:Hrest.
  - split; [by apply reminders_get_pop_eq|]. split; [done|]. split; [|done].
    intros other Hne. by apply reminders_get_pop_ne.
  - split; [apply reminders_get_set_eq|]. split; [done|]. split; [|done].
    intros other Hne. by apply reminders_get_set_ne.
Qed.

(** X19.  [/deletereminder] changes nothing when it refuses: without
    reminders, without an argument, with an argument that is not a number,
    or with a number below 1 or above the number of reminders, the state is
    as it was. *)
Theorem delete_reminder_refuses chat_id args s :
  let reminders := default [] (reminders_get chat_id (user_reminders s)) in
  (reminders = []
   ∨ args = []
   ∨ (∃ arg more, args = arg :: more ∧ int_of_str arg = None)
   ∨ (∃ arg more idx, args = arg :: more ∧ int_of_str arg = Some idx
                      ∧ (idx < 1 ∨ Z.of_nat (length reminders) < idx))) →
  ∃ reply, delete_reminder chat_id args s = Some (reply, s).
Proof.
  intros reminders Hcase. unfold delete_reminder, read_reminders.
  rewrite bind_run. fold reminders.
  destruct reminders as [|r0 rs] eqn:Hrem; [by eexists|].
  destruct args as [|arg more]; [by eexists|].
  destruct Hcase as [?|[?|[(a & m & [= <- <-] & Hnone)|(a & m & idx & [= <- <-] & Hsome & Hout)]]];
    try done.
  - rewrite Hnone. by eexists.
  - rewrite Hsome.
    assert (Hb : (idx <? 1) || (Z.of_nat (length (r0 :: rs)) <? idx) = true).
    { apply orb_true_iff. destruct Hout; [left | right]; by apply Z.ltb_lt. }
    rewrite Hb. by eexists.
Qed.

(** X20.  The stored reminders stay well formed: if the chat ids of
    [user_reminders] are distinct and no subscriber has an empty list, the
    same holds after [save_reminder] and after [/deletereminder]. *)
Theorem handlers_keep_reminders_ok chat_id s :
  reminders_ok (user_reminders s) →
  (∀ text ud result s',
     save_reminder chat_id text ud s = Some (result, s') →
     reminders_ok (user_reminders s'))
  ∧ (∀ args reply s',
       delete_reminder chat_id args s = Some (reply, s') →
       reminders_ok (user_reminders s')).
Proof.
  intros Hok. split.
  - intros text ud result s'. unfold save_reminder.
    destruct (negb (matches_HH_MM (strip text))); [by intros [= <- <-]|].
    destruct (negb (strptime_HM (strip text))); [by intros [= <- <-]|].
    rewrite bind_run.
    destruct (reminder_of_user_data_pure
                (mkUserData (ud_bus_number ud) (ud_bus_stop_code ud)
                   (ud_bus_stop_name ud) (ud_selected_days ud) (Some (strip text)))
                (strip text) s) as (rem & -> & _).
    destruct rem as [rem|]; [|by intros [= <- <-]].
    intros [= <- <-]. cbn [user_reminders with_reminders].
    apply reminders_ok_set; [|done]. by destruct (default [] _).
  - intros args reply s'. unfold delete_reminder, read_reminders.
    rewrite bind_run.
    destruct (default [] (reminders_get chat_id (user_reminders s)))
      as [|r0 rs]; [by intros [= <- <-]|].
    destruct args as [|arg more]; [by intros [= <- <-]|].
    destruct (int_of_str arg) as [idx|]; [|by intros [= <- <-]].
    destruct (_ || _); [by intros [= <- <-]|].
    destruct ((r0 :: rs) !! Z.to_nat (idx - 1)) as [removed|];
      [|by intros [= <- <-]].
    rewrite bind_run. destruct (display_name_pure removed s) as (name & ->).
    intros [= <- <-]. cbn [user_reminders with_reminders].
    destruct (delete (Z.to_nat (idx - 1)) (r0 :: rs)) as [|r1 rest].
    + by apply reminders_ok_pop.
    + by apply reminders_ok_set.
Qed.
End CommandProperties.

Lemma with_reminders_same s : with_reminders (user_reminders s) s = s.
Proof. by destruct s. Qed.

Lemma all_reminders_elem chat_id l rem s :
  (chat_id, l) ∈ user_reminders s → rem ∈ l → (chat_id, rem) ∈ all_reminders s.
Proof.
  intros Hl Hrem. unfold all_reminders. apply list_elem_of_In, in_flat_map.
  exists (chat_id, l). split; [by apply list_elem_of_In|].
  apply list_elem_of_In. simpl. by apply list_elem_of_fmap_2.
Qed.

Lemma list_lines_pure `{CharTables} `{TimeChecks} `{IntParser}
    idx reminders s :
  list_lines idx reminders s
  = Some (concat (imap (λ i rem, line_text (all_bus_stops_cache s) (idx + i) rem)
                       reminders), s).
Proof.
  revert idx. induction reminders as [|rem rest IH]; intros idx; [done|].
  cbn [list_lines]. rewrite bind_run. unfold list_line at 1.
  rewrite bind_run. unfold display_name at 1. rewrite bind_run.
  unfold get_bus_stop_name at 1. rewrite bind_run. unfold stops_get at 1.
  cbn [ret]. rewrite bind_run, IH. unfold ret. cbn [imap concat].
  rewrite Nat.add_0_r. do 2 f_equal. unfold line_text, display_text.
  rewrite <- !app_assoc. do 13 f_equal.
  apply imap_ext. intros i x _. simpl. do 2 f_equal. lia.
Qed.

Section MoreCommandProperties.
Context `{CharTables} `{TimeChecks} `{IntParser}.

(** X21.  Saving a reminder and then deleting the last number of the
    subscriber's list gives back the state as it was before the saving
    (with well-formed stored reminders). *)
Theorem save_then_delete_restores chat_id text ud s reply ud' s1 arg more :
  reminders_ok (user_reminders s) →
  save_reminder chat_id text ud s = Some (Some (reply, END, ud'), s1) →
  int_of_str arg
  = Some (Z.of_nat (length (default [] (reminders_get chat_id (user_reminders s))))
          + 1) →
  ∃ reply', delete_reminder chat_id (arg :: more) s1 = Some (reply', s).
Proof.
  intros [Hnd Hne] Hsave Hint. unfold save_reminder in Hsave.
  destruct (negb (matches_HH_MM (strip text))); [by injection Hsave|].
  destruct (negb (strptime_HM (strip text))); [by injection Hsave|].
  rewrite bind_run in Hsave.
  destruct (reminder_of_user_data_pure
              (mkUserData (ud_bus_number ud) (ud_bus_stop_code ud)
                 (ud_bus_stop_name ud) (ud_selected_days ud) (Some (strip text)))
              (strip text) s) as (rem & Hrem & _).
  rewrite Hrem in Hsave. destruct rem as [rem|]; [|done].
  injection Hsave as _ _ <-.
  set (old := default [] (reminders_get chat_id (user_reminders s))) in *.
  unfold delete_reminder, read_reminders. rewrite bind_run.
  cbn [user_reminders with_reminders]. rewrite reminders_get_set_eq.
  cbn [from_option id].
  destruct (old ++ [rem]) as [|r0 rs] eqn:Hnew; [by destruct old|].
  rewrite Hint, <- Hnew.
  assert (Hin : (Z.of_nat (length old) + 1 <? 1)
                || (Z.of_nat (length (old ++ [rem])) <? Z.of_nat (length old) + 1)
                = false).
  { apply orb_false_iff. rewrite length_app. simpl. split; apply Z.ltb_ge; lia. }
  rewrite Hin.
  replace (Z.to_nat (Z.of_nat (length old) + 1 - 1)) with (length old) by lia.
  rewrite list_lookup_middle by done.
  rewrite bind_run. destruct (display_name_pure rem (with_reminders
    (reminders_set chat_id (old ++ [rem]) (user_reminders s)) s)) as (name & ->).
  eexists. do 2 f_equal.
  replace (delete (length old) (old ++ [rem])) with old.
  2:{ rewrite delete_take_drop, take_app_length, drop_app_ge by lia.
      replace (S (length old) - length old)%nat with 1%nat by lia.
      by rewrite app_nil_r. }
  cbn [user_reminders with_reminders].
  destruct old as [|o old'] eqn:Hold.
  - rewrite reminders_pop_set_new; [by destruct s|].
    apply reminders_get_None. subst old.
    destruct (reminders_get chat_id (user_reminders s)) as [l|] eqn:Hget; [|done].
    simpl in Hold. subst l. apply reminders_get_elem in Hget.
    by destruct (Hne _ _ Hget).
  - rewrite reminders_set_set, reminders_set_same; [by destruct s|].
    subst old.
    by destruct (reminders_get chat_id (user_reminders s)) as [l|]; simplify_eq/=.
Qed.

(** X22.  The numbers of [/list] are the numbers of [/deletereminder]: for
    a subscriber with reminders, [/list] answers with one line per reminder,
    numbered from 1 in the order of the list, and changes nothing; and the
    reminder that [/deletereminder n] reports as deleted is the one on line
    [n]. *)
Theorem list_numbers_match_delete chat_id reminders s :
  reminders_get chat_id (user_reminders s) = Some reminders →
  reminders ≠ [] →
  list_reminders chat_id s
  = Some (mkReply (py "*Your Bus Reminders:*" ++ newline ++ newline
                   ++ concat (imap (λ i rem,
                                      line_text (all_bus_stops_cache s) (S i) rem)
                                   reminders))
                  true [], s)
  ∧ ∀ arg more idx removed,
      int_of_str arg = Some idx →
      1 ≤ idx ≤ Z.of_nat (length reminders) →
      reminders !! Z.to_nat (idx - 1) = Some removed →
      imap (λ i rem, line_text (all_bus_stops_cache s) (S i) rem) reminders
        !! Z.to_nat (idx - 1)
      = Some (line_text (all_bus_stops_cache s) (Z.to_nat idx) removed)
      ∧ ∃ s',
          delete_reminder chat_id (arg :: more) s
          = Some (plain (deleted_text idx removed
                           (display_text (all_bus_stops_cache s) removed)), s').
Proof.
  intros Hget Hne. split.
  - unfold list_reminders, read_reminders. rewrite bind_run, Hget.
    cbn [from_option id]. destruct reminders as [|r0 rs]; [done|].
    by rewrite bind_run, list_lines_pure.
  - intros arg more idx removed Hint Hrange Hnth. split.
    + rewrite list_lookup_imap, Hnth. simpl. do 2 f_equal. lia.
    + unfold delete_reminder, read_reminders. rewrite bind_run, Hget.
      cbn [from_option id]. destruct reminders as [|r0 rs]; [done|].
      rewrite Hint.
      assert (Hin : (idx <? 1) || (Z.of_nat (length (r0 :: rs)) <? idx) = false).
      { apply orb_false_iff. split; apply Z.ltb_ge; lia. }
      rewrite Hin, Hnth. by eexists.
Qed.
End MoreCommandProperties.

Section SaveAndTick.
Context `{CharTables} `{TimeChecks} `{IsoParser}.

(** X23.  A saved reminder is served by the scheduler: let no call of
    [send_message] raise and let every listed service have objects under
    ["NextBus"] and ["NextBus2"].  After [save_reminder] has stored a
    reminder, a tick whose [HH:MM] is the saved time string reaches it and
    acts upon it (one arrival request for its stop, then one message to the
    subscriber), unless its days are "weekdays" and the tick falls on a
    Saturday or Sunday; and the tick returns. *)
Theorem saved_reminder_fires chat_id text ud s reply ud' s1 env sg_now :
  save_reminder chat_id text ud s = Some (Some (reply, END, ud'), s1) →
  strftime_HM sg_now = strip text →
  ¬ (ud_selected_days ud = Some (py "weekdays")
     ∧ (lt_weekday sg_now = Saturday ∨ lt_weekday sg_now = Sunday)) →
  delivers env →
  answers_well_formed env →
  ∃ rem before after t1 t2 s2,
    all_reminders s1 = before ++ (chat_id, rem) :: after
    ∧ ud_bus_number ud = Some (rem_bus_number rem)
    ∧ ud_bus_stop_code ud = Some (rem_bus_stop rem)
    ∧ sweep env sg_now before s1 = Some (Returned tt, t1)
    ∧ check_reminder env (strftime_HM sg_now)
        (weekday_index (lt_weekday sg_now)) chat_id rem t1
      = Some (Returned tt, t2)
    ∧ acted_upon chat_id rem t1 t2
    ∧ check_reminders env sg_now s1 = Some (Returned tt, s2).
Proof.
  intros Hsave Htime Hdays Hdelivers Hwf. unfold save_reminder in Hsave.
  destruct (negb (matches_HH_MM (strip text))); [by injection Hsave|].
  destruct (negb (strptime_HM (strip text))); [by injection Hsave|].
  rewrite bind_run in Hsave.
  destruct (reminder_of_user_data_pure
              (mkUserData (ud_bus_number ud) (ud_bus_stop_code ud)
                 (ud_bus_stop_name ud) (ud_selected_days ud) (Some (strip text)))
              (strip text) s) as (rem & Hrem & Hfields).
  rewrite Hrem in Hsave. destruct rem as [rem|]; [|done].
  injection Hsave as _ _ <-.
  destruct (Hfields rem eq_refl) as (Hb & Hc & Hd & Ht). simpl in Hb, Hc, Hd.
  set (s1 := with_reminders _ s).
  assert (Hin : (chat_id, rem) ∈ all_reminders s1).
  { eapply all_reminders_elem.
    - apply reminders_get_elem. subst s1. cbn [user_reminders with_reminders].
      apply reminders_get_set_eq.
    - apply elem_of_app. right. by left. }
  apply list_elem_of_split in Hin as (before & after & Hall).
  assert (Hdue : due sg_now rem).
  { split; [congruence|]. intros [Hw Hwe]. apply Hdays. split; [congruence | done]. }
  destruct (sweep_effects env sg_now before s1)
    as (r1 & t1 & Hbefore & _ & _ & _ & _ & _ & Hgood1).
  rewrite (Hgood1 Hdelivers Hwf) in Hbefore.
  destruct (check_reminder_due env sg_now chat_id rem t1 Hdue)
    as (r & t2 & sent & Hbody & _ & _ & Hlog & Hsent & _ & Hgood).
  rewrite (Hgood Hwf (Hdelivers _)) in Hbody, Hsent.
  destruct (sweep_effects env sg_now (all_reminders s1) s1)
    as (r3 & s2 & Hrun & _ & _ & _ & _ & _ & Hgood3).
  rewrite (Hgood3 Hdelivers Hwf) in Hrun.
  exists rem, before, after, t1, t2, s2. do 5 (split; [done|]). split.
  - destruct Hsent as (msg & md & ->). by exists msg, md.
  - by rewrite check_reminders_sweep.
Qed.
End SaveAndTick.

(** ** The conversation *)

Lemma get_bus_routes_nonempty_cached env fuel service_no s routes s' :
  get_bus_routes env fuel service_no s = Some (routes, s') →
  routes ≠ [] →
  bus_route_cache s' !! service_no = Some routes.
Proof.
  unfold get_bus_routes. rewrite bind_run.
  destruct (get_bus_routes_path env fuel service_no s) as [[[p r] s1]|] eqn:Hcall;
    [|done].
  intros [= <- <-] Hne. simpl in *.
  apply get_bus_routes_path_cache in Hcall as (Hcache & _).
  destruct p.
  - by destruct Hcache as [-> ?].
  - destruct Hcache as [-> _]. apply lookup_insert_eq.
  - destruct Hcache as [-> _]. apply lookup_insert_eq.
  - by destruct Hcache as (_ & ? & _).
Qed.

Lemma get_bus_routes_other_globals env fuel service_no s routes s' :
  get_bus_routes env fuel service_no s = Some (routes, s') →
  all_bus_stops_cache s' = all_bus_stops_cache s
  ∧ user_reminders s' = user_reminders s.
Proof.
  unfold get_bus_routes. rewrite bind_run.
  destruct (get_bus_routes_path env fuel service_no s) as [[[p r] s1]|] eqn:Hcall;
    [|done].
  intros [= <- <-].
  by apply get_bus_routes_path_cache in Hcall as (_ & Hd & Hu & _).
Qed.

Lemma dict_get_elem {V} key (v : V) d : dict_get key d = Some v → (key, v) ∈ d.
Proof.
  unfold dict_get. destruct (List.find _ d) as [[k x]|] eqn:Hfind; [|done].
  intros [= <-]. apply find_some in Hfind as [Hin Hk].
  apply bool_decide_eq_true in Hk. simpl in Hk. subst k.
  by apply list_elem_of_In.
Qed.

Lemma dict_get_NoDup {V} key (v : V) d :
  NoDup (fst <$> d) → (key, v) ∈ d → dict_get key d = Some v.
Proof.
  unfold dict_get. induction d as [|[k x] d IH]; [by intros _ ?%elem_of_nil|].
  intros [Hk Hnd]%NoDup_cons [[= <- <-]|Hin]%elem_of_cons; simpl.
  - by rewrite bool_decide_eq_true_2.
  - destruct (decide (k = key)) as [->|Hne].
    + exfalso. apply Hk. simpl. by apply (list_elem_of_fmap_2 fst) in Hin.
    + rewrite bool_decide_eq_false_2 by done. by apply IH.
Qed.

Section ConversationProperties.
Context `{CharTables} `{TimeChecks}.

(** With the route of the bus in the cache, the validation returns without
    any effect, and a stop it returns is a record of the directory whose
    code is on the route. *)
Lemma validate_cached env fuel bus_number user_input s routes :
  bus_route_cache s !! bus_number = Some routes →
  ∃ result,
    validate_bus_stop_input env fuel bus_number user_input s = Some (result, s)
    ∧ match result with
      | VCodeName code name =>
        code ∈ route_stop_codes routes
        ∧ ∃ stop, dict_get code (all_bus_stops_cache s) = Some stop
                  ∧ name = stop_name stop
      | VStop stop =>
        stop_code stop ∈ route_stop_codes routes
        ∧ stop ∈ dict_values (all_bus_stops_cache s)
      | _ => True
      end.
Proof.
  intros Hc. pose proof (get_bus_routes_hit env fuel _ _ _ Hc) as Hroutes.
  destruct (str_isdigit (strip user_input)
            && bool_decide (length (strip user_input) = 5%nat)) eqn:Hcode.
  - apply andb_true_iff in Hcode as [Hd Hl]. apply bool_decide_eq_true in Hl.
    pose proof (validate_code_path env fuel bus_number user_input s Hd Hl) as Hp.
    simpl in Hp.
    destruct (dict_get (strip user_input) (all_bus_stops_cache s)) as [stop|] eqn:Hg.
    + eexists. split; [by apply Hp|]. case_bool_decide; [|done].
      split; [done|]. by exists stop.
    + by eexists.
  - destruct (validate_name_path env fuel bus_number user_input s Hcode)
      as (matches & Hsearch & Hres).
    destruct matches as [|found [|? ?]]; [by eexists | | by eexists].
    eexists. split; [by apply Hres|].
    destruct (decide (stop_code found ∈ route_stop_codes routes)) as [Hon|Hoff];
      [rewrite (bool_decide_eq_true_2 _ Hon)
      |by rewrite (bool_decide_eq_false_2 _ Hoff)].
    split; [done|].
    unfold search_bus_stops_by_name in Hsearch. rewrite bind_run in Hsearch.
    injection Hsearch as Hfilter.
    assert (Hfound : In found (List.filter
              (name_matches (lower (strip user_input)))
              (dict_values (all_bus_stops_cache s))))
      by (rewrite Hfilter; by left).
    apply filter_In in Hfound as [Hfound _]. by apply list_elem_of_In.
Qed.

(** X24.  [ask_bus_stop] records the trimmed text as the bus number and goes
    on to the stop question exactly when [get_bus_routes] returns a
    non-empty list; the route of the bus is then in the cache.  With an empty
    list (a cached empty route, an empty answer, or an aborted fetch) it
    asks for the bus number again. *)
Theorem ask_bus_stop_accepts_cached_bus env fuel text ud s reply next ud' s' :
  ask_bus_stop env fuel text ud s = Some ((reply, next, ud'), s') →
  ud_bus_number ud' = Some (strip text)
  ∧ ∃ routes,
      get_bus_routes env fuel (strip text) s = Some (routes, s')
      ∧ (routes ≠ [] →
         next = ASK_BUS_STOP
         ∧ bus_route_cache s' !! strip text = Some routes)
      ∧ (routes = [] → next = ASK_BUS_NUMBER).
Proof.
  unfold ask_bus_stop. rewrite bind_run.
  destruct (get_bus_routes env fuel (strip text) s) as [[routes s1]|] eqn:Hr;
    [|done].
  destruct routes as [|r0 rs]; intros [= <- <- <- <-].
  - split; [done|]. exists []. by repeat split.
  - split; [done|]. exists (r0 :: rs). split; [done|]. split; [|done].
    intros Hne. split; [done|]. by eapply get_bus_routes_nonempty_cached.
Qed.

(** What an accepted bus leaves behind: its route in the cache and its
    number in [user_data]; the directory and the reminders are untouched. *)
Lemma ask_bus_stop_accepted env fuel text ud s reply ud1 s1 :
  ask_bus_stop env fuel text ud s = Some ((reply, ASK_BUS_STOP, ud1), s1) →
  ud_bus_number ud1 = Some (strip text)
  ∧ (∃ routes, bus_route_cache s1 !! strip text = Some routes)
  ∧ all_bus_stops_cache s1 = all_bus_stops_cache s
  ∧ user_reminders s1 = user_reminders s.
Proof.
  unfold ask_bus_stop. rewrite bind_run.
  destruct (get_bus_routes env fuel (strip text) s) as [[routes s1']|] eqn:Hr;
    [|done].
  destruct routes as [|r0 rs]; [done|]. intros [= <- <- <-].
  split; [done|]. split.
  - exists (r0 :: rs). by eapply get_bus_routes_nonempty_cached.
  - by eapply get_bus_routes_other_globals.
Qed.

(** The stop handler with the route of the bus of [user_data] in the
    cache. *)
Lemma stop_handler_cached env fuel input ud s bus routes :
  ud_bus_number ud = Some bus →
  bus_route_cache s !! bus = Some routes →
  ∃ reply next ud2,
    validate_and_process_bus_stop env fuel input ud s
    = Some ((reply, next, ud2), s)
    ∧ (next = ASK_DAYS →
       ∃ code stop,
         ud_bus_number ud2 = Some bus
         ∧ ud_bus_stop_code ud2 = Some code
         ∧ ud_bus_stop_name ud2 = Some (stop_name stop)
         ∧ code ∈ route_stop_codes routes
         ∧ (dict_get code (all_bus_stops_cache s) = Some stop
            ∨ (stop ∈ dict_values (all_bus_stops_cache s)
               ∧ code = stop_code stop))).
Proof.
  intros Hbus Hc. unfold validate_and_process_bus_stop. rewrite Hbus.
  destruct bus as [|c bus]; [by eexists _, _, _|].
  rewrite bind_run.
  destruct (validate_cached env fuel (c :: bus) (strip input) s _ Hc)
    as (result & -> & Hres).
  destruct result as [|code name|stop|msg].
  - by eexists _, _, _.
  - eexists _, _, _. split; [reflexivity|]. intros _.
    destruct Hres as (Hin & stop & Hget & ->).
    exists code, stop. repeat split; auto.
  - eexists _, _, _. split; [reflexivity|]. intros _.
    destruct Hres as (Hin & Hval).
    exists (stop_code stop), stop. repeat split; auto.
  - by eexists _, _, _.
Qed.

(** X25.  Once [ask_bus_stop] has accepted a bus, the stop question is
    answered from the caches: [validate_and_process_bus_stop] returns for
    every input and every fuel and leaves the state as it was (no request is
    sent); and when it goes on to the days question, the code and name it
    has put into [user_data] are those of a record of the directory whose
    code is among the stop codes of the cached route of the bus. *)
Theorem stop_question_uses_caches env fuel fuel' text ud s reply ud1 s1 input :
  ask_bus_stop env fuel text ud s = Some ((reply, ASK_BUS_STOP, ud1), s1) →
  ∃ reply2 next2 ud2,
    validate_and_process_bus_stop env fuel' input ud1 s1
    = Some ((reply2, next2, ud2), s1)
    ∧ (next2 = ASK_DAYS →
       ∃ routes code stop,
         bus_route_cache s1 !! strip text = Some routes
         ∧ ud_bus_number ud2 = Some (strip text)
         ∧ ud_bus_stop_code ud2 = Some code
         ∧ ud_bus_stop_name ud2 = Some (stop_name stop)
         ∧ code ∈ route_stop_codes routes
         ∧ (dict_get code (all_bus_stops_cache s1) = Some stop
            ∨ (stop ∈ dict_values (all_bus_stops_cache s1)
               ∧ code = stop_code stop))).
Proof.
  intros Hask.
  destruct (ask_bus_stop_accepted _ _ _ _ _ _ _ _ Hask)
    as (Hbus & (routes & Hc) & _).
  destruct (stop_handler_cached env fuel' input ud1 s1 _ _ Hbus Hc)
    as (reply2 & next2 & ud2 & Hrun & Hdays).
  exists reply2, next2, ud2. split; [done|].
  intros Hnext. destruct (Hdays Hnext) as (code & stop & Hfields).
  by exists routes, code, stop.
Qed.

(** X26.  A conversation that runs through the four questions stores a
    reminder for a stop on the route of its bus.  With a well-formed stop
    directory: when [ask_bus_stop] accepts the bus, the stop handler goes on
    to the days question, a button is pressed, and the time passes the two
    checks, then [save_reminder] ends the conversation and appends a
    reminder whose bus number is the trimmed first text, whose days are the
    button's data, whose time is the trimmed last text, and whose stop is a
    record of the directory (with its name) whose code is among the stop
    codes of the cached route of the bus. *)
Theorem conversation_saves_stop_on_route env fuel fuel' chat_id
    bus_text stop_text data time_text ud s r1 ud1 s1 r2 ud2 s2 :
  directory_ok (all_bus_stops_cache s) →
  ask_bus_stop env fuel bus_text ud s = Some ((r1, ASK_BUS_STOP, ud1), s1) →
  validate_and_process_bus_stop env fuel' stop_text ud1 s1
  = Some ((r2, ASK_DAYS, ud2), s2) →
  matches_HH_MM (strip time_text) = true →
  strptime_HM (strip time_text) = true →
  ∃ r4 ud4 s4 rem routes stop,
    save_reminder chat_id time_text (snd (ask_time data ud2)) s2
    = Some (Some (r4, END, ud4), s4)
    ∧ reminders_get chat_id (user_reminders s4)
      = Some (default [] (reminders_get chat_id (user_reminders s)) ++ [rem])
    ∧ rem_bus_number rem = strip bus_text
    ∧ rem_days rem = data
    ∧ rem_time rem = strip time_text
    ∧ bus_route_cache s4 !! strip bus_text = Some routes
    ∧ rem_bus_stop rem ∈ route_stop_codes routes
    ∧ dict_get (rem_bus_stop rem) (all_bus_stops_cache s4) = Some stop
    ∧ rem_bus_stop_name rem = stop_name stop.
Proof.
  intros Hok Hask Hstop Hre Hst.
  destruct (ask_bus_stop_accepted _ _ _ _ _ _ _ _ Hask)
    as (Hbus1 & (routes & Hc) & Hdir & Hrem).
  destruct (stop_handler_cached env fuel' stop_text ud1 s1 _ _ Hbus1 Hc)
    as (r2' & n2 & ud2' & Hstop' & Hdays).
  rewrite Hstop in Hstop'. injection Hstop' as <- <- <- <-.
  destruct (Hdays eq_refl) as (code & stop & Hbus & Hcode & Hname & Hin & Hrec).
  rewrite Hdir in Hrec. destruct Hok as [Hnd Hentries].
  assert (Hget : dict_get code (all_bus_stops_cache s) = Some stop).
  { destruct Hrec as [Hget|[Hval ->]]; [done|].
    unfold dict_values in Hval. apply list_elem_of_fmap in Hval as ([k v] & -> & Hkv).
    simpl. destruct (Hentries k v Hkv) as [-> _]. by apply dict_get_NoDup. }
  destruct (Hentries code stop (dict_get_elem _ _ _ Hget)) as [_ Hnonempty].
  unfold save_reminder. rewrite Hre, Hst. cbn [negb].
  rewrite bind_run. unfold reminder_of_user_data. cbn [ask_time snd].
  cbn [ud_bus_number ud_bus_stop_code ud_bus_stop_name ud_selected_days].
  rewrite Hbus, Hcode, Hname.
  destruct (stop_name stop) as [|c name] eqn:Hsn; [done|].
  cbn [ret]. eexists _, _, _, _, routes, stop. split; [reflexivity|].
  cbn [user_reminders with_reminders bus_route_cache all_bus_stops_cache
       rem_bus_number rem_days rem_time rem_bus_stop rem_bus_stop_name].
  rewrite Hrem, Hdir. split; [apply reminders_get_set_eq|].
  by repeat split.
Qed.
End ConversationProperties.


(** ** Worked examples of the handlers *)

Lemma demo_reminders_ok : reminders_ok demo_reminders.
Proof.
  split.
  - compute_done.
  - intros chat_id l Hin.
    repeat (apply elem_of_cons in Hin as [[= -> ->]|Hin]; [done|]).
    by apply elem_of_nil in Hin.
Qed.

Lemma demo_stops_ok : directory_ok demo_stops.
Proof.
  split.
  - compute_done.
  - intros key stop Hin.
    repeat (apply elem_of_cons in Hin as [[= -> ->]|Hin]; [by split|]).
    by apply elem_of_nil in Hin.
Qed.

Lemma demo_save :
  @save_reminder ascii_tables ascii_time_checks 1 (py " 07:30 ") demo_user_data
    demo_state
  = Some (Some (demo_saved_reply, END, demo_saved_user_data), demo_saved_state).
Proof. vm_compute. reflexivity. Qed.

Lemma demo_ask_bus_stop :
  @ask_bus_stop ascii_tables demo_env 0 (py " 970 ") empty_user_data demo_state
  = Some ((demo_bus_reply, ASK_BUS_STOP, demo_user_data_bus), demo_state).
Proof. vm_compute. reflexivity. Qed.

Lemma save_reminder_stores_witness :
  ∃ rem,
    reminders_get 1 (user_reminders demo_saved_state)
    = Some (default [] (reminders_get 1 (user_reminders demo_state)) ++ [rem])
    ∧ rem_time rem = @strip ascii_tables (py " 07:30 ").
Proof.
  destruct (@save_reminder_stores ascii_tables ascii_time_checks 1 (py " 07:30 ")
              demo_user_data demo_state demo_saved_reply END demo_saved_user_data
              demo_saved_state demo_save)
    as [(Hnext & _)|(_ & _ & _ & _ & rem & _ & _ & _ & Htime & Hget & _)];
    [discriminate Hnext|].
  exists rem. split; [exact Hget | exact Htime].
Defined.

Lemma delete_reminder_removes_witness :
  ∃ reply s',
    @delete_reminder ascii_int_parser 1 [py "1"] demo_state = Some (reply, s')
    ∧ reminders_get 1 (user_reminders s') = None
    ∧ reminders_get 2 (user_reminders s') = Some [reminder_15].
Proof.
  destruct (@delete_reminder_removes ascii_int_parser 1 (py "1") [] 1
              [reminder_970] demo_state)
    as (reply & removed & s' & Hrun & _ & Hget & _ & Hother & _).
  - apply demo_reminders_ok.
  - reflexivity.
  - reflexivity.
  - simpl. lia.
  - exists reply, s'. split; [exact Hrun|]. split; [exact Hget|].
    rewrite (Hother 2); [reflexivity | discriminate].
Defined.

Lemma delete_reminder_refuses_witness :
  ∃ reply, @delete_reminder ascii_int_parser 1 [py "7"] demo_state
           = Some (reply, demo_state).
Proof.
  apply (@delete_reminder_refuses ascii_int_parser 1 [py "7"] demo_state).
  right. right. right. exists (py "7"), [], 7.
  split; [reflexivity|]. split; [reflexivity|]. right. simpl. lia.
Defined.

Lemma handlers_keep_reminders_ok_witness :
  reminders_ok (user_reminders demo_saved_state).
Proof.
  apply (proj1 (@handlers_keep_reminders_ok ascii_tables ascii_time_checks
                  ascii_int_parser 1 demo_state demo_reminders_ok)
               (py " 07:30 ") demo_user_data _ demo_saved_state demo_save).
Defined.

Lemma save_then_delete_restores_witness :
  ∃ reply', @delete_reminder ascii_int_parser 1 [py "2"] demo_saved_state
            = Some (reply', demo_state).
Proof.
  apply (@save_then_delete_restores ascii_tables ascii_time_checks
           ascii_int_parser 1 (py " 07:30 ") demo_user_data demo_state
           demo_saved_reply demo_saved_user_data demo_saved_state (py "2") []).
  - apply demo_reminders_ok.
  - apply demo_save.
  - reflexivity.
Defined.

Lemma list_numbers_match_delete_witness :
  list_reminders 1 demo_state
  = Some (mkReply (py "*Your Bus Reminders:*" ++ newline ++ newline
                   ++ line_text demo_stops 1 reminder_970 ++ [])
                  true [], demo_state).
Proof.
  apply (proj1 (@list_numbers_match_delete ascii_tables ascii_time_checks
                  ascii_int_parser 1 [reminder_970]
                  demo_state eq_refl ltac:(discriminate))).
Defined.

Lemma demo_env_well_formed : answers_well_formed demo_env.
Proof.
  intros n st services svc Hanswer Hin.
  destruct n as [|[|n]]; [discriminate Hanswer | | discriminate Hanswer].
  injection Hanswer as _ <-. apply list_elem_of_singleton in Hin as ->.
  split; discriminate.
Qed.

Lemma saved_reminder_fires_witness :
  ∃ s2, @check_reminders IsoFragment.parser demo_env (mkLocal 7 30 Monday)
          demo_saved_state = Some (Returned tt, s2)
        ∧ length (log s2) = 2%nat.
Proof.
  destruct (@saved_reminder_fires ascii_tables ascii_time_checks
              IsoFragment.parser 1 (py " 07:30 ") demo_user_data demo_state
              demo_saved_reply demo_saved_user_data demo_saved_state demo_env
              (mkLocal 7 30 Monday))
    as (rem & before & after & t1 & t2 & s2 & _ & _ & _ & _ & _ & _ & Hrun).
  - apply demo_save.
  - vm_compute. reflexivity.
  - intros [Hdays _]. discriminate Hdays.
  - intros n. reflexivity.
  - apply demo_env_well_formed.
  - exists s2. split; [exact Hrun|].
    vm_compute in Hrun. by injection Hrun as <-.
Defined.

Lemma ask_bus_stop_accepts_cached_bus_witness :
  ud_bus_number demo_user_data_bus = Some (@strip ascii_tables (py " 970 "))
  ∧ ∃ routes,
      get_bus_routes demo_env 0 (@strip ascii_tables (py " 970 ")) demo_state
      = Some (routes, demo_state)
      ∧ (routes ≠ [] →
         ASK_BUS_STOP = ASK_BUS_STOP
         ∧ bus_route_cache demo_state !! @strip ascii_tables (py " 970 ")
           = Some routes)
      ∧ (routes = [] → ASK_BUS_STOP = ASK_BUS_NUMBER).
Proof.
  apply (@ask_bus_stop_accepts_cached_bus ascii_tables demo_env 0 (py " 970 ")
           empty_user_data demo_state demo_bus_reply ASK_BUS_STOP
           demo_user_data_bus demo_state demo_ask_bus_stop).
Defined.

Lemma stop_question_uses_caches_witness :
  ∃ reply2 next2 ud2,
    @validate_and_process_bus_stop ascii_tables demo_env 0 (py "Jurong")
      demo_user_data_bus demo_state
    = Some ((reply2, next2, ud2), demo_state).
Proof.
  destruct (@stop_question_uses_caches ascii_tables demo_env 0 0 (py " 970 ")
              empty_user_data demo_state demo_bus_reply demo_user_data_bus
              demo_state (py "Jurong") demo_ask_bus_stop)
    as (reply2 & next2 & ud2 & Hrun & _).
  exists reply2, next2, ud2. exact Hrun.
Defined.

Lemma conversation_saves_stop_on_route_witness :
  ∃ rem routes,
    reminders_get 1 (user_reminders demo_saved_state)
    = Some (default [] (reminders_get 1 (user_reminders demo_state)) ++ [rem])
    ∧ bus_route_cache demo_saved_state !! @strip ascii_tables (py " 970 ")
      = Some routes
    ∧ rem_bus_stop rem ∈ route_stop_codes routes.
Proof.
  destruct (@conversation_saves_stop_on_route ascii_tables ascii_time_checks
              demo_env 0 0 1 (py " 970 ") (py "28009") (py "everyday")
              (py " 07:30 ") empty_user_data demo_state demo_bus_reply
              demo_user_data_bus demo_state
              (fst (fst (stop_confirmed demo_user_data_bus (py "28009")
                                        (py "Jurong East Int"))))
              (snd (stop_confirmed demo_user_data_bus (py "28009")
                                   (py "Jurong East Int")))
              demo_state)
    as (r4 & ud4 & s4 & rem & routes & stop & Hrun & Hget & _ & _ & _ & Hc & Hin & _).
  - apply demo_stops_ok.
  - apply demo_ask_bus_stop.
  - vm_compute. reflexivity.
  - reflexivity.
  - reflexivity.
  - assert (Hs4 : s4 = demo_saved_state).
    { vm_compute in Hrun. by injection Hrun as _ _ <-. }
    subst s4. exists rem, routes. split; [exact Hget|]. split; [exact Hc | exact Hin].
Defined.


(** ** The scan of the table *)

Lemma table_items_elem (table : gmap str DynamoDB.Item) item :
  table_keyed table →
  item ∈ snd <$> map_to_list table ↔ table !! DynamoDB.reminder_id item = Some item.
Proof.
  intros Hkeyed. rewrite list_elem_of_fmap. split.
  - intros ([k i] & -> & Hin%elem_of_map_to_list). simpl.
    by rewrite (Hkeyed _ _ Hin).
  - intros Hget. exists (DynamoDB.reminder_id item, item).
    split; [done|]. by apply elem_of_map_to_list.
Qed.

Lemma table_items_ids (table : gmap str DynamoDB.Item) :
  table_keyed table →
  DynamoDB.reminder_id <$> (snd <$> map_to_list table) = fst <$> map_to_list table.
Proof.
  intros Hkeyed. rewrite <- list_fmap_compose. apply list_eq. intros i.
  rewrite !list_lookup_fmap.
  destruct (map_to_list table !! i) as [[k item]|] eqn:Hi; [|done]. simpl.
  apply list_elem_of_lookup_2, elem_of_map_to_list in Hi.
  by rewrite (Hkeyed _ _ Hi).
Qed.

Lemma table_items_NoDup (table : gmap str DynamoDB.Item) :
  table_keyed table → NoDup (snd <$> map_to_list table).
Proof.
  intros Hkeyed. apply (NoDup_fmap_1 DynamoDB.reminder_id).
  rewrite table_items_ids by done. apply NoDup_fst_map_to_list.
Qed.

Lemma demo_table_keyed : table_keyed demo_table.
Proof.
  intros key item Hget. unfold demo_table in Hget.
  by apply lookup_singleton_Some in Hget as [<- <-].
Qed.

Lemma demo_table_3_keyed : table_keyed demo_table_3.
Proof.
  intros key item Hget. unfold demo_table_3 in Hget.
  repeat (apply lookup_insert_Some in Hget as [[<- <-]|[_ Hget]]; [done|]).
  by apply demo_table_keyed.
Qed.

(** X27.  With a table whose items sit under their own ids and a page that
    holds the whole table, [get_all_reminders] returns the items of the
    table, each once, and [get_user_reminders] of a subscriber lists exactly
    those of them that carry the subscriber's chat id, each once, in the
    order of the index (which need not be that of the scan).  When the scan
    fails the result is the empty list. *)
Theorem get_all_reminders_lists_table `{DynamoDB.IndexOrder} (page : nat)
    (table : gmap str DynamoDB.Item) :
  table_keyed table →
  (size table ≤ page)%nat →
  (∀ item, item ∈ DynamoDB.get_all_reminders false page table
           ↔ table !! DynamoDB.reminder_id item = Some item)
  ∧ NoDup (DynamoDB.reminder_id <$> DynamoDB.get_all_reminders false page table)
  ∧ length (DynamoDB.get_all_reminders false page table) = size table
  ∧ (∀ chat,
       DynamoDB.get_user_reminders false page chat table
       ≡ₚ DynamoDB.listed_of
            <$> filter (λ item, DynamoDB.chat_id item = chat)
                       (DynamoDB.get_all_reminders false page table))
  ∧ (∀ chat,
       NoDup (DynamoDB.listed_id
                <$> DynamoDB.get_user_reminders false page chat table))
  ∧ DynamoDB.get_all_reminders true page table = [].
Proof.
  intros Hkeyed Hpage.
  assert (Hall : DynamoDB.get_all_reminders false page table
                 = snd <$> map_to_list table).
  { unfold DynamoDB.get_all_reminders, DynamoDB.scan.
    apply take_ge. by rewrite length_fmap, length_map_to_list. }
  rewrite Hall. split; [|split; [|split; [|split; [|split; [|done]]]]].
  - intros item. by apply table_items_elem.
  - rewrite table_items_ids by done. apply NoDup_fst_map_to_list.
  - by rewrite length_fmap, length_map_to_list.
  - intros chat. by apply get_user_reminders_whole.
  - intros chat. rewrite (get_user_reminders_whole page chat table Hpage).
    rewrite <- list_fmap_compose.
    change (DynamoDB.listed_id ∘ DynamoDB.listed_of) with DynamoDB.reminder_id.
    apply (sublist_NoDup _ (DynamoDB.reminder_id <$> (snd <$> map_to_list table)));
      [|apply fmap_sublist, sublist_filter].
    rewrite table_items_ids by done. apply NoDup_fst_map_to_list.
Qed.

(** Two reminders of subscriber 2: the index lists them in the reverse of
    the order of the scan. *)
Lemma get_all_reminders_lists_table_witness :
  length (DynamoDB.get_all_reminders false 10 demo_table_3) = 3%nat
  ∧ @DynamoDB.get_user_reminders DynamoDB.reversed_index false 10 2 demo_table_3
    ≡ₚ DynamoDB.listed_of
         <$> filter (λ item, DynamoDB.chat_id item = 2)
                    (DynamoDB.get_all_reminders false 10 demo_table_3)
  ∧ @DynamoDB.get_user_reminders DynamoDB.reversed_index false 10 2 demo_table_3
    ≠ DynamoDB.listed_of
        <$> filter (λ item, DynamoDB.chat_id item = 2)
                   (DynamoDB.get_all_reminders false 10 demo_table_3).
Proof.
  destruct (@get_all_reminders_lists_table DynamoDB.reversed_index 10 demo_table_3)
    as (_ & _ & Hlen & Huser & _).
  - apply demo_table_3_keyed.
  - vm_compute. lia.
  - split; [exact Hlen|]. split; [exact (Huser 2)|].
    vm_compute. discriminate.
Defined.

(** X28.  [get_all_reminders] reads one answer of the scan and does not ask
    for further pages: what it returns are stored items, at most a page of
    them, and when the table holds more items than the page, some stored
    reminder is not in the result. *)
Theorem get_all_reminders_first_page_only (fails : bool) (page : nat)
    (table : gmap str DynamoDB.Item) :
  table_keyed table →
  (page < size table)%nat →
  (length (DynamoDB.get_all_reminders fails page table) ≤ page)%nat
  ∧ (∀ item, item ∈ DynamoDB.get_all_reminders fails page table →
             table !! DynamoDB.reminder_id item = Some item)
  ∧ ∃ item, table !! DynamoDB.reminder_id item = Some item
            ∧ item ∉ DynamoDB.get_all_reminders fails page table.
Proof.
  intros Hkeyed Hpage.
  set (items := snd <$> map_to_list table).
  assert (Hlen : length items = size table)
    by (unfold items; by rewrite length_fmap, length_map_to_list).
  assert (Hnd : NoDup items) by by apply table_items_NoDup.
  assert (Hsub : ∀ item, item ∈ DynamoDB.get_all_reminders fails page table →
                         item ∈ take page items).
  { intros item. unfold DynamoDB.get_all_reminders, DynamoDB.scan.
    destruct fails; [by intros ?%elem_of_nil | done]. }
  split; [|split].
  - unfold DynamoDB.get_all_reminders, DynamoDB.scan.
    destruct fails; [simpl; lia|]. fold items. rewrite length_take. lia.
  - intros item Hin%Hsub. apply table_items_elem; [done|].
    fold items. eapply elem_of_sublist; [done | apply sublist_take].
  - destruct (drop page items) as [|item rest] eqn:Hdrop.
    { apply (f_equal length) in Hdrop. rewrite length_drop in Hdrop.
      simpl in Hdrop. lia. }
    exists item. rewrite <- (take_drop page items), Hdrop in Hnd.
    apply NoDup_app in Hnd as (_ & Hdisj & _). split.
    + apply table_items_elem; [done|]. fold items.
      rewrite <- (take_drop page items), Hdrop.
      apply elem_of_app. right. by left.
    + intros Hin%Hsub. apply (Hdisj _ Hin). by left.
Qed.

Lemma get_all_reminders_first_page_only_witness :
  ∃ item, demo_table !! DynamoDB.reminder_id item = Some item
          ∧ item ∉ DynamoDB.get_all_reminders false 0 demo_table.
Proof.
  refine (proj2 (proj2 (get_all_reminders_first_page_only false 0 demo_table _ _))).
  - apply demo_table_keyed.
  - vm_compute. lia.
Defined.

(** X29.  [add_reminder] and [delete_reminder] keep every item of the table
    under its own id, whatever the service does. *)
Theorem persistence_keeps_table_keyed (table : gmap str DynamoDB.Item) :
  table_keyed table →
  (∀ fails uuid chat_id bus_number bus_stop bus_stop_name days time,
     table_keyed (DynamoDB.add_reminder fails uuid chat_id bus_number bus_stop
                    bus_stop_name days time table).2)
  ∧ (∀ fails reminder_id,
       table_keyed (DynamoDB.delete_reminder fails reminder_id table).2).
Proof.
  intros Hkeyed. split.
  - intros fails uuid chat_id bus_number bus_stop bus_stop_name days time.
    unfold DynamoDB.add_reminder, DynamoDB.put_item. destruct fails; [done|].
    simpl. intros key item [[<- <-]|[_ Hget]]%lookup_insert_Some; [done|].
    by apply Hkeyed.
  - intros fails reminder_id.
    unfold DynamoDB.delete_reminder, DynamoDB.delete_item.
    destruct reminder_id as [[|c id]|]; [done| |done].
    destruct fails; [done|].
    assert (Hdel : table_keyed (delete (c :: id) table)).
    { intros key item [_ Hget]%lookup_delete_Some. by apply Hkeyed. }
    by destruct (table !! (c :: id)).
Qed.

Lemma persistence_keeps_table_keyed_witness :
  table_keyed (DynamoDB.add_reminder false (py "r-2") 2 (py "15") (py "28019")
                 (py "Jurong Town Hall Int") (py "everyday") (py "08:00")
                 demo_table).2.
Proof.
  refine (proj1 (persistence_keeps_table_keyed demo_table _) false (py "r-2") 2
                (py "15") (py "28019") (py "Jurong Town Hall Int")
                (py "everyday") (py "08:00")).
  apply demo_table_keyed.
Defined.
